(** * QScripts: file monitor, dependency manifests and [$token$] expansion

    A shallow embedding of [qscripts.cpp]: the file/dependency records, the
    manifest parser [parse_deps_for_script], the expander [expand_string] and
    the monitor callback [filemon_timer_cb], followed by the properties that
    were checked against them.

    Conventions.
    - A value of type [string] stands for the contents of a C string
      ([qstring] / [const char *]); the terminating NUL is not represented.
    - [qtime64_t] time stamps are modelled by [Z]; the code only compares them
      and stores [0].
    - The file system, the process environment and the script engines are
      read through a [world] record; the messages and engine calls the
      plugin performs are appended to the world's event log. *)

From Stdlib Require Import String Ascii List ZArith Bool Lia.
Import ListNotations.
Open Scope string_scope.

(** ** C string helpers *)

(** [strncmp(a, b, n) == 0] on NUL-terminated strings. *)
Fixpoint strncmp_eq (n : nat) (a b : string) : bool :=
  match n with
  | O => true
  | S n' =>
      match a, b with
      | EmptyString, EmptyString => true
      | String x a', String y b' => Ascii.eqb x y && strncmp_eq n' a' b'
      | _, _ => false
      end
  end.

(** [p + n] on a C string: the suffix after the first [n] characters. *)
Fixpoint str_drop (n : nat) (s : string) : string :=
  match n, s with
  | O, _ => s
  | S n', String _ s' => str_drop n' s'
  | S _, EmptyString => EmptyString
  end.

(** [qstring::resize(n)] for [n] within the length: the first [n] characters. *)
Fixpoint str_take (n : nat) (s : string) : string :=
  match n, s with
  | S n', String c s' => String c (str_take n' s')
  | _, _ => EmptyString
  end.

Definition str_empty (s : string) : bool :=
  match s with EmptyString => true | _ => false end.

(** [qstring::replace(from, to)] for one-character arguments. *)
Fixpoint str_replace_char (from to : ascii) (s : string) : string :=
  match s with
  | EmptyString => EmptyString
  | String c s' =>
      String (if Ascii.eqb c from then to else c) (str_replace_char from to s')
  end.

(** [qstring::rfind(c)]: index of the last occurrence, [None] for [-1]. *)
Fixpoint str_rfind (c : ascii) (s : string) : option nat :=
  match s with
  | EmptyString => None
  | String x s' =>
      match str_rfind c s' with
      | Some i => Some (S i)
      | None => if Ascii.eqb x c then Some O else None
      end
  end.

Fixpoint str_contains (c : ascii) (s : string) : bool :=
  match s with
  | EmptyString => false
  | String x s' => Ascii.eqb x c || str_contains c s'
  end.

(** [qstring::trim2()]: blanks removed at both ends. *)
Fixpoint ltrim (s : string) : string :=
  match s with
  | String " " s' => ltrim s'
  | _ => s
  end.

Fixpoint rtrim (s : string) : string :=
  match s with
  | EmptyString => EmptyString
  | String c s' =>
      match rtrim s' with
      | EmptyString => if Ascii.eqb c " " then EmptyString else String c EmptyString
      | t => String c t
      end
  end.

Definition trim2 (s : string) : string := ltrim (rtrim s).

(** [SDIRCHAR] of a Unix build. *)
Definition SDIRCHAR : ascii := "/"%char.

(** ** File modification state *)

Inductive filemod_status_e : Type :=
| not_found
| not_modified
| modified.

Definition filemod_status_eqb (a b : filemod_status_e) : bool :=
  match a, b with
  | not_found, not_found | not_modified, not_modified | modified, modified => true
  | _, _ => false
  end.

(** ** The outside world *)

(** What the plugin tells the host, in order. *)
Inductive event : Type :=
| ev_msg (text : string)
| ev_msg_clear
| ev_unlink (path : string)
| ev_refresh_chooser
| ev_process_ui_action (action : string)
| ev_eval_snippet (script_file cmd : string) (ok : bool)
| ev_call_func (script_file func : string) (ok : bool)
| ev_compile_file (script_file : string) (ok : bool).

(** An [extlang_t]: the three entry points the plugin calls, as oracles
    telling whether the call succeeds.  What a script does to the files is
    not modelled: between two calls of the monitor the world may be any
    other world. *)
Record extlang_t : Type := mk_extlang {
  el_eval_snippet : string -> bool;
  el_compile_file : string -> bool;
  el_call_func : string -> bool;
  el_is_idc : bool
}.

Record world : Type := mk_world {
  w_mtime : string -> option Z;            (* stat: modification time of a path *)
  w_lines : string -> option (list string);(* qfopen + qgetline: lines of a text file *)
  w_env : string -> option string;         (* qgetenv *)
  w_extlang : string -> option extlang_t;  (* find_extlang_by_ext *)
  w_log : list event
}.

Definition emit (e : event) (w : world) : world :=
  mk_world (w_mtime w) (w_lines w) (w_env w) (w_extlang w) (w_log w ++ [e]).

(** [qunlink]: the file is gone afterwards. *)
Definition qunlink (path : string) (w : world) : world :=
  mk_world
    (fun p => if String.eqb p path then None else w_mtime w p)
    (fun p => if String.eqb p path then None else w_lines w p)
    (w_env w) (w_extlang w) (w_log w ++ [ev_unlink path]).

(** Modelled from the spec: [get_file_modification_time] of [utils_impl.cpp]
    (FileStat, "mtime(path) -> (found, t)").  The out-parameter [old] is
    written only when the file is found. *)
Definition get_file_modification_time (w : world) (path : string) (old : Z)
  : bool * Z :=
  match w_mtime w path with
  | Some t => (true, t)
  | None => (false, old)
  end.

(** ** fileinfo_t *)

Record fileinfo_t : Type := mk_fileinfo {
  file_path : string;
  modified_time : Z
}.

Definition fileinfo_new : fileinfo_t := mk_fileinfo "" 0.

Definition fileinfo_empty (fi : fileinfo_t) : bool := str_empty (file_path fi).

Definition fileinfo_clear (fi : fileinfo_t) : fileinfo_t := mk_fileinfo "" 0.

(** [refresh(file_path)] with a non-null argument. *)
Definition refresh (w : world) (fi : fileinfo_t) (path : string)
  : bool * fileinfo_t :=
  let (ok, t) := get_file_modification_time w path (modified_time fi) in
  (ok, mk_fileinfo path t).

Definition get_modification_status (w : world) (fi : fileinfo_t)
    (update_mtime : bool) : filemod_status_e * fileinfo_t :=
  match w_mtime w (file_path fi) with
  | None =>
      (not_found,
       if update_mtime then mk_fileinfo (file_path fi) 0 else fi)
  | Some cur_mtime =>
      if Z.eqb cur_mtime (modified_time fi) then (not_modified, fi)
      else (modified,
            if update_mtime then mk_fileinfo (file_path fi) cur_mtime else fi)
  end.

Definition invalidate (fi : fileinfo_t) : fileinfo_t :=
  mk_fileinfo (file_path fi) 0.

(** ** script_info_t and active_script_info_t *)

Record script_info_t : Type := mk_script_info {
  si_file : fileinfo_t;          (* base class fileinfo_t *)
  reload_cmd : string;
  pkg_base : string
}.

Definition script_info_new : script_info_t := mk_script_info fileinfo_new "" "".

Definition has_reload_directive (si : script_info_t) : bool :=
  negb (str_empty (reload_cmd si)).

Definition si_set_file (si : script_info_t) (fi : fileinfo_t) : script_info_t :=
  mk_script_info fi (reload_cmd si) (pkg_base si).

(** [std::unordered_map<std::string, script_info_t>] as an association list
    with one entry per key; the list order stands for the iteration order. *)
Definition dep_map : Type := list (string * script_info_t).

Fixpoint dep_find (k : string) (m : dep_map) : option script_info_t :=
  match m with
  | [] => None
  | (k', v) :: m' => if String.eqb k' k then Some v else dep_find k m'
  end.

(** [m[k] = v] *)
Fixpoint dep_assign (k : string) (v : script_info_t) (m : dep_map) : dep_map :=
  match m with
  | [] => [(k, v)]
  | (k', v') :: m' =>
      if String.eqb k' k then (k', v) :: m' else (k', v') :: dep_assign k v m'
  end.

Record active_script_info_t : Type := mk_active {
  as_script : script_info_t;     (* base class script_info_t *)
  trigger_file : fileinfo_t;
  b_keep_trigger_file : bool;
  dep_indices : list fileinfo_t;
  dep_scripts : dep_map
}.

Definition as_file (a : active_script_info_t) : fileinfo_t := si_file (as_script a).
Definition as_path (a : active_script_info_t) : string := file_path (as_file a).

Definition set_as_script (a : active_script_info_t) (s : script_info_t) :=
  mk_active s (trigger_file a) (b_keep_trigger_file a) (dep_indices a) (dep_scripts a).
Definition set_as_file (a : active_script_info_t) (fi : fileinfo_t) :=
  set_as_script a (si_set_file (as_script a) fi).
Definition set_trigger_file (a : active_script_info_t) (t : fileinfo_t) :=
  mk_active (as_script a) t (b_keep_trigger_file a) (dep_indices a) (dep_scripts a).
Definition set_keep_trigger (a : active_script_info_t) (b : bool) :=
  mk_active (as_script a) (trigger_file a) b (dep_indices a) (dep_scripts a).
Definition set_dep_indices (a : active_script_info_t) (l : list fileinfo_t) :=
  mk_active (as_script a) (trigger_file a) (b_keep_trigger_file a) l (dep_scripts a).
Definition set_dep_scripts (a : active_script_info_t) (m : dep_map) :=
  mk_active (as_script a) (trigger_file a) (b_keep_trigger_file a) (dep_indices a) m.

Definition has_dep (a : active_script_info_t) (dep_file : string)
  : option script_info_t :=
  dep_find dep_file (dep_scripts a).

Definition trigger_based (a : active_script_info_t) : bool :=
  negb (fileinfo_empty (trigger_file a)).

(** The loop of [is_any_dep_index_modified]: stop at the first index file
    that is not [not_modified]; the files visited have been updated. *)
Fixpoint dep_indices_status (w : world) (update_mtime : bool)
    (l : list fileinfo_t) : filemod_status_e * list fileinfo_t :=
  match l with
  | [] => (not_modified, [])
  | dep_file :: rest =>
      let (r, dep_file') := get_modification_status w dep_file update_mtime in
      match r with
      | not_modified =>
          let (r', rest') := dep_indices_status w update_mtime rest in
          (r', dep_file' :: rest')
      | _ => (r, dep_file' :: rest)
      end
  end.

Definition is_any_dep_index_modified (w : world) (a : active_script_info_t)
    (update_mtime : bool) : filemod_status_e * active_script_info_t :=
  let (r, l) := dep_indices_status w update_mtime (dep_indices a) in
  (r, set_dep_indices a l).

Definition add_dep_index (w : world) (a : active_script_info_t)
    (dep_file : string) : bool * active_script_info_t :=
  match get_file_modification_time w dep_file 0 with
  | (false, _) => (false, a)
  | (true, t) =>
      (true, set_dep_indices a (dep_indices a ++ [mk_fileinfo dep_file t]))
  end.

(** [operator=(const script_info_t &)]: path and time stamp are copied, the
    dependency tables are emptied; nothing else is touched.  When [rhs] is
    the object itself the copy is skipped, which leaves the same two fields. *)
Definition active_assign (a : active_script_info_t) (rhs : script_info_t)
  : active_script_info_t :=
  mk_active
    (si_set_file (as_script a) (si_file rhs))
    (trigger_file a) (b_keep_trigger_file a) [] [].

Definition active_clear (a : active_script_info_t) : active_script_info_t :=
  mk_active script_info_new fileinfo_new false [] [].

Definition invalidate_dep (kv : string * script_info_t) : string * script_info_t :=
  (fst kv, si_set_file (snd kv) (invalidate (si_file (snd kv)))).

Definition invalidate_all_scripts (a : active_script_info_t)
  : active_script_info_t :=
  set_dep_scripts (set_as_file a (invalidate (as_file a)))
                  (map invalidate_dep (dep_scripts a)).

(** ** The expander *)

Record expand_ctx_t : Type := mk_ctx {
  script_file : string;
  main_file : bool;
  base_dir : string;
  ctx_pkg_base : string;
  ctx_reload_cmd : string
}.

(** [.] of an ECMAScript regular expression: any character but a line
    terminator. *)
Definition is_line_terminator (c : ascii) : bool :=
  Ascii.eqb c "010"%char || Ascii.eqb c "013"%char.

Definition is_dollar (c : ascii) : bool := Ascii.eqb c "$"%char.

(** Shortest run of [.] up to the next ['$']: the run and what follows the
    ['$']. *)
Fixpoint scan_to_dollar (s : string) : option (string * string) :=
  match s with
  | EmptyString => None
  | String c s' =>
      if is_dollar c then Some (EmptyString, s')
      else if is_line_terminator c then None
      else match scan_to_dollar s' with
           | Some (inner, rest) => Some (String c inner, rest)
           | None => None
           end
  end.

(** A match of [\$(.+?)\$] anchored right after an opening ['$']: group 1
    and the text that follows the match. *)
Definition match_token (s : string) : option (string * string) :=
  match s with
  | EmptyString => None
  | String c s' =>
      if is_line_terminator c then None
      else match scan_to_dollar s' with
           | Some (inner, rest) => Some (String c inner, rest)
           | None => None
           end
  end.

(** Modelled from the spec: the callback form of [regex_replace] used by
    [expand_string] lives in [utils_impl.cpp]; every match of [RE_EXPANDER],
    found left to right without overlap, is replaced by [f] of its group 1
    ("single-pass").  [n] bounds the number of steps. *)
Fixpoint regex_replace_n (n : nat) (f : string -> string) (s : string) : string :=
  match n with
  | O => s
  | S n' =>
      match s with
      | EmptyString => EmptyString
      | String c s' =>
          if is_dollar c then
            match match_token s' with
            | Some (group1, rest) => f group1 ++ regex_replace_n n' f rest
            | None => String c (regex_replace_n n' f s')
            end
          else String c (regex_replace_n n' f s')
      end
  end.

Definition regex_replace (f : string -> string) (s : string) : string :=
  regex_replace_n (String.length s) f s.

(** ** Code that depends on the path helpers of the host *)

Section QScripts.

(** [make_abs_path(path, base_dir, normalize)] and [get_basename_and_ext] of
    [utils_impl.cpp], [qdirname] and [get_file_ext] of the SDK: their code is
    not part of the translated file, so they stay abstract. *)
Variable make_abs_path : string -> string -> string.
Variable qdirname : string -> string.
Variable get_basename : string -> string.
Variable get_file_ext : string -> option string.

(** The callback of [expand_string]; [match1] is group 1 of the match.  In
    the [pkgmodname] case the C code reads [script_file + length + 1], which
    is past the end when [script_file] equals [pkg_base]; the model yields
    the empty string there. *)
Definition expand_token (w : world) (sel : active_script_info_t)
    (ctx : expand_ctx_t) (match1 : string) : string :=
  if strncmp_eq 10 match1 "pkgmodname" then
    let pkg_base :=
      match has_dep sel (script_file ctx) with
      | None => pkg_base (as_script sel)
      | Some dep_file => pkg_base dep_file
      end in
    if strncmp_eq (String.length pkg_base) (script_file ctx) pkg_base then
      let s := str_drop (String.length pkg_base + 1) (script_file ctx) in
      let s := str_replace_char SDIRCHAR "."%char s in
      match str_rfind "."%char s with
      | Some idx => str_take idx s
      | None => s
      end
    else ""
  else if strncmp_eq 7 match1 "pkgbase" then ctx_pkg_base ctx
  else if strncmp_eq 8 match1 "basename" then get_basename (script_file ctx)
  else if strncmp_eq 4 match1 "env:" then
    match w_env w (str_drop 4 match1) with
    | Some env => env
    | None => match1
    end
  else match1.

Definition expand_string (w : world) (sel : active_script_info_t)
    (input : string) (ctx : expand_ctx_t) : string :=
  regex_replace (expand_token w sel ctx) input.

Definition expand_file_name (w : world) (sel : active_script_info_t)
    (filename : string) (ctx : expand_ctx_t) : string :=
  make_abs_path (expand_string w sel filename ctx) (base_dir ctx).

(** *** The manifest parser *)

(** The [get_value] lambda: [None] is [nullptr]. *)
Definition get_value (str key : string) (key_len : nat) : option string :=
  if negb (strncmp_eq key_len str key) then None
  else if Nat.leb (String.length str) key_len then Some ""
  else Some (str_drop (key_len + 1) str).

Definition is_skipped_line (line : string) : bool :=
  str_empty line || strncmp_eq 2 line "//" ||
  match line with
  | String c _ => Ascii.eqb c "#"%char || Ascii.eqb c ";"%char
  | EmptyString => false
  end.

Definition ctx_set_script_file (ctx : expand_ctx_t) (s : string) :=
  mk_ctx s (main_file ctx) (base_dir ctx) (ctx_pkg_base ctx) (ctx_reload_cmd ctx).
Definition ctx_set_base_dir (ctx : expand_ctx_t) (s : string) :=
  mk_ctx (script_file ctx) (main_file ctx) s (ctx_pkg_base ctx) (ctx_reload_cmd ctx).
Definition ctx_set_pkg_base (ctx : expand_ctx_t) (s : string) :=
  mk_ctx (script_file ctx) (main_file ctx) (base_dir ctx) s (ctx_reload_cmd ctx).
Definition ctx_set_reload_cmd (ctx : expand_ctx_t) (s : string) :=
  mk_ctx (script_file ctx) (main_file ctx) (base_dir ctx) (ctx_pkg_base ctx) s.

(** [sub_ctx]: a copy of [ctx] for the script [line], no longer the main file. *)
Definition make_sub_ctx (ctx : expand_ctx_t) (line : string) : expand_ctx_t :=
  mk_ctx line false (base_dir ctx) (ctx_pkg_base ctx) (ctx_reload_cmd ctx).

(** The [/triggerfile] branch of the loop body. *)
Definition parse_triggerfile (w : world) (ctx : expand_ctx_t)
    (sel : active_script_info_t) (trigger_file0 : string)
  : active_script_info_t :=
  let (trigger_file1, sel1) :=
    match get_value trigger_file0 "/keep" 5 with
    | Some keep => (keep, set_keep_trigger sel true)
    | None => (trigger_file0, sel)
    end in
  if main_file ctx then
    let refreshed := snd (refresh w (trigger_file sel1) trigger_file1) in
    set_trigger_file sel1
      (mk_fileinfo (expand_file_name w sel1 (file_path refreshed) ctx)
                   (modified_time refreshed))
  else sel1.

(** One turn of the [for] loop of [parse_deps_for_script] up to the point
    where the code recurses: the new context, the new active script and,
    when a dependency script was recorded, its path. *)
Definition parse_line (w : world) (ctx : expand_ctx_t)
    (sel : active_script_info_t) (raw : string)
  : expand_ctx_t * active_script_info_t * option string :=
  let line := trim2 raw in
  if is_skipped_line line then (ctx, sel, None)
  else
    match get_value line "/pkgbase" 8 with
    | Some val =>
        (if main_file ctx
         then ctx_set_pkg_base ctx (make_abs_path val (base_dir ctx))
         else ctx, sel, None)
    | None =>
    match get_value line "/reload" 7 with
    | Some val =>
        (if main_file ctx then ctx_set_reload_cmd ctx val else ctx, sel, None)
    | None =>
    match get_value line "/triggerfile" 12 with
    | Some trigger_file0 => (ctx, parse_triggerfile w ctx sel trigger_file0, None)
    | None =>
        let ctx := ctx_set_script_file ctx line in
        let line := expand_file_name w sel line ctx in
        match w_mtime w line with
        | None => (ctx, sel, None)
        | Some t =>
            let dep_script :=
              mk_script_info (mk_fileinfo line t)
                             (ctx_reload_cmd ctx) (ctx_pkg_base ctx) in
            (ctx,
             set_dep_scripts sel (dep_assign line dep_script (dep_scripts sel)),
             Some line)
        end
    end end end.

(** The [for] loop; [rec] is the recursive call on a [sub_ctx]. *)
Fixpoint parse_lines
    (rec : expand_ctx_t -> active_script_info_t -> option active_script_info_t)
    (w : world) (lines : list string) (ctx : expand_ctx_t)
    (sel : active_script_info_t) : option active_script_info_t :=
  match lines with
  | [] => Some sel
  | raw :: rest =>
      match parse_line w ctx sel raw with
      | (ctx', sel', None) => parse_lines rec w rest ctx' sel'
      | (ctx', sel', Some line) =>
          match rec (make_sub_ctx ctx' line) sel' with
          | Some sel'' => parse_lines rec w rest ctx' sel''
          | None => None
          end
      end
  end.

(** The index file of a script: [.deps.qscripts], else [.proj.qscripts]. *)
Definition open_dep_file (w : world) (script : string)
  : option (string * list string) :=
  let dep_file := script ++ ".deps.qscripts" in
  match w_lines w dep_file with
  | Some lines => Some (dep_file, lines)
  | None =>
      let dep_file := script ++ ".proj.qscripts" in
      match w_lines w dep_file with
      | Some lines => Some (dep_file, lines)
      | None => None
      end
  end.

(** [parse_deps_for_script]; the C++ recursion has no bound, [fuel] is the
    depth allowed here and [None] means it was exceeded.  The result is the
    active script (the [bool] the code returns is never used). *)
Fixpoint parse_deps_for_script (fuel : nat) (w : world) (ctx : expand_ctx_t)
    (sel : active_script_info_t) : option active_script_info_t :=
  match fuel with
  | O => None
  | S fuel' =>
      match open_dep_file w (script_file ctx) with
      | None => Some sel
      | Some (dep_file, lines) =>
          let ctx := ctx_set_base_dir ctx (qdirname dep_file) in
          let sel := snd (add_dep_index w sel dep_file) in
          parse_lines (parse_deps_for_script fuel' w) w lines ctx sel
      end
  end.

Definition set_selected_script (fuel : nat) (w : world)
    (sel : active_script_info_t) (script : script_info_t)
  : option active_script_info_t :=
  let sel := active_assign sel script in
  let main_ctx := mk_ctx (file_path (si_file script)) true "" "" "" in
  parse_deps_for_script fuel w main_ctx sel.

(** *** The plugin object *)

Record qscripts_chooser_t : Type := mk_chooser {
  m_b_filemon_timer_active : bool;
  opt_change_interval : Z;
  opt_clear_log : bool;
  opt_show_filename : bool;
  opt_exec_unload_func : bool;
  opt_with_undo : bool;
  selected_script : active_script_info_t
}.

Definition set_selected (st : qscripts_chooser_t) (a : active_script_info_t) :=
  mk_chooser (m_b_filemon_timer_active st) (opt_change_interval st)
    (opt_clear_log st) (opt_show_filename st) (opt_exec_unload_func st)
    (opt_with_undo st) a.

(** [activate_monitor]: the new object and the previous state. *)
Definition activate_monitor (st : qscripts_chooser_t) (activate : bool)
  : qscripts_chooser_t * bool :=
  (mk_chooser activate (opt_change_interval st)
     (opt_clear_log st) (opt_show_filename st) (opt_exec_unload_func st)
     (opt_with_undo st) (selected_script st),
   m_b_filemon_timer_active st).

Definition is_monitor_active (st : qscripts_chooser_t) : bool :=
  m_b_filemon_timer_active st.

Definition has_selected_script (st : qscripts_chooser_t) : bool :=
  negb (str_empty (as_path (selected_script st))).

Definition clear_selected_script (st : qscripts_chooser_t) : qscripts_chooser_t :=
  fst (activate_monitor (set_selected st (active_clear (selected_script st))) false).

Definition normalize_filemon_interval (change_interval : Z) : Z :=
  Z.max 300 change_interval.

Definition UNLOAD_SCRIPT_FUNC_NAME : string := "__quick_unload_script".
Definition ACTION_EXECUTE_SCRIPT_WITH_UNDO_ID : string := "qscripts:execscriptwithundo".

(** [execute_reload_directive] with [silent = true]. *)
Definition execute_reload_directive (w : world) (sel : active_script_info_t)
    (dep_script_file : script_info_t) : bool * world :=
  let script_file := file_path (si_file dep_script_file) in
  let ext := match get_file_ext script_file with Some e => e | None => "" end in
  match w_extlang w ext with
  | None => (false, w)
  | Some elang =>
      let ctx := mk_ctx script_file false "" "" "" in
      let reload_cmd := expand_string w sel (reload_cmd dep_script_file) ctx in
      let ok := el_eval_snippet elang reload_cmd in
      (ok, emit (ev_eval_snippet script_file reload_cmd ok) w)
  end.

Definition emit_if (b : bool) (e : event) (w : world) : world :=
  if b then emit e w else w.

(** The body of [execute_script_sync] between the two [activate_monitor]
    calls, for the engine [elang]. *)
Definition run_script (st : qscripts_chooser_t) (elang : extlang_t)
    (script_file : string) (w : world) : bool * world :=
  let w := emit_if (opt_clear_log st) ev_msg_clear w in
  let w := emit_if (opt_exec_unload_func st)
             (ev_call_func script_file UNLOAD_SCRIPT_FUNC_NAME
                (el_call_func elang UNLOAD_SCRIPT_FUNC_NAME)) w in
  let w := emit_if (opt_show_filename st)
             (ev_msg ("QScripts executing " ++ script_file ++ "...")) w in
  let exec_ok := el_compile_file elang script_file in
  let w := emit (ev_compile_file script_file exec_ok) w in
  if negb exec_ok then
    (false, emit (ev_msg ("QScripts failed to compile script file: '"
                          ++ script_file ++ "'")) w)
  else if el_is_idc elang then
    let exec_ok := el_call_func elang "main" in
    let w := emit (ev_call_func script_file "main" exec_ok) w in
    if negb exec_ok then
      (false, emit (ev_msg ("QScripts failed to run the IDC main() of file '"
                            ++ script_file ++ "'")) w)
    else (true, w)
  else (true, w).

(** [execute_script_sync]: the monitor flag is lowered for the duration of
    the call and put back to its previous value. *)
Definition execute_script_sync (st : qscripts_chooser_t) (w : world)
    (script_info : script_info_t) : bool * script_info_t * world :=
  let script_file := file_path (si_file script_info) in
  match w_mtime w script_file with
  | None =>
      (false, script_info,
       emit (ev_msg ("Script file '" ++ script_file ++ "' not found!")) w)
  | Some t =>
      let script_info := si_set_file script_info (mk_fileinfo script_file t) in
      let elang :=
        match get_file_ext script_file with
        | None => None
        | Some script_ext => w_extlang w script_ext
        end in
      match elang with
      | None =>
          (false, script_info,
           emit (ev_msg ("Unknown script language detected for '"
                         ++ script_file ++ "'!")) w)
      | Some elang =>
          let (exec_ok, w) := run_script st elang script_file w in
          (exec_ok, script_info, w)
      end
  end.

(** [execute_script]: with undo the host is asked to run the registered
    action, which is outside this object. *)
Definition execute_script (st : qscripts_chooser_t) (w : world)
    (script_info : script_info_t) (with_undo : bool)
  : script_info_t * world :=
  if with_undo then
    (script_info, emit (ev_process_ui_action ACTION_EXECUTE_SCRIPT_WITH_UNDO_ID) w)
  else
    let '(_, script_info, w) := execute_script_sync st w script_info in
    (script_info, w).

(** *** The monitor *)

(** The loop over [dep_scripts] in [filemon_timer_cb]: the updated table,
    [dep_script_changed], [brk] and the world.  [sel] is the active script as
    [expand_string] sees it; the loop rewrites time stamps only. *)
Fixpoint check_dep_scripts (w : world) (sel : active_script_info_t)
    (deps : dep_map) : dep_map * bool * bool * world :=
  match deps with
  | [] => ([], false, false, w)
  | (k, dep_script) :: rest =>
      let (status, fi) := get_modification_status w (si_file dep_script) true in
      let dep_script := si_set_file dep_script fi in
      match status with
      | modified =>
          if has_reload_directive dep_script then
            let (ok, w) := execute_reload_directive w sel dep_script in
            if ok then
              let '(rest', _, brk, w) := check_dep_scripts w sel rest in
              ((k, dep_script) :: rest', true, brk, w)
            else
              ((k, dep_script) :: rest, true, true,
               emit (ev_msg "QScripts: warning: failed to execute reload directive") w)
          else
            let '(rest', _, brk, w) := check_dep_scripts w sel rest in
            ((k, dep_script) :: rest', true, brk, w)
      | _ =>
          let '(rest', changed, brk, w) := check_dep_scripts w sel rest in
          ((k, dep_script) :: rest', changed, brk, w)
      end
  end.

(** The trigger-file block: [None] is the [break] taken while the trigger
    file has not changed. *)
Definition check_trigger (w : world) (sel : active_script_info_t)
  : active_script_info_t * option world :=
  if trigger_based sel then
    let (trigger_status, tf) := get_modification_status w (trigger_file sel) true in
    let sel := set_trigger_file sel tf in
    match trigger_status with
    | modified =>
        let w := if b_keep_trigger_file sel then w else qunlink (file_path tf) w in
        (set_as_file sel (invalidate (as_file sel)), Some w)
    | _ => (sel, None)
    end
  else (sel, Some w).

(** The part of the callback after the index files were found unchanged or
    missing ([mod_stat]). *)
Definition check_scripts (st : qscripts_chooser_t) (w : world)
    (sel : active_script_info_t) (mod_stat : filemod_status_e)
  : qscripts_chooser_t * world :=
  let sel :=
    match mod_stat, dep_scripts sel with
    | not_found, _ :: _ => set_dep_scripts sel []
    | _, _ => sel
    end in
  let '(deps, dep_script_changed, brk, w) :=
    check_dep_scripts w sel (dep_scripts sel) in
  let sel := set_dep_scripts sel deps in
  if brk then (set_selected st sel, w)
  else
    let (mod_stat, fi) := get_modification_status w (as_file sel) true in
    let sel := set_as_file sel fi in
    match mod_stat with
    | not_found =>
        (clear_selected_script (set_selected st sel),
         emit (ev_msg ("QScripts detected that the active script '"
                       ++ as_path sel ++ "' no longer exists!")) w)
    | _ =>
        if dep_script_changed || filemod_status_eqb mod_stat modified then
          let (script, w) := execute_script st w (as_script sel) (opt_with_undo st) in
          (set_selected st (set_as_script sel script), w)
        else (set_selected st sel, w)
    end.

(** [filemon_timer_cb]: the new object, the world and the delay until the
    next call.  [fuel] bounds the recursion of the re-parse; [None] is
    returned only when that bound is exceeded. *)
Definition filemon_timer_cb (fuel : nat) (st : qscripts_chooser_t) (w : world)
  : option (qscripts_chooser_t * world * Z) :=
  if negb (is_monitor_active st) || negb (has_selected_script st) then
    Some (st, w, opt_change_interval st)
  else
    match check_trigger w (selected_script st) with
    | (sel, None) => Some (set_selected st sel, w, opt_change_interval st)
    | (sel, Some w) =>
        let (mod_stat, sel) := is_any_dep_index_modified w sel true in
        match mod_stat with
        | modified =>
            let sel := set_dep_scripts sel [] in
            match set_selected_script fuel w sel (as_script sel) with
            | None => None
            | Some sel =>
                Some (set_selected st (invalidate_all_scripts sel),
                      emit ev_refresh_chooser w, 1%Z)
            end
        | _ =>
            let (st, w) := check_scripts st w sel mod_stat in
            Some (st, w, opt_change_interval st)
        end
    end.

End QScripts.

(** ** A concrete host for examples *)

Module Unix.

Definition make_abs_path (path base : string) : string :=
  match path with
  | String "/" _ => path
  | _ => base ++ "/" ++ path
  end.

Definition qdirname (p : string) : string :=
  match str_rfind "/"%char p with
  | Some i => str_take i p
  | None => "."
  end.

Definition get_file_ext (p : string) : option string :=
  match str_rfind "."%char p with
  | Some i => Some (str_drop (S i) p)
  | None => None
  end.

Definition get_basename (p : string) : string :=
  let b := match str_rfind "/"%char p with
           | Some i => str_drop (S i) p
           | None => p
           end in
  match str_rfind "."%char b with
  | Some i => str_take i b
  | None => b
  end.

(** A finite table as a lookup function. *)
Fixpoint table {A : Type} (l : list (string * A)) (p : string) : option A :=
  match l with
  | [] => None
  | (k, v) :: l' => if String.eqb k p then Some v else table l' p
  end.

Definition no_env : string -> option string := fun _ => None.

(** An engine whose snippets always fail and whose files always compile. *)
Definition failing_reload : extlang_t :=
  mk_extlang (fun _ => false) (fun _ => true) (fun _ => true) false.

(** An engine on which everything succeeds. *)
Definition python : extlang_t :=
  mk_extlang (fun _ => true) (fun _ => true) (fun _ => true) false.

Definition fresh : active_script_info_t :=
  mk_active script_info_new fileinfo_new false [] [].

Definition script (path : string) (t : Z) : script_info_t :=
  mk_script_info (mk_fileinfo path t) "" "".

Definition chooser (active : bool) (sel : active_script_info_t)
  : qscripts_chooser_t :=
  mk_chooser active 500 false false false false sel.

Definition set_selected_script :=
  set_selected_script make_abs_path qdirname get_basename.
Definition parse_line := parse_line make_abs_path get_basename.
Definition expand_string := expand_string get_basename.
Definition filemon_timer_cb :=
  filemon_timer_cb make_abs_path qdirname get_basename get_file_ext.

End Unix.

(** ** Fixtures of the examples *)

Definition is_some {A : Type} (o : option A) : bool :=
  match o with Some _ => true | None => false end.

(** A world with an empty file system, for statements about single lines. *)
Definition empty_world : world :=
  mk_world (fun _ => None) (fun _ => None) (fun _ => None) (fun _ => None) [].

Definition top_ctx (script dir : string) : expand_ctx_t :=
  mk_ctx script true dir "" "".

(** A script [/t/lib.py] reached from the main script: not the main file. *)
Definition sub_ctx_lib : expand_ctx_t := mk_ctx "/t/lib.py" false "/t" "" "".

(** An active script in trigger mode: [/t/go], deleted after each firing. *)
Definition sel_trigger_go : active_script_info_t :=
  mk_active (Unix.script "/t/a.py" 5) (mk_fileinfo "/t/go" 0) false [] [].

(** [/t/a.py] names a trigger file and one dependency, [/t/lib.py], whose
    own index file has a [/triggerfile /keep] line. *)
Definition world_nested_keep : world :=
  mk_world
    (Unix.table [("/t/a.py", 5%Z); ("/t/a.py.deps.qscripts", 6%Z);
                 ("/t/lib.py", 7%Z); ("/t/lib.py.deps.qscripts", 8%Z)])
    (Unix.table [("/t/a.py.deps.qscripts", ["/triggerfile /t/go"; "/t/lib.py"]);
                 ("/t/lib.py.deps.qscripts", ["/triggerfile /keep /t/other"])])
    Unix.no_env (Unix.table [("py", Unix.python)]) [].

(** [/t/a.py] with a package base and one module of the package. *)
Definition world_pkgbase : world :=
  mk_world
    (Unix.table [("/t/a.py", 5%Z); ("/t/a.py.deps.qscripts", 6%Z);
                 ("/t/pkg/mod.py", 7%Z)])
    (Unix.table [("/t/a.py.deps.qscripts", ["/pkgbase pkg"; "pkg/mod.py"])])
    Unix.no_env (Unix.table [("py", Unix.python)]) [].

(** [/t/a.py] with a relative trigger file; the working directory of the
    process is [/t], so that [go] and [/t/go] are the same file. *)
Definition world_relative_trigger : world :=
  mk_world
    (Unix.table [("/t/a.py", 5%Z); ("/t/a.py.deps.qscripts", 6%Z);
                 ("go", 7%Z); ("/t/go", 7%Z)])
    (Unix.table [("/t/a.py.deps.qscripts", ["/triggerfile go"])])
    Unix.no_env (Unix.table [("py", Unix.python)]) [].

(** The same manifest seen from another working directory: no file [go]. *)
Definition world_relative_trigger_elsewhere : world :=
  mk_world
    (Unix.table [("/t/a.py", 5%Z); ("/t/a.py.deps.qscripts", 6%Z);
                 ("/t/go", 7%Z)])
    (Unix.table [("/t/a.py.deps.qscripts", ["/triggerfile go"])])
    Unix.no_env (Unix.table [("py", Unix.python)]) [].

(** ** Predicates used in the statements *)

Definition dep_keys (m : dep_map) : list string := map fst m.

Definition dep_path (kv : string * script_info_t) : string :=
  file_path (si_file (snd kv)).

Definition dep_mtime (kv : string * script_info_t) : Z :=
  modified_time (si_file (snd kv)).

Definition dep_paths (m : dep_map) : list string := map dep_path m.

(** A line of an index file that is neither skipped nor a directive. *)
Definition is_dep_line (line : string) : bool :=
  negb (is_skipped_line line) &&
  negb (is_some (get_value line "/pkgbase" 8)) &&
  negb (is_some (get_value line "/reload" 7)) &&
  negb (is_some (get_value line "/triggerfile" 12)).


(** The events appended to the log between [w] and [w']. *)
Definition new_events (w w' : world) : list event :=
  skipn (List.length (w_log w)) (w_log w').

(** A step of the Executor: what [execute_script] may tell the host. *)
Definition is_executor_event (e : event) : bool :=
  match e with
  | ev_process_ui_action _ | ev_msg_clear
  | ev_call_func _ _ _ | ev_compile_file _ _ => true
  | _ => false
  end.

(** The world [w'] is [w] with [evs] appended to its log. *)
Definition logged (w w' : world) (evs : list event) : Prop :=
  w_mtime w' = w_mtime w /\ w_lines w' = w_lines w /\ w_env w' = w_env w /\
  w_extlang w' = w_extlang w /\ w_log w' = (w_log w ++ evs)%list.



(** What the loop over the dependency scripts guarantees: [evs] is what it
    logged while turning [deps] into [deps'] in the world [w]. *)
Definition dep_loop_post (w : world) (deps deps' : dep_map) (brk : bool)
    (w' : world) : Prop :=
  exists evs, logged w w' evs /\
    Forall (fun e => is_executor_event e = false) evs /\
    dep_paths deps' = dep_paths deps /\
    (forall p cmd ok, In (ev_eval_snippet p cmd ok) evs ->
       exists kv t, In kv deps /\ dep_path kv = p /\
                    w_mtime w p = Some t /\ t <> dep_mtime kv) /\
    (brk = false -> forall p cmd, ~ In (ev_eval_snippet p cmd false) evs) /\
    (NoDup (dep_paths deps) ->
     forall p cmd, In (ev_eval_snippet p cmd false) evs ->
     forall kv, In kv deps' -> dep_path kv = p ->
       w_mtime w p = Some (dep_mtime kv)).

Definition is_eval_snippet (e : event) : bool :=
  match e with ev_eval_snippet _ _ _ => true | _ => false end.

(** [/t/a.py] depends on [/t/lib.py], reloaded with [import lib]; the file
    of the library carries the time stamp [lib_mtime], and [py] is the
    engine registered for the extension. *)
Definition world_lib (lib_mtime manifest_mtime : Z) (py : extlang_t) : world :=
  mk_world
    (Unix.table [("/t/a.py", 5%Z); ("/t/a.py.deps.qscripts", manifest_mtime);
                 ("/t/lib.py", lib_mtime)])
    (Unix.table [("/t/a.py.deps.qscripts", ["/reload import lib"; "/t/lib.py"])])
    Unix.no_env (Unix.table [("py", py)]) [].

(** The monitor armed on [/t/a.py] while [/t/lib.py] had time stamp 1. *)
Definition st_lib : qscripts_chooser_t :=
  Unix.chooser true
    (match Unix.set_selected_script 5 (world_lib 1 6 Unix.python) Unix.fresh
             (Unix.script "/t/a.py" 5) with
     | Some sel => sel
     | None => Unix.fresh
     end).

(** The result of a tick, for chaining two of them. *)
Definition tick_result (st : qscripts_chooser_t) (w : world)
  : qscripts_chooser_t * world * Z :=
  match Unix.filemon_timer_cb 5 st w with
  | Some r => r
  | None => (st, w, 0%Z)
  end.

(** [/t/lib.py] was saved (time stamp 7) and its reload snippet fails. *)
Definition world_lib_saved : world := world_lib 7 6 Unix.failing_reload.

Definition after_failed_reload : qscripts_chooser_t * world * Z :=
  tick_result st_lib world_lib_saved.

(** The index file was saved (time stamp 9). *)
Definition world_manifest_saved : world := world_lib 1 9 Unix.python.

(** The active script after the index file of [st_lib] was probed and
    parsed again in [world_manifest_saved]. *)
Definition sel_probed : active_script_info_t :=
  snd (is_any_dep_index_modified world_manifest_saved (selected_script st_lib) true).

Definition sel_reparsed : active_script_info_t :=
  match Unix.set_selected_script 5 world_manifest_saved
          (set_dep_scripts sel_probed []) (as_script sel_probed) with
  | Some sel => sel
  | None => Unix.fresh
  end.

(** The table as [std::unordered_map] keeps it: one entry per key, filed
    under the path of its script. *)
Definition deps_wf (m : dep_map) : Prop :=
  NoDup (dep_keys m) /\ Forall (fun kv => dep_path kv = fst kv) m.

(** [/t/a.py] lists itself in its index file. *)
Definition world_plain_self : world :=
  mk_world
    (Unix.table [("/t/a.py", 5%Z); ("/t/a.py.deps.qscripts", 6%Z)])
    (Unix.table [("/t/a.py.deps.qscripts", ["/t/a.py"])])
    Unix.no_env (Unix.table [("py", Unix.python)]) [].

(** The stored time stamp of [fi] is the one of the file in [w]. *)
Definition fresh (w : world) (fi : fileinfo_t) : Prop :=
  w_mtime w (file_path fi) = Some (modified_time fi).

(** [fi] is as a probe with [update_mtime] leaves it: the time stamp of the
    file, or 0 when there is no file. *)
Definition settled (w : world) (fi : fileinfo_t) : Prop :=
  match w_mtime w (file_path fi) with
  | Some t => modified_time fi = t
  | None => modified_time fi = 0%Z
  end.

(** The active script after [/t/a.py] was selected in [w], [prev] being the
    selection before. *)
Definition select_a_py (w : world) (prev : active_script_info_t)
  : active_script_info_t :=
  match Unix.set_selected_script 5 w prev (Unix.script "/t/a.py" 5) with
  | Some sel => sel
  | None => Unix.fresh
  end.

(** The text between the dollars of a match of [RE_EXPANDER] that holds no
    further dollar: not empty, no ['$'], no line terminator. *)
Definition is_token (tok : string) : bool :=
  negb (str_empty tok) && negb (str_contains "$" tok) &&
  negb (str_contains "010" tok) && negb (str_contains "013" tok).

(** [s] with what follows its last ['.'] cut off, the dot included. *)
Definition cut_extension (s : string) : string :=
  match str_rfind "."%char s with
  | Some idx => str_take idx s
  | None => s
  end.

(** [/t/a.py] with the package base [/t/pkg] and the module
    [/t/pkg/sub/mod.py] of the package. *)
Definition world_pkg_sub : world :=
  mk_world
    (Unix.table [("/t/a.py", 5%Z); ("/t/a.py.deps.qscripts", 6%Z);
                 ("/t/pkg/sub/mod.py", 7%Z)])
    (Unix.table [("/t/a.py.deps.qscripts", ["/pkgbase pkg"; "pkg/sub/mod.py"])])
    Unix.no_env (Unix.table [("py", Unix.python)]) [].

Definition is_refresh (e : event) : bool :=
  match e with ev_refresh_chooser => true | _ => false end.

(** The message logged when the loop over the dependencies is left
    because a reload directive failed. *)
Definition reload_warning : event :=
  ev_msg "QScripts: warning: failed to execute reload directive".

Definition dep_settled (w : world) (kv : string * script_info_t) : Prop :=
  settled w (si_file (snd kv)).

(** The setting of [world_lib] with the files and time stamps [files]. *)
Definition world_of (files : list (string * Z)) : world :=
  mk_world (Unix.table files)
    (Unix.table [("/t/a.py.deps.qscripts", ["/reload import lib"; "/t/lib.py"])])
    Unix.no_env (Unix.table [("py", Unix.python)]) [].

(** [/t/a.py] was saved (time stamp 8). *)
Definition world_main_saved : world :=
  world_of [("/t/a.py", 8%Z); ("/t/a.py.deps.qscripts", 6%Z); ("/t/lib.py", 1%Z)].

(** [/t/a.py] was removed. *)
Definition world_main_gone : world :=
  world_of [("/t/a.py.deps.qscripts", 6%Z); ("/t/lib.py", 1%Z)].

(** The index file was removed. *)
Definition world_manifest_gone : world :=
  world_of [("/t/a.py", 5%Z); ("/t/lib.py", 1%Z)].


(** The monitor armed on [/t/a.py] in trigger mode. *)
Definition st_trigger : qscripts_chooser_t := Unix.chooser true sel_trigger_go.

(** ** The list of the chooser *)

(** [m_scripts.find({script_file})]: [fileinfo_t::operator==] compares the
    paths only. *)
Definition scripts_find (m_scripts : list script_info_t) (script_file : string)
  : option script_info_t :=
  find (fun si => String.eqb (file_path (si_file si)) script_file) m_scripts.

(** [add_script]: the borrowed reference ([None] for [nullptr]), the list and
    the world. *)
Definition add_script (w : world) (m_scripts : list script_info_t)
    (script_file : string) (silent unique : bool)
  : option script_info_t * list script_info_t * world :=
  match (if unique then scripts_find m_scripts script_file else None) with
  | Some p => (Some p, m_scripts, w)
  | None =>
      match get_file_modification_time w script_file 0 with
      | (false, _) =>
          (None, m_scripts,
           emit_if (negb silent)
             (ev_msg ("Script file not found: '" ++ script_file ++ "'")) w)
      | (true, mtime) =>
          let si := mk_script_info (mk_fileinfo script_file mtime) "" "" in
          (Some si, (m_scripts ++ [si])%list, w)
      end
  end.

(** The loop of [build_scripts_list] over the list read from the registry:
    [m_scripts], [m_nselected] and [find_idx] at its end.  An index is a
    [nat], [NO_SELECTION] is [None].  [add_script] is called with
    [silent = true] and leaves the world alone. *)
Fixpoint build_scripts_loop (w : world) (b_has_selected_script : bool)
    (selected : string) (find_script : option string)
    (scripts_list : list string) (m_scripts : list script_info_t)
    (m_nselected : option nat) (idx : nat) (find_idx : option nat)
  : list script_info_t * option nat * option nat :=
  match scripts_list with
  | [] => (m_scripts, m_nselected, find_idx)
  | script_file :: rest =>
      let m_nselected :=
        if b_has_selected_script && String.eqb selected script_file
        then Some idx else m_nselected in
      let find_idx :=
        match find_script with
        | Some f => if String.eqb script_file f then Some idx else find_idx
        | None => find_idx
        end in
      let '(r, m_scripts, _) := add_script w m_scripts script_file true true in
      let idx := if is_some r then S idx else idx in
      build_scripts_loop w b_has_selected_script selected find_script rest
        m_scripts m_nselected idx find_idx
  end.

(** [build_scripts_list]: the rebuilt [m_scripts], [m_nselected] and the
    returned [find_idx]; [scripts_list] is what [reg_read_strlist] gives. *)
Definition build_scripts_list (st : qscripts_chooser_t) (w : world)
    (scripts_list : list string) (find_script : option string)
  : list script_info_t * option nat * option nat :=
  let b_has_selected_script := has_selected_script st in
  let selected :=
    if b_has_selected_script then as_path (selected_script st) else "" in
  build_scripts_loop w b_has_selected_script selected find_script scripts_list
    [] None 0 None.

(** The paths of the rows of the chooser. *)
Definition script_paths (m_scripts : list script_info_t) : list string :=
  map (fun si => file_path (si_file si)) m_scripts.

(** A row as [add_script] makes it: the file exists and the row holds its
    time stamp and no directive. *)
Definition listed (w : world) (si : script_info_t) : Prop :=
  fresh w (si_file si) /\ reload_cmd si = "" /\ pkg_base si = "".

(** The scripts of the registry for the examples. *)
Definition recent_scripts : list string := ["/t/a.py"; "/t/old.py"; "/t/lib.py"].

(** ** Activating a row *)

Section Chooser_rows.

Variable make_abs_path : string -> string -> string.
Variable qdirname : string -> string.
Variable get_basename : string -> string.
Variable get_file_ext : string -> option string.


End Chooser_rows.


(** [/t/lib.py] and [/t/a.py] were both saved (time stamps 7 and 8), and the
    reload snippet of the library fails. *)
Definition world_both_saved : world :=
  mk_world
    (Unix.table [("/t/a.py", 8%Z); ("/t/a.py.deps.qscripts", 6%Z);
                 ("/t/lib.py", 7%Z)])
    (Unix.table [("/t/a.py.deps.qscripts", ["/reload import lib"; "/t/lib.py"])])
    Unix.no_env (Unix.table [("py", Unix.failing_reload)]) [].

(** The index file of [/t/a.py] was saved (time stamp 9) with a line that
    names [/t/a.py] itself. *)
Definition world_manifest_cyclic : world :=
  mk_world
    (Unix.table [("/t/a.py", 5%Z); ("/t/a.py.deps.qscripts", 9%Z);
                 ("/t/lib.py", 1%Z)])
    (Unix.table [("/t/a.py.deps.qscripts", ["/t/a.py"])])
    Unix.no_env (Unix.table [("py", Unix.python)]) [].

(** * Properties *)

(** ** Strings and the token scanner *)

Lemma strncmp_eq_prefix (key rest : string) :
  strncmp_eq (String.length key) (key ++ rest) key = true.
Proof.
  induction key as [|c key IH]; simpl; [reflexivity|].
  now rewrite Ascii.eqb_refl.
Qed.

Lemma strncmp_eq_true_split (key : string) : forall str,
  strncmp_eq (String.length key) str key = true ->
  exists rest, str = key ++ rest.
Proof.
  induction key as [|c key IH]; intros str H; simpl in *.
  - now exists str.
  - destruct str as [|x str]; [discriminate|].
    apply andb_true_iff in H as [Hc Hs].
    apply Ascii.eqb_eq in Hc. subst x.
    destruct (IH _ Hs) as [rest ->]. now exists rest.
Qed.

Lemma str_drop_append (a b : string) : str_drop (String.length a) (a ++ b) = b.
Proof. induction a; simpl; auto. Qed.

Lemma str_length_append (a b : string) :
  String.length (a ++ b) = String.length a + String.length b.
Proof. induction a; simpl; auto. Qed.

Lemma str_append_assoc (a b c : string) : (a ++ b) ++ c = a ++ (b ++ c).
Proof. induction a; simpl; congruence. Qed.

Lemma regex_replace_n_no_dollar (f : string -> string) (n : nat) : forall s,
  str_contains "$" s = false -> regex_replace_n n f s = s.
Proof.
  induction n as [|n IH]; intros s H; [reflexivity|].
  destruct s as [|c s]; [reflexivity|]. simpl in *.
  apply orb_false_iff in H as [Hc Hs].
  unfold is_dollar. rewrite Hc. now rewrite IH.
Qed.

Lemma scan_to_dollar_shorter : forall s inner rest,
  scan_to_dollar s = Some (inner, rest) -> String.length rest < String.length s.
Proof.
  induction s as [|c s IH]; intros inner rest H; simpl in *; [discriminate|].
  destruct (is_dollar c).
  - inversion H; subst. lia.
  - destruct (is_line_terminator c); [discriminate|].
    destruct (scan_to_dollar s) as [[i r]|] eqn:E; [|discriminate].
    inversion H; subst. specialize (IH _ _ eq_refl). lia.
Qed.

Lemma match_token_shorter (s group1 rest : string) :
  match_token s = Some (group1, rest) -> String.length rest < String.length s.
Proof.
  destruct s as [|c s]; simpl; [discriminate|].
  destruct (is_line_terminator c); [discriminate|].
  destruct (scan_to_dollar s) as [[i r]|] eqn:E; [|discriminate].
  intros H; inversion H; subst. apply scan_to_dollar_shorter in E. lia.
Qed.

(** Any bound that covers the length of the input gives the same result. *)
Lemma regex_replace_n_enough (f : string -> string) : forall n m s,
  String.length s <= n -> String.length s <= m ->
  regex_replace_n n f s = regex_replace_n m f s.
Proof.
  induction n as [|n IH]; intros m s Hn Hm.
  - destruct s; simpl in *; [|lia]. now destruct m.
  - destruct m as [|m]; [destruct s; simpl in *; [reflexivity|lia]|].
    destruct s as [|c s]; [reflexivity|]. simpl in *.
    destruct (is_dollar c).
    + destruct (match_token s) as [[g r]|] eqn:E.
      * apply match_token_shorter in E. f_equal. apply IH; lia.
      * f_equal. apply IH; lia.
    + f_equal. apply IH; lia.
Qed.

Lemma regex_replace_plain (f : string -> string) (c : ascii) (s : string) :
  is_dollar c = false ->
  regex_replace f (String c s) = String c (regex_replace f s).
Proof.
  intros H. unfold regex_replace. simpl. now rewrite H.
Qed.

Lemma regex_replace_token (f : string -> string) (s group1 rest : string) :
  match_token s = Some (group1, rest) ->
  regex_replace f (String "$" s) = f group1 ++ regex_replace f rest.
Proof.
  intros H. unfold regex_replace. simpl. rewrite H. f_equal.
  apply match_token_shorter in H. apply regex_replace_n_enough; lia.
Qed.

Lemma regex_replace_prefix (f : string -> string) (pre s : string) :
  str_contains "$" pre = false ->
  regex_replace f (pre ++ s) = pre ++ regex_replace f s.
Proof.
  induction pre as [|c pre IH]; intros H; simpl in *; [reflexivity|].
  apply orb_false_iff in H as [Hc Hp].
  rewrite regex_replace_plain by exact Hc. now rewrite IH.
Qed.

Lemma scan_to_dollar_name (name post : string) :
  str_contains "$" name = false ->
  str_contains "010" name = false ->
  str_contains "013" name = false ->
  scan_to_dollar (name ++ String "$" post) = Some (name, post).
Proof.
  induction name as [|c name IH]; intros Hd Hn Hr; simpl in *; [reflexivity|].
  apply orb_false_iff in Hd as [Hd1 Hd2].
  apply orb_false_iff in Hn as [Hn1 Hn2].
  apply orb_false_iff in Hr as [Hr1 Hr2].
  unfold is_dollar, is_line_terminator. rewrite Hd1, Hn1, Hr1. simpl.
  now rewrite IH.
Qed.

(** ** The manifest directives *)

Lemma get_value_prefix (key rest : string) :
  get_value (key ++ rest) key (String.length key) = Some (str_drop 1 rest).
Proof.
  unfold get_value. rewrite strncmp_eq_prefix. simpl.
  rewrite str_length_append.
  destruct rest as [|c rest].
  - replace (String.length key + String.length "") with (String.length key)
      by (simpl; lia).
    now rewrite Nat.leb_refl.
  - simpl String.length.
    destruct (Nat.leb_spec (String.length key + S (String.length rest))
                           (String.length key)); [lia|].
    f_equal. replace (String.length key + 1) with (S (String.length key)) by lia.
    change (S (String.length key)) with (String.length (String c key)).
    clear. induction key as [|k key IH]; simpl; [reflexivity|].
    simpl in IH. exact IH.
Qed.

Lemma strncmp_eq_is_prefix (key : string) : forall line,
  strncmp_eq (String.length key) line key = String.prefix key line.
Proof.
  induction key as [|c key IH]; intros line; simpl.
  - now destruct line.
  - destruct line as [|x line]; [reflexivity|].
    rewrite IH.
    change (String.prefix (String c key) (String x line))
      with (if ascii_dec c x then String.prefix key line else false).
    destruct (ascii_dec c x) as [Heq|Hne].
    + subst x. now rewrite Ascii.eqb_refl.
    + destruct (Ascii.eqb x c) eqn:Hx; [|reflexivity].
      apply Ascii.eqb_eq in Hx. congruence.
Qed.

Lemma get_value_is_some (key line : string) :
  is_some (get_value line key (String.length key)) = String.prefix key line.
Proof.
  unfold get_value. rewrite strncmp_eq_is_prefix.
  destruct (String.prefix key line); simpl; [|reflexivity].
  now destruct (Nat.leb (String.length line) (String.length key)).
Qed.

(** C5, as stated, fails: in the line [/pkgbaseXfoo] the prefix [/pkgbase]
    is followed by [X], neither the end of the line nor a space, and the
    line is still taken as the [/pkgbase] directive, with value [foo]. *)
Lemma C5_prefix_followed_by_other_char :
  get_value "/pkgbaseXfoo" "/pkgbase" 8 = Some "foo" /\
  Unix.parse_line empty_world (top_ctx "/t/a.py" "/t") Unix.fresh "/pkgbaseXfoo"
  = (mk_ctx "/t/a.py" true "/t" "/t/foo" "", Unix.fresh, None).
Proof. split; reflexivity. Qed.

(** C5 (amended): a directive prefix is recognized exactly when the line
    starts with it; the value is what follows the prefix with its first
    character removed, whatever that character is (and empty when nothing
    follows). *)
Theorem C5_get_value_skips_one_char (key line rest : string) :
  is_some (get_value line key (String.length key)) = String.prefix key line /\
  get_value (key ++ rest) key (String.length key) = Some (str_drop 1 rest).
Proof.
  split; [apply get_value_is_some | apply get_value_prefix].
Qed.

(** ** The expander *)

(** C9, as stated, fails: the string [a$b] contains a ['$'] and is left
    unchanged by the expansion, so the equivalence does not hold. *)
Lemma C9_unmatched_dollar_is_fixed_point :
  ~ (forall s : string,
       Unix.expand_string empty_world Unix.fresh s (top_ctx "/t/a.py" "/t") = s
       <-> str_contains "$" s = false).
Proof.
  intros H. destruct (H "a$b") as [H1 _].
  specialize (H1 eq_refl). discriminate H1.
Qed.

(** C9 (amended): a string without ['$'] is left unchanged by the
    expansion; the converse does not hold. *)
Theorem C9_expand_without_dollar
    (get_basename : string -> string) (w : world)
    (sel : active_script_info_t) (ctx : expand_ctx_t) (s : string) :
  str_contains "$" s = false ->
  expand_string get_basename w sel s ctx = s.
Proof.
  intros H. unfold expand_string, regex_replace.
  now apply regex_replace_n_no_dollar.
Qed.

Lemma C9_expand_without_dollar_witness :
  str_contains "$" "/t/lib.py" = false /\
  Unix.expand_string empty_world Unix.fresh "/t/lib.py" (top_ctx "/t/a.py" "/t")
  = "/t/lib.py".
Proof.
  split; [reflexivity|].
  apply (C9_expand_without_dollar Unix.get_basename). reflexivity.
Defined.

(** C7, as stated, fails: with [HOME] unset, [$env:HOME$] is replaced by
    the inner text [env:HOME], not by the empty string. *)
Lemma C7_unset_env_keeps_inner_text :
  w_env empty_world "HOME" = None /\
  Unix.expand_string empty_world Unix.fresh "cd $env:HOME$/x"
    (top_ctx "/t/a.py" "/t") = "cd env:HOME/x" /\
  "cd env:HOME/x" <> "cd /x".
Proof. repeat split; try reflexivity. discriminate. Qed.

Lemma match_token_env (name post : string) :
  str_contains "$" name = false ->
  str_contains "010" name = false ->
  str_contains "013" name = false ->
  match_token ("env:" ++ name ++ String "$" post) = Some ("env:" ++ name, post).
Proof.
  intros Hd Hn Hr.
  assert (E : scan_to_dollar (("nv:" ++ name) ++ String "$" post)
              = Some ("nv:" ++ name, post))
    by (apply scan_to_dollar_name; simpl; assumption).
  simpl in *. now rewrite E.
Qed.

(** C7 (amended): when the environment variable [name] is unset, a token
    [$env:name$] met by the scanner (no ['$'] open before it) is replaced by
    its inner text [env:name]; the scan goes on after the token. *)
Theorem C7_expand_unset_env
    (get_basename : string -> string) (w : world)
    (sel : active_script_info_t) (ctx : expand_ctx_t)
    (pre name post : string) :
  w_env w name = None ->
  str_contains "$" pre = false ->
  str_contains "$" name = false ->
  str_contains "010" name = false ->
  str_contains "013" name = false ->
  expand_string get_basename w sel
    (pre ++ "$env:" ++ name ++ "$" ++ post) ctx
  = pre ++ "env:" ++ name ++ expand_string get_basename w sel post ctx.
Proof.
  intros Henv Hpre Hd Hn Hr. unfold expand_string.
  rewrite regex_replace_prefix by exact Hpre. f_equal.
  change ("$env:" ++ name ++ "$" ++ post)
    with (String "$" ("env:" ++ name ++ String "$" post)).
  rewrite (regex_replace_token _ _ ("env:" ++ name) post)
    by (now apply match_token_env).
  unfold expand_token. simpl. now rewrite Henv.
Qed.

Lemma C7_expand_unset_env_witness :
  Unix.expand_string empty_world Unix.fresh
    ("cd " ++ "$env:" ++ "HOME" ++ "$" ++ "/x") (top_ctx "/t/a.py" "/t")
  = "cd " ++ "env:" ++ "HOME"
    ++ Unix.expand_string empty_world Unix.fresh "/x" (top_ctx "/t/a.py" "/t").
Proof.
  apply (C7_expand_unset_env Unix.get_basename); reflexivity.
Defined.

(** ** The parser, line by line *)

Lemma triggerfile_line (line v : string) :
  get_value line "/triggerfile" 12 = Some v ->
  is_skipped_line line = false /\
  get_value line "/pkgbase" 8 = None /\
  get_value line "/reload" 7 = None.
Proof.
  intros H. unfold get_value in H.
  destruct (strncmp_eq 12 line "/triggerfile") eqn:E; [|discriminate].
  apply (strncmp_eq_true_split "/triggerfile") in E as [rest ->].
  repeat split; reflexivity.
Qed.

Lemma parse_line_triggerfile
    (make_abs_path : string -> string -> string)
    (get_basename : string -> string)
    (w : world) (ctx : expand_ctx_t) (sel : active_script_info_t)
    (line v : string) :
  get_value (trim2 line) "/triggerfile" 12 = Some v ->
  parse_line make_abs_path get_basename w ctx sel line
  = (ctx, parse_triggerfile make_abs_path get_basename w ctx sel v, None).
Proof.
  intros H. destruct (triggerfile_line _ _ H) as (Hs & Hp & Hr).
  unfold parse_line. now rewrite Hs, Hp, Hr, H.
Qed.

(** Outside the top-level manifest a [/triggerfile] line leaves the trigger
    file alone. *)
Lemma parse_line_sub_keeps_trigger_file
    (make_abs_path : string -> string -> string)
    (get_basename : string -> string)
    (w : world) (ctx : expand_ctx_t) (sel : active_script_info_t)
    (line v : string) :
  main_file ctx = false ->
  get_value (trim2 line) "/triggerfile" 12 = Some v ->
  trigger_file (snd (fst (parse_line make_abs_path get_basename w ctx sel line)))
  = trigger_file sel.
Proof.
  intros Hm H. rewrite (parse_line_triggerfile _ _ _ _ _ _ _ H). simpl.
  unfold parse_triggerfile. rewrite Hm.
  now destruct (get_value v "/keep" 5).
Qed.

(** C6, the code at the failing input: a [/triggerfile /keep] line read in
    the index file of a dependency (not the main file) leaves the trigger
    file of the active script unchanged but raises [b_keep_trigger_file];
    so does the whole of [set_selected_script] when the line sits in the
    index file of [/t/lib.py], a dependency of [/t/a.py]. *)
Theorem C6_keep_flag_set_below_top_level :
  main_file sub_ctx_lib = false /\
  b_keep_trigger_file sel_trigger_go = false /\
  Unix.parse_line empty_world sub_ctx_lib sel_trigger_go
    "/triggerfile /keep /t/other"
  = (sub_ctx_lib, set_keep_trigger sel_trigger_go true, None) /\
  option_map (fun sel => (trigger_file sel, b_keep_trigger_file sel))
    (Unix.set_selected_script 5 world_nested_keep Unix.fresh
       (Unix.script "/t/a.py" 5))
  = Some (mk_fileinfo "/t/go" 0, true).
Proof. repeat split; reflexivity. Qed.

(** C8, the code at the failing input: the top-level manifest of [/t/a.py]
    holds [/pkgbase pkg]; after [set_selected_script] the [pkg_base] of the
    active script is still empty, while the dependency recorded after the
    directive carries [/t/pkg]. *)
Theorem C8_active_pkg_base_not_set :
  option_map (fun sel => (pkg_base (as_script sel), dep_scripts sel))
    (Unix.set_selected_script 5 world_pkgbase Unix.fresh
       (Unix.script "/t/a.py" 5))
  = Some ("",
          [("/t/pkg/mod.py",
            mk_script_info (mk_fileinfo "/t/pkg/mod.py" 7) "" "/t/pkg")]).
Proof. reflexivity. Qed.

(** C10, as stated, fails: the raw value [go] differs from the stored path
    [/t/go], yet the trigger file does not start with a zero time stamp: the
    probe of the raw path, relative to the working directory, found the
    file. *)
Lemma C10_raw_path_found :
  "go" <> "/t/go" /\
  option_map trigger_file
    (Unix.set_selected_script 5 world_relative_trigger Unix.fresh
       (Unix.script "/t/a.py" 5))
  = Some (mk_fileinfo "/t/go" 7) /\
  7%Z <> 0%Z.
Proof. repeat split; try reflexivity; discriminate. Qed.

(** C10 (amended): on a [/triggerfile] line of the top-level manifest the
    time stamp is probed at the raw value ([raw], after an optional
    [/keep]) and the stored path is expanded and made absolute afterwards.
    The stored time stamp is the one of the file found at the raw path as
    written; when there is none, it is the time stamp the trigger file had
    before (0 after [clear]), whether or not the expanded path exists. *)
Theorem C10_trigger_probed_at_raw_value
    (make_abs_path : string -> string -> string)
    (get_basename : string -> string)
    (w : world) (ctx : expand_ctx_t) (sel : active_script_info_t)
    (line v raw : string) :
  main_file ctx = true ->
  get_value (trim2 line) "/triggerfile" 12 = Some v ->
  raw = match get_value v "/keep" 5 with Some keep => keep | None => v end ->
  trigger_file (snd (fst (parse_line make_abs_path get_basename w ctx sel line)))
  = mk_fileinfo
      (expand_file_name make_abs_path get_basename w sel raw ctx)
      (match w_mtime w raw with
       | Some t => t
       | None => modified_time (trigger_file sel)
       end).
Proof.
  intros Hm H ->. rewrite (parse_line_triggerfile _ _ _ _ _ _ _ H). simpl.
  unfold parse_triggerfile. rewrite Hm.
  destruct (get_value v "/keep" 5) as [keep|];
    unfold refresh, get_file_modification_time; simpl;
    match goal with |- context [w_mtime w ?p] => destruct (w_mtime w p) end;
    reflexivity.
Qed.

Lemma C10_trigger_probed_at_raw_value_witness :
  trigger_file
    (snd (fst (Unix.parse_line world_relative_trigger_elsewhere
                 (top_ctx "/t/a.py" "/t") Unix.fresh "/triggerfile go")))
  = mk_fileinfo
      (expand_file_name Unix.make_abs_path Unix.get_basename
         world_relative_trigger_elsewhere Unix.fresh "go"
         (top_ctx "/t/a.py" "/t"))
      (match w_mtime world_relative_trigger_elsewhere "go" with
       | Some t => t
       | None => modified_time (trigger_file Unix.fresh)
       end).
Proof.
  apply (C10_trigger_probed_at_raw_value Unix.make_abs_path Unix.get_basename
           world_relative_trigger_elsewhere (top_ctx "/t/a.py" "/t")
           Unix.fresh "/triggerfile go" "go" "go"); reflexivity.
Defined.

(** ** The parser as a whole *)

Section Parser_facts.

Variable make_abs_path : string -> string -> string.
Variable qdirname : string -> string.
Variable get_basename : string -> string.
Variable w : world.

Let parse_line' := parse_line make_abs_path get_basename.
Let parse_lines' := parse_lines make_abs_path get_basename.
Let parse_deps_for_script' :=
  parse_deps_for_script make_abs_path qdirname get_basename.

(** An invariant of the loop: kept by every line and by every recursive
    call, it holds when the loop is left. *)
Lemma parse_lines_invariant
    (rec : expand_ctx_t -> active_script_info_t -> option active_script_info_t)
    (I : expand_ctx_t -> active_script_info_t -> Prop) :
  forall lines,
  (forall raw ctx sel ctx' sel' r,
      In raw lines -> I ctx sel ->
      parse_line' w ctx sel raw = (ctx', sel', r) ->
      I ctx' sel' /\
      forall line sel'', r = Some line ->
        rec (make_sub_ctx ctx' line) sel' = Some sel'' -> I ctx' sel'') ->
  forall ctx sel sel',
    I ctx sel -> parse_lines' rec w lines ctx sel = Some sel' ->
    exists ctx', I ctx' sel'.
Proof.
  induction lines as [|raw rest IH]; intros Hstep ctx sel sel' HI Hp.
  - simpl in Hp. inversion Hp; subst. now exists ctx.
  - simpl in Hp. fold parse_line' in Hp.
    destruct (parse_line' w ctx sel raw) as [[ctx1 sel1] r] eqn:E.
    destruct (Hstep raw ctx sel ctx1 sel1 r (or_introl eq_refl) HI E)
      as [HI1 Hrec].
    assert (Hstep' : forall raw ctx sel ctx' sel' r,
      In raw rest -> I ctx sel ->
      parse_line' w ctx sel raw = (ctx', sel', r) ->
      I ctx' sel' /\
      forall line sel'', r = Some line ->
        rec (make_sub_ctx ctx' line) sel' = Some sel'' -> I ctx' sel'').
    { intros ? ? ? ? ? ? Hin. apply Hstep. now right. }
    destruct r as [line|].
    + destruct (rec (make_sub_ctx ctx1 line) sel1) as [sel2|] eqn:Er;
        [|discriminate].
      apply (IH Hstep' ctx1 sel2 sel'); [|exact Hp].
      now apply (Hrec line sel2).
    + now apply (IH Hstep' ctx1 sel1 sel').
Qed.

Lemma dep_assign_keys (k : string) (v : script_info_t) : forall m k',
  In k' (dep_keys (dep_assign k v m)) -> In k' (dep_keys m) \/ k' = k.
Proof.
  induction m as [|[k0 v0] m IH]; intros k' H; simpl in *.
  - destruct H as [H|[]]. now right.
  - destruct (String.eqb k0 k); simpl in H.
    + destruct H as [H|H]; auto.
    + destruct H as [H|H]; auto.
      destruct (IH _ H); auto.
Qed.


(** What one line does to the context and to the active script. *)
Lemma parse_line_effect (ctx : expand_ctx_t) (sel : active_script_info_t)
    (raw : string) (ctx' : expand_ctx_t) (sel' : active_script_info_t)
    (r : option string) :
  parse_line' w ctx sel raw = (ctx', sel', r) ->
  base_dir ctx' = base_dir ctx /\
  as_script sel' = as_script sel /\
  forall k, In k (dep_keys (dep_scripts sel')) ->
    In k (dep_keys (dep_scripts sel)) \/
    (is_dep_line (trim2 raw) = true /\
     k = expand_file_name make_abs_path get_basename w sel (trim2 raw)
           (ctx_set_script_file ctx (trim2 raw)) /\
     w_mtime w k <> None).
Proof.
  unfold parse_line', parse_line, is_dep_line.
  destruct (is_skipped_line (trim2 raw)) eqn:Hs.
  { intros H; injection H as <- <- <-; auto. }
  destruct (get_value (trim2 raw) "/pkgbase" 8) eqn:Hp.
  { intros H; injection H as <- <- <-. destruct (main_file ctx); auto. }
  destruct (get_value (trim2 raw) "/reload" 7) eqn:Hr.
  { intros H; injection H as <- <- <-. destruct (main_file ctx); auto. }
  destruct (get_value (trim2 raw) "/triggerfile" 12) eqn:Ht.
  { intros H; injection H as <- <- <-. unfold parse_triggerfile.
    destruct (get_value s "/keep" 5), (main_file ctx); simpl; auto. }
  simpl.
  destruct (w_mtime w _) eqn:Hm; intros H; injection H as <- <- <-; simpl; auto.
  repeat split; auto. intros k Hk.
  apply dep_assign_keys in Hk as [Hk| ->]; auto.
  right. repeat split; auto. congruence.
Qed.

Lemma add_dep_index_effect (sel : active_script_info_t) (dep_file : string) :
  as_script (snd (add_dep_index w sel dep_file)) = as_script sel /\
  dep_scripts (snd (add_dep_index w sel dep_file)) = dep_scripts sel.
Proof.
  unfold add_dep_index, get_file_modification_time.
  destruct (w_mtime w dep_file); simpl; auto.
Qed.

(** The parser never writes the [script_info_t] part of the active script:
    path, time stamp, [reload_cmd] and [pkg_base] are as before. *)
Lemma parse_deps_keeps_as_script : forall fuel ctx sel sel',
  parse_deps_for_script' fuel w ctx sel = Some sel' ->
  as_script sel' = as_script sel.
Proof.
  induction fuel as [|fuel IH]; intros ctx sel sel' H; [discriminate|].
  simpl in H. destruct (open_dep_file w (script_file ctx)) as [[dep_file lines]|];
    [|now inversion H].
  destruct (parse_lines_invariant
              (parse_deps_for_script make_abs_path qdirname
                 get_basename fuel w)
              (fun _ s => as_script s = as_script sel) lines) with
      (ctx := ctx_set_base_dir ctx (qdirname dep_file))
      (sel := snd (add_dep_index w sel dep_file)) (sel' := sel')
    as [_ Hres]; auto.
  - intros raw c s c' s' r _ HI E.
    apply parse_line_effect in E as (_ & Hs & _). split; [congruence|].
    intros line s'' _ Hrec. apply IH in Hrec. congruence.
  - apply add_dep_index_effect.
Qed.


(** A result obtained within some recursion depth is obtained within any
    larger one. *)
Lemma parse_lines_mono
    (rec rec' : expand_ctx_t -> active_script_info_t -> option active_script_info_t) :
  (forall c s r, rec c s = Some r -> rec' c s = Some r) ->
  forall lines ctx sel r,
    parse_lines' rec w lines ctx sel = Some r ->
    parse_lines' rec' w lines ctx sel = Some r.
Proof.
  intros Hrec. induction lines as [|raw rest IH]; intros ctx sel r H; simpl in *;
    [exact H|].
  destruct (parse_line make_abs_path get_basename w ctx sel raw)
    as [[c1 s1] [line|]]; [|now apply IH].
  destruct (rec (make_sub_ctx c1 line) s1) as [s2|] eqn:E; [|discriminate].
  rewrite (Hrec _ _ _ E). now apply IH.
Qed.

Lemma parse_deps_fuel_mono : forall fuel fuel' ctx sel r,
  fuel <= fuel' ->
  parse_deps_for_script' fuel w ctx sel = Some r ->
  parse_deps_for_script' fuel' w ctx sel = Some r.
Proof.
  induction fuel as [|fuel IH]; intros fuel' ctx sel r Hle H; [discriminate|].
  destruct fuel' as [|fuel']; [lia|]. simpl in *.
  destruct (open_dep_file w (script_file ctx)) as [[dep_file lines]|]; [|exact H].
  eapply parse_lines_mono; [|exact H].
  intros c s r' Hr. apply (IH fuel'); [lia|exact Hr].
Qed.

End Parser_facts.

(** [set_selected_script] leaves the [pkg_base] and [reload_cmd] of the
    active script as they were, whatever the manifests say. *)
Lemma set_selected_script_keeps_pkg_base
    (make_abs_path : string -> string -> string)
    (qdirname get_basename : string -> string)
    (fuel : nat) (w : world) (sel sel' : active_script_info_t)
    (script : script_info_t) :
  set_selected_script make_abs_path qdirname get_basename fuel w sel script
  = Some sel' ->
  pkg_base (as_script sel') = pkg_base (as_script sel) /\
  reload_cmd (as_script sel') = reload_cmd (as_script sel) /\
  si_file (as_script sel') = si_file script.
Proof.
  intros H. unfold set_selected_script in H.
  apply parse_deps_keeps_as_script in H. rewrite H. auto.
Qed.

Lemma set_selected_script_fuel_mono
    (make_abs_path : string -> string -> string)
    (qdirname get_basename : string -> string)
    (fuel fuel' : nat) (w : world) (sel sel' : active_script_info_t)
    (script : script_info_t) :
  fuel <= fuel' ->
  set_selected_script make_abs_path qdirname get_basename fuel w sel script
  = Some sel' ->
  set_selected_script make_abs_path qdirname get_basename fuel' w sel script
  = Some sel'.
Proof.
  unfold set_selected_script. apply parse_deps_fuel_mono.
Qed.




(** ** The event log *)

Lemma logged_refl (w : world) : logged w w [].
Proof. unfold logged. now rewrite app_nil_r. Qed.

Lemma logged_emit (e : event) (w : world) : logged w (emit e w) [e].
Proof. unfold logged. simpl. auto. Qed.

Lemma logged_trans (w w1 w2 : world) (e1 e2 : list event) :
  logged w w1 e1 -> logged w1 w2 e2 -> logged w w2 (e1 ++ e2)%list.
Proof.
  intros (A1 & A2 & A3 & A4 & A5) (B1 & B2 & B3 & B4 & B5).
  unfold logged. rewrite B1, B2, B3, B4, B5, A1, A2, A3, A4, A5.
  now rewrite app_assoc.
Qed.

Lemma logged_emit_if (b : bool) (e : event) (w : world) :
  logged w (emit_if b e w) (if b then [e] else []).
Proof. destruct b; [apply logged_emit | apply logged_refl]. Qed.

Lemma logged_new_events (w w' : world) (evs : list event) :
  logged w w' evs -> new_events w w' = evs.
Proof.
  intros (_ & _ & _ & _ & H). unfold new_events. rewrite H.
  rewrite skipn_app, skipn_all, Nat.sub_diag. reflexivity.
Qed.

(** ** Probing a file *)

Lemma gms_modified (w : world) (fi fi' : fileinfo_t) :
  get_modification_status w fi true = (modified, fi') ->
  exists t, w_mtime w (file_path fi) = Some t /\ t <> modified_time fi /\
            fi' = mk_fileinfo (file_path fi) t.
Proof.
  unfold get_modification_status.
  destruct (w_mtime w (file_path fi)) as [t|]; [|discriminate].
  destruct (Z.eqb_spec t (modified_time fi)); [discriminate|].
  intros H; inversion H; subst. now exists t.
Qed.

Lemma gms_not_modified (w : world) (fi fi' : fileinfo_t) (b : bool) :
  get_modification_status w fi b = (not_modified, fi') ->
  fi' = fi /\ w_mtime w (file_path fi) = Some (modified_time fi).
Proof.
  unfold get_modification_status.
  destruct (w_mtime w (file_path fi)) as [t|]; [|discriminate].
  destruct (Z.eqb_spec t (modified_time fi)); [|discriminate].
  intros H; inversion H; subst. auto.
Qed.

Lemma gms_path (w : world) (fi : fileinfo_t) (b : bool) :
  file_path (snd (get_modification_status w fi b)) = file_path fi.
Proof.
  unfold get_modification_status.
  destruct (w_mtime w (file_path fi)) as [t|].
  - destruct (Z.eqb t (modified_time fi)); [reflexivity|]. now destruct b.
  - now destruct b.
Qed.

Lemma gms_same_files (w w' : world) (fi : fileinfo_t) (b : bool) :
  w_mtime w' = w_mtime w ->
  get_modification_status w' fi b = get_modification_status w fi b.
Proof. intros H. unfold get_modification_status. now rewrite H. Qed.

(** Index files found unchanged are still unchanged when probed again. *)
Lemma dep_indices_status_not_modified (w : world) (b : bool) :
  forall l l',
  dep_indices_status w b l = (not_modified, l') ->
  l' = l /\ dep_indices_status w b l = (not_modified, l).
Proof.
  induction l as [|fi l IH]; intros l' H; simpl in *.
  - inversion H; auto.
  - destruct (get_modification_status w fi b) as [r fi'] eqn:E.
    destruct r; try (inversion H; fail).
    destruct (dep_indices_status w b l) as [r' rest'] eqn:E'.
    inversion H; subst.
    apply gms_not_modified in E as [-> _].
    destruct (IH _ eq_refl) as [-> _]. auto.
Qed.

Lemma dep_indices_status_same_files (w w' : world) (b : bool) :
  w_mtime w' = w_mtime w ->
  forall l, dep_indices_status w' b l = dep_indices_status w b l.
Proof.
  intros H. induction l as [|fi l IH]; simpl; [reflexivity|].
  now rewrite (gms_same_files _ _ _ _ H), IH.
Qed.

(** ** The loop over the dependency scripts *)

Lemma in_dep_paths (kv : string * script_info_t) (m : dep_map) :
  In kv m -> In (dep_path kv) (dep_paths m).
Proof. intros H. unfold dep_paths. now apply in_map. Qed.

Lemma dep_loop_post_nil (w : world) : dep_loop_post w [] [] false w.
Proof.
  exists []. split; [apply logged_refl|].
  repeat split; auto; intros; contradiction.
Qed.

(** The head entry was handled, logging [ev1] (nothing, or a snippet that
    succeeded), and the loop went on with the rest. *)
Lemma dep_loop_post_cons (w w1 w' : world) (k : string)
    (dep dep' : script_info_t) (rest rest' : dep_map) (brk : bool)
    (ev1 : list event) :
  logged w w1 ev1 ->
  file_path (si_file dep') = file_path (si_file dep) ->
  (ev1 = [] \/
   exists cmd t, ev1 = [ev_eval_snippet (file_path (si_file dep)) cmd true] /\
                 w_mtime w (file_path (si_file dep)) = Some t /\
                 t <> modified_time (si_file dep)) ->
  dep_loop_post w1 rest rest' brk w' ->
  dep_loop_post w ((k, dep) :: rest) ((k, dep') :: rest') brk w'.
Proof.
  intros Hl Hp Hev (evs & Hl2 & Hex & Hpaths & Hb & Hc & He).
  assert (Hm : w_mtime w1 = w_mtime w) by apply Hl.
  assert (Hnofail : forall p cmd, ~ In (ev_eval_snippet p cmd false) ev1).
  { intros p cmd Hin. destruct Hev as [->|(c & t & -> & _)]; [contradiction|].
    destruct Hin as [Hin|[]]. discriminate Hin. }
  exists (ev1 ++ evs)%list. split; [eapply logged_trans; eassumption|].
  split; [|split; [|split; [|split]]].
  - apply Forall_app. split; [|exact Hex].
    destruct Hev as [->|(c & t & -> & _)]; auto.
  - unfold dep_paths in *. simpl. unfold dep_path at 1 3. simpl. congruence.
  - intros p cmd ok Hin. apply in_app_or in Hin as [Hin|Hin].
    + destruct Hev as [->|(c & t & -> & Ht & Hne)]; [contradiction|].
      destruct Hin as [Hin|[]]. inversion Hin; subst.
      exists (k, dep), t. repeat split; auto. now left.
    + destruct (Hb _ _ _ Hin) as (kv & t & Hkv & Hkp & Ht & Hne).
      exists kv, t. rewrite Hm in Ht. repeat split; auto. now right.
  - intros Hbrk p cmd Hin. apply in_app_or in Hin as [Hin|Hin].
    + now apply (Hnofail p cmd).
    + now apply (Hc Hbrk p cmd).
  - intros Hnd p cmd Hin kv Hkv Hkp.
    apply in_app_or in Hin as [Hin|Hin]; [now apply Hnofail in Hin|].
    apply NoDup_cons_iff in Hnd as [Hnotin Hnd'].
    destruct (Hb _ _ _ Hin) as (kv0 & t0 & Hkv0 & Hkp0 & _).
    destruct Hkv as [Heq|Hkv].
    + subst kv. exfalso. apply Hnotin. unfold dep_path in Hkp. simpl in Hkp.
      unfold dep_path at 1. simpl. rewrite <- Hp, Hkp, <- Hkp0.
      now apply in_dep_paths.
    + rewrite <- Hm. now apply (He Hnd' p cmd Hin kv).
Qed.

(** The snippet of the head entry failed (or no engine was found for it):
    the loop stops there, the entry keeps the time stamp just read. *)
Lemma dep_loop_post_fail (w w1 : world) (k : string) (dep : script_info_t)
    (rest : dep_map) (t : Z) (msg : string) :
  w_mtime w (file_path (si_file dep)) = Some t ->
  t <> modified_time (si_file dep) ->
  (w1 = w \/
   exists cmd, w1 = emit (ev_eval_snippet (file_path (si_file dep)) cmd false) w) ->
  dep_loop_post w ((k, dep) :: rest)
    ((k, si_set_file dep (mk_fileinfo (file_path (si_file dep)) t)) :: rest)
    true (emit (ev_msg msg) w1).
Proof.
  intros Ht Hne Hw1.
  assert (Hl : exists ev1, logged w w1 ev1 /\
            (ev1 = [] \/ exists cmd,
               ev1 = [ev_eval_snippet (file_path (si_file dep)) cmd false])).
  { destruct Hw1 as [->|(cmd & ->)].
    - exists []. split; [apply logged_refl|now left].
    - eexists. split; [apply logged_emit|]. right. now exists cmd. }
  destruct Hl as (ev1 & Hl & Hev).
  exists (ev1 ++ [ev_msg msg])%list.
  split; [eapply logged_trans; [exact Hl|apply logged_emit]|].
  assert (Hin1 : forall p cmd ok, In (ev_eval_snippet p cmd ok) (ev1 ++ [ev_msg msg]) ->
            p = file_path (si_file dep)).
  { intros p cmd ok Hin. apply in_app_or in Hin as [Hin|[Hin|[]]];
      [|discriminate Hin].
    destruct Hev as [->|(c & ->)]; [contradiction|].
    destruct Hin as [Hin|[]]. now inversion Hin. }
  split; [|split; [|split; [|split]]].
  - apply Forall_app. split; [|auto].
    destruct Hev as [->|(c & ->)]; auto.
  - reflexivity.
  - intros p cmd ok Hin. apply Hin1 in Hin as ->.
    exists (k, dep), t. repeat split; auto. now left.
  - discriminate.
  - intros Hnd p cmd Hin kv Hkv Hkp. apply Hin1 in Hin as ->.
    apply NoDup_cons_iff in Hnd as [Hnotin Hnd'].
    destruct Hkv as [Heq|Hkv]; [subst kv; exact Ht|].
    exfalso. apply Hnotin. fold (dep_paths rest).
    unfold dep_path at 1. simpl. rewrite <- Hkp. now apply in_dep_paths.
Qed.

Section Dep_loop_facts.

Variable make_abs_path : string -> string -> string.
Variable qdirname : string -> string.
Variable get_basename : string -> string.
Variable get_file_ext : string -> option string.

Let execute_reload_directive' :=
  execute_reload_directive get_basename get_file_ext.
Let check_dep_scripts' := check_dep_scripts get_basename get_file_ext.

Lemma execute_reload_directive_logged (w : world) (sel : active_script_info_t)
    (dep : script_info_t) (ok : bool) (w' : world) :
  execute_reload_directive' w sel dep = (ok, w') ->
  (ok = false /\ w' = w) \/
  (exists cmd, w' = emit (ev_eval_snippet (file_path (si_file dep)) cmd ok) w).
Proof.
  unfold execute_reload_directive', execute_reload_directive.
  destruct (w_extlang w _) as [elang|]; intros H; inversion H; subst; eauto.
Qed.

Lemma check_dep_scripts_spec (sel : active_script_info_t) :
  forall deps w deps' changed brk w',
  check_dep_scripts' w sel deps = (deps', changed, brk, w') ->
  dep_loop_post w deps deps' brk w'.
Proof.
  induction deps as [|[k dep] rest IH]; intros w deps' changed brk w' H.
  - simpl in H. inversion H; subst. apply dep_loop_post_nil.
  - simpl in H. fold check_dep_scripts' in H.
    destruct (get_modification_status w (si_file dep) true) as [status fi] eqn:Es.
    assert (Hpath : file_path fi = file_path (si_file dep)).
    { pose proof (gms_path w (si_file dep) true) as P. now rewrite Es in P. }
    assert (Hquiet : forall rest' c b w2,
              check_dep_scripts' w sel rest = (rest', c, b, w2) ->
              dep_loop_post w ((k, dep) :: rest)
                ((k, si_set_file dep fi) :: rest') b w2).
    { intros rest' c b w2 E.
      apply (dep_loop_post_cons w w w2 k dep _ rest rest' b []);
        [apply logged_refl|exact Hpath|now left|eapply IH; exact E]. }
    destruct status.
    + destruct (check_dep_scripts' w sel rest) as [[[rest' c] b] w2] eqn:E.
      inversion H; subst. eapply Hquiet; reflexivity.
    + destruct (check_dep_scripts' w sel rest) as [[[rest' c] b] w2] eqn:E.
      inversion H; subst. eapply Hquiet; reflexivity.
    + apply gms_modified in Es as (t & Ht & Hne & ->).
      destruct (has_reload_directive _).
      * destruct (execute_reload_directive get_basename get_file_ext
                    w sel _) as [ok w1] eqn:Er.
        apply execute_reload_directive_logged in Er. simpl in Er.
        destruct ok.
        -- destruct Er as [[Hf _]|(cmd & ->)]; [discriminate|].
           destruct (check_dep_scripts' (emit _ w) sel rest)
             as [[[rest' c] b] w2] eqn:E.
           inversion H; subst.
           eapply dep_loop_post_cons;
             [apply logged_emit|reflexivity| |eapply IH; exact E].
           right. now exists cmd, t.
        -- inversion H; subst.
           apply dep_loop_post_fail; auto.
           destruct Er as [[_ ->]|(cmd & ->)]; eauto.
      * destruct (check_dep_scripts' w sel rest) as [[[rest' c] b] w2] eqn:E.
        inversion H; subst. eapply Hquiet; reflexivity.
Qed.

End Dep_loop_facts.

(** ** The Executor and the rest of a tick *)

Lemma logged_inj (w w' : world) (e1 e2 : list event) :
  logged w w' e1 -> logged w w' e2 -> e1 = e2.
Proof.
  intros (_ & _ & _ & _ & H1) (_ & _ & _ & _ & H2).
  rewrite H1 in H2. now apply app_inv_head in H2.
Qed.

Lemma not_eval_in (evs : list event) :
  Forall (fun e => is_eval_snippet e = false) evs ->
  forall p cmd ok, ~ In (ev_eval_snippet p cmd ok) evs.
Proof.
  intros H p cmd ok Hin. rewrite Forall_forall in H.
  specialize (H _ Hin). discriminate H.
Qed.

Ltac solve_logged :=
  unfold logged; simpl; rewrite <- ?app_assoc; simpl;
  repeat split; try reflexivity; repeat constructor.

Section Executor_facts.

Variable get_file_ext : string -> option string.

Lemma run_script_logged (st : qscripts_chooser_t) (elang : extlang_t)
    (script_file : string) (w : world) :
  exists evs, logged w (snd (run_script st elang script_file w)) evs /\
              Forall (fun e => is_eval_snippet e = false) evs.
Proof.
  unfold run_script, emit_if.
  destruct (opt_clear_log st), (opt_exec_unload_func st),
    (opt_show_filename st), (el_compile_file elang script_file),
    (el_is_idc elang), (el_call_func elang "main");
    simpl; eexists; solve_logged.
Qed.

Lemma execute_script_logged (st : qscripts_chooser_t) (w : world)
    (si : script_info_t) (with_undo : bool) :
  exists evs,
    logged w (snd (execute_script get_file_ext st w si with_undo)) evs /\
    Forall (fun e => is_eval_snippet e = false) evs.
Proof.
  unfold execute_script, execute_script_sync.
  destruct with_undo; [eexists; solve_logged|].
  destruct (w_mtime w (file_path (si_file si))); [|eexists; solve_logged].
  destruct (match get_file_ext (file_path (si_file si)) with
            | Some script_ext => w_extlang w script_ext
            | None => None
            end) as [elang|]; [|eexists; solve_logged].
  destruct (run_script_logged st elang (file_path (si_file si)) w)
    as (evs & Hl & Hf).
  destruct (run_script st elang (file_path (si_file si)) w) as [ok w'].
  now exists evs.
Qed.

End Executor_facts.


Section Tick_facts.

Variable make_abs_path : string -> string -> string.
Variable qdirname : string -> string.
Variable get_basename : string -> string.
Variable get_file_ext : string -> option string.

Let check_dep_scripts' := check_dep_scripts get_basename get_file_ext.
Let check_scripts' := check_scripts get_basename get_file_ext.
Let filemon_timer_cb' :=
  filemon_timer_cb make_abs_path qdirname get_basename get_file_ext.

(** The part of a tick that follows the index files.  A snippet is only
    evaluated for a dependency whose file changed; if one failed, the loop
    was left at once: nothing but the loop was run, and the object is the
    old one with the table the loop produced. *)
Lemma check_scripts_spec (st : qscripts_chooser_t) (w : world)
    (sel : active_script_info_t) (mod_stat : filemod_status_e)
    (st' : qscripts_chooser_t) (w' : world) :
  check_scripts' st w sel mod_stat = (st', w') ->
  exists evs, logged w w' evs /\
    opt_change_interval st' = opt_change_interval st /\
    (forall p cmd ok, In (ev_eval_snippet p cmd ok) evs ->
       exists kv t, In kv (dep_scripts sel) /\ dep_path kv = p /\
                    w_mtime w p = Some t /\ t <> dep_mtime kv) /\
    ((exists p cmd, In (ev_eval_snippet p cmd false) evs) ->
       Forall (fun e => is_executor_event e = false) evs /\
       mod_stat <> not_found /\
       exists deps',
         st' = set_selected st (set_dep_scripts sel deps') /\
         dep_loop_post w (dep_scripts sel) deps' true w').
Proof.
  unfold check_scripts', check_scripts.
  set (sel0 := match mod_stat, dep_scripts sel with
               | not_found, _ :: _ => set_dep_scripts sel []
               | _, _ => sel
               end).
  assert (Hsel0 : sel0 = sel \/ dep_scripts sel0 = []).
  { unfold sel0. destruct mod_stat; auto. destruct (dep_scripts sel); auto. }
  fold check_dep_scripts'.
  destruct (check_dep_scripts' w sel0 (dep_scripts sel0))
    as [[[deps' changed] brk] w1] eqn:E.
  pose proof (check_dep_scripts_spec _ _ _ _ _ _ _ _ _ E) as Hpost.
  assert (Hpost' := Hpost).
  destruct Hpost as (evs & Hl & Hex & Hpaths & Hb & Hc & He).
  assert (Hb' : forall p cmd ok, In (ev_eval_snippet p cmd ok) evs ->
            sel0 = sel /\
            exists kv t, In kv (dep_scripts sel) /\ dep_path kv = p /\
                         w_mtime w p = Some t /\ t <> dep_mtime kv).
  { intros p cmd ok Hin. destruct (Hb _ _ _ Hin) as (kv & t & Hkv & Hrest).
    destruct Hsel0 as [Heq|Hnil].
    - rewrite Heq in Hkv. split; [exact Heq|]. now exists kv, t.
    - rewrite Hnil in Hkv. contradiction. }
  destruct brk.
  { intros H; inversion H; subst. exists evs.
    split; [exact Hl|]. split; [reflexivity|].
    split; [intros p cmd ok Hin; now apply (Hb' p cmd ok)|].
    intros (p & cmd & Hin). split; [exact Hex|].
    destruct (Hb' _ _ _ Hin) as [Heq (kv & _ & Hkv & _)]. split.
    - intros ->. unfold sel0 in Heq. destruct (dep_scripts sel) eqn:Ed;
        [contradiction|].
      apply (f_equal dep_scripts) in Heq. simpl in Heq. congruence.
    - rewrite Heq in *. now exists deps'. }
  assert (Hmain : forall st2 w2 evs2,
            logged w1 w2 evs2 ->
            Forall (fun e => is_eval_snippet e = false) evs2 ->
            opt_change_interval st2 = opt_change_interval st ->
            exists evs, logged w w2 evs /\
              opt_change_interval st2 = opt_change_interval st /\
              (forall p cmd ok, In (ev_eval_snippet p cmd ok) evs ->
                 exists kv t, In kv (dep_scripts sel) /\ dep_path kv = p /\
                              w_mtime w p = Some t /\ t <> dep_mtime kv) /\
              ((exists p cmd, In (ev_eval_snippet p cmd false) evs) ->
                 Forall (fun e => is_executor_event e = false) evs /\
                 mod_stat <> not_found /\
                 exists deps',
                   st2 = set_selected st (set_dep_scripts sel deps') /\
                   dep_loop_post w (dep_scripts sel) deps' true w2)).
  { intros st2 w2 evs2 Hl2 Hne Hint. exists (evs ++ evs2)%list.
    split; [eapply logged_trans; eassumption|]. split; [exact Hint|].
    split.
    - intros p cmd ok Hin. apply in_app_or in Hin as [Hin|Hin].
      + now apply (Hb' p cmd ok).
      + now apply not_eval_in in Hin.
    - intros (p & cmd & Hin). exfalso.
      apply in_app_or in Hin as [Hin|Hin].
      + now apply (Hc eq_refl p cmd).
      + now apply not_eval_in in Hin. }
  destruct (get_modification_status w1 (as_file (set_dep_scripts sel0 deps')) true)
    as [ms fi] eqn:Em.
  destruct ms.
  - intros H; inversion H; subst.
    eapply Hmain; [apply logged_emit|repeat constructor|reflexivity].
  - destruct (changed || filemod_status_eqb not_modified modified) eqn:Ec.
    + destruct (execute_script_logged get_file_ext st w1
                  (as_script (set_as_file (set_dep_scripts sel0 deps') fi))
                  (opt_with_undo st)) as (evs2 & Hl2 & Hne).
      destruct (execute_script get_file_ext st w1 _ (opt_with_undo st))
        as [script w2].
      intros H; inversion H; subst. eapply Hmain; eauto.
    + intros H; inversion H; subst.
      eapply Hmain; [apply logged_refl|constructor|reflexivity].
  - destruct (changed || filemod_status_eqb modified modified) eqn:Ec.
    + destruct (execute_script_logged get_file_ext st w1
                  (as_script (set_as_file (set_dep_scripts sel0 deps') fi))
                  (opt_with_undo st)) as (evs2 & Hl2 & Hne).
      destruct (execute_script get_file_ext st w1 _ (opt_with_undo st))
        as [script w2].
      intros H; inversion H; subst. eapply Hmain; eauto.
    + intros H; inversion H; subst.
      eapply Hmain; [apply logged_refl|constructor|reflexivity].
Qed.

(** The trigger-file block leaves the tables alone; when the tick goes on
    it has logged nothing, or the removal of the trigger file. *)
Lemma check_trigger_spec (w : world) (sel sel1 : active_script_info_t)
    (ow : option world) :
  check_trigger w sel = (sel1, ow) ->
  as_path sel1 = as_path sel /\
  dep_scripts sel1 = dep_scripts sel /\
  dep_indices sel1 = dep_indices sel /\
  file_path (trigger_file sel1) = file_path (trigger_file sel) /\
  b_keep_trigger_file sel1 = b_keep_trigger_file sel /\
  match ow with
  | None => True
  | Some w1 =>
      (trigger_based sel = false /\ sel1 = sel /\ w1 = w) \/
      (trigger_based sel = true /\
       exists t, w_mtime w (file_path (trigger_file sel)) = Some t /\
         modified_time (trigger_file sel1) = t /\
         w1 = if b_keep_trigger_file sel then w
              else qunlink (file_path (trigger_file sel)) w)
  end.
Proof.
  unfold check_trigger. destruct (trigger_based sel) eqn:Et.
  - destruct (get_modification_status w (trigger_file sel) true)
      as [status tf] eqn:Es.
    assert (Hp : file_path tf = file_path (trigger_file sel)).
    { pose proof (gms_path w (trigger_file sel) true) as P. now rewrite Es in P. }
    destruct status; intros H; inversion H; subst; simpl; repeat split; auto.
    right. split; [reflexivity|].
    apply gms_modified in Es as (t & Ht & _ & ->). exists t. simpl. auto.
  - intros H; inversion H; subst. repeat split; auto.
Qed.

Lemma check_trigger_log (w : world) (sel sel1 : active_script_info_t)
    (w1 : world) :
  check_trigger w sel = (sel1, Some w1) ->
  exists tevs, w_log w1 = (w_log w ++ tevs)%list /\
    Forall (fun e => is_executor_event e = false) tevs /\
    Forall (fun e => is_eval_snippet e = false) tevs.
Proof.
  intros H. apply check_trigger_spec in H as (_ & _ & _ & _ & _ & H).
  destruct H as [(_ & _ & ->)|(_ & t & _ & _ & ->)].
  - exists []. now rewrite app_nil_r.
  - destruct (b_keep_trigger_file sel).
    + exists []. now rewrite app_nil_r.
    + eexists. simpl. split; [reflexivity|]. split; repeat constructor.
Qed.

Lemma new_events_app (w w1 w' : world) (tevs evs : list event) :
  w_log w1 = (w_log w ++ tevs)%list -> logged w1 w' evs ->
  new_events w w' = (tevs ++ evs)%list.
Proof.
  intros H1 (_ & _ & _ & _ & H2). unfold new_events.
  rewrite H2, H1, <- app_assoc.
  rewrite skipn_app, skipn_all, Nat.sub_diag. reflexivity.
Qed.

Lemma new_events_same (w : world) : new_events w w = [].
Proof. unfold new_events. apply skipn_all. Qed.

Lemma is_any_dep_index_modified_spec (w : world) (sel sel' : active_script_info_t)
    (r : filemod_status_e) :
  is_any_dep_index_modified w sel true = (r, sel') ->
  as_script sel' = as_script sel /\ dep_scripts sel' = dep_scripts sel /\
  trigger_file sel' = trigger_file sel /\
  b_keep_trigger_file sel' = b_keep_trigger_file sel /\
  dep_indices_status w true (dep_indices sel) = (r, dep_indices sel').
Proof.
  unfold is_any_dep_index_modified.
  destruct (dep_indices_status w true (dep_indices sel)) as [r0 l].
  intros H; inversion H; subst. simpl. auto.
Qed.

(** The trigger-file block writes the main script only when it lets the
    tick go on in trigger mode, and then it sets its time stamp to 0. *)
Lemma check_trigger_main (w : world) (sel sel1 : active_script_info_t)
    (w1 : world) :
  check_trigger w sel = (sel1, Some w1) ->
  as_script sel1
  = if trigger_based sel
    then si_set_file (as_script sel) (invalidate (as_file sel))
    else as_script sel.
Proof.
  unfold check_trigger. destruct (trigger_based sel).
  - destruct (get_modification_status w (trigger_file sel) true)
      as [status tf].
    destruct status; intros H; inversion H; subst; reflexivity.
  - intros H; inversion H; subst. reflexivity.
Qed.

(** C3: when, during a tick, the reload snippet of a dependency fails, the
    tick returns [opt_change_interval] and runs no step of the Executor
    (no [compile_file], no [call_func], no [msg_clear], no undo action),
    whether or not the main script was modified as well.  The main script
    is not even probed: the object the tick leaves is the old one with
    another active script, whose record of the main script is the one the
    tick found (with the time stamp set to 0 when a trigger file fired), so
    a change of the main script's file is still to be seen by a later tick.
    The tick does not depend on the recursion bound. *)
Theorem C3_failed_reload_aborts_tick
    (fuel : nat) (st st' : qscripts_chooser_t) (w w' : world) (d : Z) :
  filemon_timer_cb' fuel st w = Some (st', w', d) ->
  (exists p cmd, In (ev_eval_snippet p cmd false) (new_events w w')) ->
  d = opt_change_interval st /\
  Forall (fun e => is_executor_event e = false) (new_events w w') /\
  (exists sel',
     st' = set_selected st sel' /\
     as_script sel'
     = if trigger_based (selected_script st)
       then si_set_file (as_script (selected_script st))
              (invalidate (as_file (selected_script st)))
       else as_script (selected_script st)) /\
  forall fuel', filemon_timer_cb' fuel' st w = Some (st', w', d).
Proof.
  unfold filemon_timer_cb', filemon_timer_cb.
  destruct (negb (is_monitor_active st) || negb (has_selected_script st)).
  { intros H (p & cmd & Hin). inversion H; subst.
    rewrite new_events_same in Hin. contradiction. }
  destruct (check_trigger w (selected_script st)) as [sel1 [w1|]] eqn:Et.
  2:{ intros H (p & cmd & Hin). inversion H; subst.
      rewrite new_events_same in Hin. contradiction. }
  destruct (check_trigger_log _ _ _ _ Et) as (tevs & Hlog & Htex & Htev).
  pose proof (check_trigger_main _ _ _ _ Et) as Hmain.
  destruct (is_any_dep_index_modified w1 sel1 true) as [mod_stat sel2] eqn:Ei.
  destruct (is_any_dep_index_modified_spec _ _ _ _ Ei) as (Has & _).
  assert (Hgo : forall st2 w2,
            check_scripts get_basename get_file_ext st w1 sel2 mod_stat
            = (st2, w2) ->
            (exists p cmd, In (ev_eval_snippet p cmd false) (new_events w w2)) ->
            opt_change_interval st2 = opt_change_interval st /\
            Forall (fun e => is_executor_event e = false) (new_events w w2) /\
            exists sel',
              st2 = set_selected st sel' /\ as_script sel' = as_script sel2).
  { intros st2 w2 E (p & cmd & Hin).
    apply check_scripts_spec in E as (evs & Hl & Hint & _ & Hfail).
    rewrite (new_events_app _ _ _ _ _ Hlog Hl) in *.
    assert (Hex : exists p cmd, In (ev_eval_snippet p cmd false) evs).
    { exists p, cmd.
      apply in_app_or in Hin as [Hin|Hin]; [|exact Hin].
      now apply not_eval_in in Hin. }
    destruct (Hfail Hex) as (Hall & _ & deps' & Hst & _).
    split; [exact Hint|]. split; [apply Forall_app; split; assumption|].
    exists (set_dep_scripts sel2 deps'). split; [exact Hst|reflexivity]. }
  assert (Hend : forall st2 w2,
            check_scripts get_basename get_file_ext st w1 sel2 mod_stat
            = (st2, w2) ->
            (exists p cmd, In (ev_eval_snippet p cmd false) (new_events w w2)) ->
            opt_change_interval st2 = opt_change_interval st /\
            Forall (fun e => is_executor_event e = false) (new_events w w2) /\
            exists sel',
              st2 = set_selected st sel' /\
              as_script sel'
              = if trigger_based (selected_script st)
                then si_set_file (as_script (selected_script st))
                       (invalidate (as_file (selected_script st)))
                else as_script (selected_script st)).
  { intros st2 w2 E Hex.
    destruct (Hgo st2 w2 E Hex) as (Hint & Hall & sel' & Hst & Hsel).
    split; [exact Hint|]. split; [exact Hall|].
    exists sel'. split; [exact Hst|]. now rewrite Hsel, Has. }
  clear Hgo.
  destruct mod_stat.
  - destruct (check_scripts get_basename get_file_ext st w1 sel2 not_found)
      as [st2 w2] eqn:E.
    intros H Hex. inversion H; subst.
    destruct (Hend _ _ eq_refl Hex) as (Hint & Hall & Hsel). auto.
  - destruct (check_scripts get_basename get_file_ext st w1 sel2 not_modified)
      as [st2 w2] eqn:E.
    intros H Hex. inversion H; subst.
    destruct (Hend _ _ eq_refl Hex) as (Hint & Hall & Hsel). auto.
  - destruct (set_selected_script make_abs_path qdirname get_basename fuel w1
                (set_dep_scripts sel2 []) (as_script (set_dep_scripts sel2 [])))
      as [sel3|]; [|discriminate].
    intros H (p & cmd & Hin). inversion H; subst. exfalso.
    rewrite (new_events_app w w1 _ tevs [ev_refresh_chooser] Hlog
               (logged_emit _ _)) in Hin.
    apply in_app_or in Hin as [Hin|[Hin|[]]]; [|discriminate Hin].
    now apply not_eval_in in Hin.
Qed.

Lemma invalidate_all_scripts_spec (sel : active_script_info_t) :
  modified_time (as_file (invalidate_all_scripts sel)) = 0%Z /\
  Forall (fun kv => dep_mtime kv = 0%Z) (dep_scripts (invalidate_all_scripts sel)) /\
  dep_keys (dep_scripts (invalidate_all_scripts sel)) = dep_keys (dep_scripts sel) /\
  dep_paths (dep_scripts (invalidate_all_scripts sel)) = dep_paths (dep_scripts sel) /\
  as_path (invalidate_all_scripts sel) = as_path sel.
Proof.
  unfold invalidate_all_scripts. simpl. split; [reflexivity|].
  split; [|split; [|split]]; try reflexivity.
  - apply Forall_forall. intros kv Hin. apply in_map_iff in Hin as (kv0 & <- & _).
    reflexivity.
  - unfold dep_keys. rewrite map_map. reflexivity.
  - unfold dep_paths. rewrite map_map. reflexivity.
Qed.

(** A tick that finds an index file modified ends with the re-parse. *)
Lemma filemon_timer_cb_reparse
    (fuel : nat) (st : qscripts_chooser_t) (w w1 : world)
    (sel1 sel2 : active_script_info_t) :
  is_monitor_active st = true ->
  has_selected_script st = true ->
  check_trigger w (selected_script st) = (sel1, Some w1) ->
  is_any_dep_index_modified w1 sel1 true = (modified, sel2) ->
  filemon_timer_cb' fuel st w
  = match set_selected_script make_abs_path qdirname get_basename fuel w1
            (set_dep_scripts sel2 []) (as_script sel2) with
    | Some sel3 =>
        Some (set_selected st (invalidate_all_scripts sel3),
              emit ev_refresh_chooser w1, 1%Z)
    | None => None
    end.
Proof.
  intros Ha Hs Ht Hi.
  unfold filemon_timer_cb', filemon_timer_cb.
  rewrite Ha, Hs, Ht, Hi. reflexivity.
Qed.

(** C2: in a tick that reaches the index files and finds one of them
    modified, the dependency table is emptied and [set_selected_script] is
    run again on the current script (the old table plays no role in it).
    The tick returns exactly when that run returns.  When the run returns
    within some recursion depth, the tick returns for that depth and every
    larger one: it has set the time stamps of the main script and of every
    dependency to 0, asked for a refresh of the chooser, and returns 1
    instead of [opt_change_interval].  When the run does not return within
    a depth, neither does the tick. *)
Theorem C2_modified_index_file_reparses
    (st : qscripts_chooser_t) (w w1 : world)
    (sel1 sel2 : active_script_info_t) :
  is_monitor_active st = true ->
  has_selected_script st = true ->
  check_trigger w (selected_script st) = (sel1, Some w1) ->
  is_any_dep_index_modified w1 sel1 true = (modified, sel2) ->
  (forall fuel sel3,
     set_selected_script make_abs_path qdirname get_basename fuel w1
       (set_dep_scripts sel2 []) (as_script sel2) = Some sel3 ->
     (forall fuel', fuel <= fuel' ->
        filemon_timer_cb' fuel' st w
        = Some (set_selected st (invalidate_all_scripts sel3),
                emit ev_refresh_chooser w1, 1%Z)) /\
     (forall old_deps,
        set_selected_script make_abs_path qdirname get_basename fuel w1
          (set_dep_scripts sel2 old_deps) (as_script sel2) = Some sel3) /\
     modified_time (as_file (invalidate_all_scripts sel3)) = 0%Z /\
     Forall (fun kv => dep_mtime kv = 0%Z)
       (dep_scripts (invalidate_all_scripts sel3)) /\
     dep_keys (dep_scripts (invalidate_all_scripts sel3))
     = dep_keys (dep_scripts sel3)) /\
  (forall fuel,
     set_selected_script make_abs_path qdirname get_basename fuel w1
       (set_dep_scripts sel2 []) (as_script sel2) = None ->
     filemon_timer_cb' fuel st w = None).
Proof.
  intros Ha Hs Ht Hi. split.
  - intros fuel sel3 Hp.
    destruct (invalidate_all_scripts_spec sel3) as (H0 & Hd & Hk & _).
    split; [|split; [|split; [|split]]]; auto.
    intros fuel' Hle.
    rewrite (filemon_timer_cb_reparse fuel' st w w1 sel1 sel2 Ha Hs Ht Hi).
    now rewrite (set_selected_script_fuel_mono _ _ _ fuel fuel' _ _ _ _ Hle Hp).
  - intros fuel Hn.
    rewrite (filemon_timer_cb_reparse fuel st w w1 sel1 sel2 Ha Hs Ht Hi).
    now rewrite Hn.
Qed.

(** C4 (amended): after a tick that was left because the reload snippet of
    the dependency [p] failed, the next tick, run on the file system as the
    first one left it, does not evaluate a snippet for [p]: the probe of the
    first tick has stored the new time stamp of [p], and the failed reload
    is attempted again only when the file changes once more.  The table is
    taken to hold each script path once, as every table built by the parser
    and kept by the ticks does. *)
Theorem C4_failed_reload_not_retried
    (fuel : nat) (st st1 : qscripts_chooser_t) (w w1 : world) (d1 : Z)
    (p cmd : string) :
  NoDup (dep_paths (dep_scripts (selected_script st))) ->
  filemon_timer_cb' fuel st w = Some (st1, w1, d1) ->
  In (ev_eval_snippet p cmd false) (new_events w w1) ->
  exists st2 w2 d2,
    (forall fuel2, filemon_timer_cb' fuel2 st1 w1 = Some (st2, w2, d2)) /\
    forall cmd' ok, ~ In (ev_eval_snippet p cmd' ok) (new_events w1 w2).
Proof.
  intros Hnd Htick Hin.
  unfold filemon_timer_cb', filemon_timer_cb in Htick.
  destruct (is_monitor_active st) eqn:Ha; simpl in Htick.
  2:{ inversion Htick; subst. rewrite new_events_same in Hin. contradiction. }
  destruct (has_selected_script st) eqn:Hs; simpl in Htick.
  2:{ inversion Htick; subst. rewrite new_events_same in Hin. contradiction. }
  destruct (check_trigger w (selected_script st)) as [sel1 [wt|]] eqn:Et.
  2:{ inversion Htick; subst. rewrite new_events_same in Hin. contradiction. }
  destruct (check_trigger_log _ _ _ _ Et) as (tevs & Hlog & _ & Htev).
  destruct (check_trigger_spec _ _ _ _ Et) as (Hpath1 & Hdeps1 & Hidx1 & Htp1 & Hk1 & Hcase).
  destruct (is_any_dep_index_modified wt sel1 true) as [mod_stat sel2] eqn:Ei.
  destruct (is_any_dep_index_modified_spec _ _ _ _ Ei)
    as (Hscr2 & Hdeps2 & Htf2 & Hk2 & Hidx2).
  assert (Hcs : exists st' w',
            check_scripts get_basename get_file_ext st wt sel2 mod_stat
            = (st', w') /\ st1 = st' /\ w1 = w' /\ mod_stat <> modified).
  { destruct mod_stat.
    - destruct (check_scripts get_basename get_file_ext st wt sel2 not_found)
        as [st' w'] eqn:E. inversion Htick; subst.
      exists st1, w1. repeat split; auto; discriminate.
    - destruct (check_scripts get_basename get_file_ext st wt sel2 not_modified)
        as [st' w'] eqn:E. inversion Htick; subst.
      exists st1, w1. repeat split; auto; discriminate.
    - exfalso.
      destruct (set_selected_script _ _ _ _ _ _ _) as [sel3|]; [|discriminate].
      inversion Htick; subst.
      rewrite (new_events_app w wt _ tevs [ev_refresh_chooser] Hlog
                 (logged_emit _ _)) in Hin.
      apply in_app_or in Hin as [Hin|[Hin|[]]]; [|discriminate Hin].
      now apply not_eval_in in Hin. }
  destruct Hcs as (st' & w' & Ecs & <- & <- & Hnm). clear Htick.
  apply check_scripts_spec in Ecs as (evs & Hl & _ & _ & Hfail).
  rewrite (new_events_app _ _ _ _ _ Hlog Hl) in Hin.
  apply in_app_or in Hin as [Hin|Hin]; [now apply not_eval_in in Hin|].
  destruct Hfail as (_ & Hnf & deps' & -> & Hpost); [now exists p, cmd|].
  destruct Hpost as (evs' & Hl' & _ & Hpaths & _ & _ & Hfresh).
  rewrite (logged_inj _ _ _ _ Hl' Hl) in *. clear Hl'.
  assert (Hm : w_mtime w1 = w_mtime wt) by apply Hl.
  rewrite Hdeps2, Hdeps1 in Hfresh. specialize (Hfresh Hnd p cmd Hin).
  (* the second tick *)
  unfold filemon_timer_cb', filemon_timer_cb.
  unfold is_monitor_active, has_selected_script in *. simpl.
  rewrite Ha.
  assert (Hs2 : as_path (set_dep_scripts sel2 deps') = as_path (selected_script st)).
  { unfold as_path, as_file in *. simpl. now rewrite Hscr2. }
  rewrite Hs2, Hs. simpl.
  destruct Hcase as [(Htb & -> & ->)|(Htb & t & Ht & Hmt & Hwt)].
  - (* direct mode *)
    assert (Etr : check_trigger w1 (set_dep_scripts sel2 deps')
                  = (set_dep_scripts sel2 deps', Some w1)).
    { unfold check_trigger, trigger_based in *. simpl. now rewrite Htf2, Htb. }
    rewrite Etr.
    assert (Hms : mod_stat = not_modified).
    { destruct mod_stat; congruence. }
    subst mod_stat.
    apply dep_indices_status_not_modified in Hidx2 as [Heq Hagain].
    assert (Ei2 : is_any_dep_index_modified w1 (set_dep_scripts sel2 deps') true
                  = (not_modified, set_dep_scripts sel2 deps')).
    { unfold is_any_dep_index_modified. simpl.
      rewrite (dep_indices_status_same_files _ _ _ Hm), Heq, Hagain.
      f_equal. rewrite <- Heq. now destruct sel2. }
    rewrite Ei2.
    destruct (check_scripts get_basename get_file_ext
                (set_selected st (set_dep_scripts sel2 deps')) w1
                (set_dep_scripts sel2 deps') not_modified) as [st2 w2] eqn:Ecs2.
    exists st2, w2, (opt_change_interval st2). split; [reflexivity|].
    apply check_scripts_spec in Ecs2 as (evs2 & Hl2 & _ & Hev2 & _).
    rewrite (logged_new_events _ _ _ Hl2).
    intros cmd' ok Hin2.
    destruct (Hev2 _ _ _ Hin2) as (kv & t & Hkv & Hkp & Ht & Hne).
    simpl in Hkv. rewrite Hm, (Hfresh kv Hkv Hkp) in Ht.
    inversion Ht. congruence.
  - (* trigger mode: the trigger file is unchanged, or gone *)
    assert (Etr : exists sel', check_trigger w1 (set_dep_scripts sel2 deps')
                               = (sel', None)).
    { unfold check_trigger, trigger_based, fileinfo_empty in *. simpl.
      rewrite Htf2, Htp1, Htb.
      unfold get_modification_status. rewrite Htp1, Hm, Hwt.
      destruct (b_keep_trigger_file (selected_script st)).
      - rewrite Ht, Hmt, Z.eqb_refl. eauto.
      - simpl. rewrite String.eqb_refl. eauto. }
    destruct Etr as (sel' & ->).
    eexists _, w1, _. split; [reflexivity|].
    rewrite new_events_same. auto.
Qed.

End Tick_facts.


Lemma C2_modified_index_file_reparses_witness :
  (forall fuel sel3,
     set_selected_script Unix.make_abs_path Unix.qdirname Unix.get_basename
       fuel world_manifest_saved (set_dep_scripts sel_probed [])
       (as_script sel_probed) = Some sel3 ->
     (forall fuel', fuel <= fuel' ->
        filemon_timer_cb Unix.make_abs_path Unix.qdirname Unix.get_basename
          Unix.get_file_ext fuel' st_lib world_manifest_saved
        = Some (set_selected st_lib (invalidate_all_scripts sel3),
                emit ev_refresh_chooser world_manifest_saved, 1%Z)) /\
     (forall old_deps,
        set_selected_script Unix.make_abs_path Unix.qdirname Unix.get_basename
          fuel world_manifest_saved (set_dep_scripts sel_probed old_deps)
          (as_script sel_probed) = Some sel3) /\
     modified_time (as_file (invalidate_all_scripts sel3)) = 0%Z /\
     Forall (fun kv => dep_mtime kv = 0%Z)
       (dep_scripts (invalidate_all_scripts sel3)) /\
     dep_keys (dep_scripts (invalidate_all_scripts sel3))
     = dep_keys (dep_scripts sel3)) /\
  (forall fuel,
     set_selected_script Unix.make_abs_path Unix.qdirname Unix.get_basename
       fuel world_manifest_saved (set_dep_scripts sel_probed [])
       (as_script sel_probed) = None ->
     filemon_timer_cb Unix.make_abs_path Unix.qdirname Unix.get_basename
       Unix.get_file_ext fuel st_lib world_manifest_saved = None).
Proof.
  apply (C2_modified_index_file_reparses
           Unix.make_abs_path Unix.qdirname Unix.get_basename Unix.get_file_ext
           st_lib world_manifest_saved world_manifest_saved
           (selected_script st_lib) sel_probed);
    reflexivity.
Defined.

(** In [world_manifest_cyclic] the parser recurses without end: no
    recursion depth is enough. *)
Lemma cyclic_manifest_diverges : forall fuel ctx sel,
  script_file ctx = "/t/a.py" ->
  parse_deps_for_script Unix.make_abs_path Unix.qdirname Unix.get_basename
    fuel world_manifest_cyclic ctx sel = None.
Proof.
  induction fuel as [|fuel IH]; intros ctx sel Hs; [reflexivity|].
  simpl. rewrite Hs. simpl.
  now rewrite IH.
Qed.

(** C2, counterexample: the monitor is armed on [/t/a.py], whose index file
    is then saved with a line that names [/t/a.py] itself.  The probe of the
    index files reports [modified], and the tick does not return 1: the
    re-parse it starts recurses without end, whatever the recursion depth
    allowed. *)
Theorem C2_cyclic_index_file_tick_never_returns :
  is_monitor_active st_lib = true /\
  has_selected_script st_lib = true /\
  fst (is_any_dep_index_modified world_manifest_cyclic
         (selected_script st_lib) true) = modified /\
  forall fuel,
    filemon_timer_cb Unix.make_abs_path Unix.qdirname Unix.get_basename
      Unix.get_file_ext fuel st_lib world_manifest_cyclic = None.
Proof.
  split; [reflexivity|]. split; [reflexivity|]. split; [reflexivity|].
  intros fuel.
  rewrite (filemon_timer_cb_reparse Unix.make_abs_path Unix.qdirname
             Unix.get_basename Unix.get_file_ext fuel st_lib
             world_manifest_cyclic world_manifest_cyclic
             (selected_script st_lib)
             (snd (is_any_dep_index_modified world_manifest_cyclic
                     (selected_script st_lib) true)));
    try reflexivity.
  unfold set_selected_script.
  rewrite cyclic_manifest_diverges; reflexivity.
Qed.

Lemma C3_failed_reload_aborts_tick_witness :
  snd (tick_result st_lib world_both_saved) = opt_change_interval st_lib /\
  Forall (fun e => is_executor_event e = false)
    (new_events world_both_saved
       (snd (fst (tick_result st_lib world_both_saved)))) /\
  (exists sel',
     fst (fst (tick_result st_lib world_both_saved)) = set_selected st_lib sel' /\
     as_script sel'
     = if trigger_based (selected_script st_lib)
       then si_set_file (as_script (selected_script st_lib))
              (invalidate (as_file (selected_script st_lib)))
       else as_script (selected_script st_lib)) /\
  forall fuel',
    filemon_timer_cb Unix.make_abs_path Unix.qdirname Unix.get_basename
      Unix.get_file_ext fuel' st_lib world_both_saved
    = Some (fst (fst (tick_result st_lib world_both_saved)),
            snd (fst (tick_result st_lib world_both_saved)),
            snd (tick_result st_lib world_both_saved)).
Proof.
  apply (C3_failed_reload_aborts_tick
           Unix.make_abs_path Unix.qdirname Unix.get_basename Unix.get_file_ext 5).
  - reflexivity.
  - exists "/t/lib.py", "import lib". left. reflexivity.
Defined.

(** C4, as stated, fails: [/t/lib.py] was saved and its snippet fails in the
    first tick, which stores the new time stamp 7; the second tick, with
    the same files, finds nothing modified and evaluates no snippet. *)
Lemma C4_second_tick_evaluates_nothing :
  let '(st1, w1, d1) := after_failed_reload in
  let '(st2, w2, d2) := tick_result st1 w1 in
  Unix.filemon_timer_cb 5 st_lib world_lib_saved = Some (st1, w1, d1) /\
  new_events world_lib_saved w1
  = [ev_eval_snippet "/t/lib.py" "import lib" false;
     ev_msg "QScripts: warning: failed to execute reload directive"] /\
  w_mtime w1 "/t/lib.py" = Some 7%Z /\
  has_dep (selected_script st1) "/t/lib.py"
  = Some (mk_script_info (mk_fileinfo "/t/lib.py" 7) "import lib" "") /\
  Unix.filemon_timer_cb 5 st1 w1 = Some (st2, w2, d2) /\
  new_events w1 w2 = [].
Proof. vm_compute. repeat split; reflexivity. Qed.

Lemma C4_failed_reload_not_retried_witness :
  exists st2 w2 d2,
    (forall fuel2,
       filemon_timer_cb Unix.make_abs_path Unix.qdirname Unix.get_basename
         Unix.get_file_ext fuel2 (fst (fst after_failed_reload))
         (snd (fst after_failed_reload)) = Some (st2, w2, d2)) /\
    forall cmd' ok,
      ~ In (ev_eval_snippet "/t/lib.py" cmd' ok)
           (new_events (snd (fst after_failed_reload)) w2).
Proof.
  apply (C4_failed_reload_not_retried
           Unix.make_abs_path Unix.qdirname Unix.get_basename Unix.get_file_ext
           5 st_lib (fst (fst after_failed_reload)) world_lib_saved
           (snd (fst after_failed_reload)) (snd after_failed_reload)
           "/t/lib.py" "import lib").
  - simpl. repeat constructor. simpl. tauto.
  - reflexivity.
  - left. reflexivity.
Defined.


(** ** Well-formed dependency tables *)

Lemma deps_wf_nil : deps_wf [].
Proof. split; constructor. Qed.

Lemma deps_wf_paths (m : dep_map) : deps_wf m -> NoDup (dep_paths m).
Proof.
  intros [Hnd Hf]. unfold dep_paths.
  replace (map dep_path m) with (dep_keys m); [exact Hnd|].
  unfold dep_keys. apply map_ext_in. intros kv Hin.
  rewrite Forall_forall in Hf. symmetry. now apply Hf.
Qed.

Lemma dep_assign_wf (k : string) (v : script_info_t) : forall m,
  file_path (si_file v) = k -> deps_wf m -> deps_wf (dep_assign k v m).
Proof.
  intros m Hv. induction m as [|[k0 v0] m IH]; intros [Hnd Hf].
  - split; simpl; repeat constructor; auto.
  - simpl in *. apply NoDup_cons_iff in Hnd as [Hnotin Hnd].
    apply Forall_cons_iff in Hf as [Hx Hl].
    destruct (String.eqb_spec k0 k) as [Heq|Hne].
    + split; simpl; [now constructor|]. constructor; auto.
      unfold dep_path. simpl. congruence.
    + destruct (IH (conj Hnd Hl)) as [Hnd' Hf'].
      split; simpl; [|constructor; auto].
      constructor; [|exact Hnd'].
      intros Hin. apply dep_assign_keys in Hin as [Hin|Heq]; auto.
Qed.

Section Parser_wf.

Variable make_abs_path : string -> string -> string.
Variable qdirname : string -> string.
Variable get_basename : string -> string.
Variable w : world.

Lemma parse_line_wf (ctx ctx' : expand_ctx_t) (sel sel' : active_script_info_t)
    (raw : string) (r : option string) :
  parse_line make_abs_path get_basename w ctx sel raw = (ctx', sel', r) ->
  deps_wf (dep_scripts sel) -> deps_wf (dep_scripts sel').
Proof.
  unfold parse_line.
  destruct (is_skipped_line (trim2 raw)).
  { intros H; injection H as <- <- <-; auto. }
  destruct (get_value (trim2 raw) "/pkgbase" 8).
  { intros H; injection H as <- <- <-; auto. }
  destruct (get_value (trim2 raw) "/reload" 7).
  { intros H; injection H as <- <- <-; auto. }
  destruct (get_value (trim2 raw) "/triggerfile" 12) as [v|].
  { intros H; injection H as <- <- <-. unfold parse_triggerfile.
    destruct (get_value v "/keep" 5), (main_file ctx); simpl; auto. }
  simpl.
  destruct (w_mtime w _); intros H; injection H as <- <- <-; simpl; auto.
  intros Hwf. now apply dep_assign_wf.
Qed.

(** The parser keeps the table well formed. *)
Lemma parse_deps_wf : forall fuel ctx sel sel',
  parse_deps_for_script make_abs_path qdirname get_basename fuel w ctx sel
  = Some sel' ->
  deps_wf (dep_scripts sel) -> deps_wf (dep_scripts sel').
Proof.
  induction fuel as [|fuel IH]; intros ctx sel sel' H Hwf; [discriminate|].
  simpl in H.
  destruct (open_dep_file w (script_file ctx)) as [[dep_file lines]|];
    [|now inversion H; subst].
  destruct (parse_lines_invariant make_abs_path get_basename w
              (parse_deps_for_script make_abs_path qdirname get_basename fuel w)
              (fun _ s => deps_wf (dep_scripts s)) lines) with
      (ctx := ctx_set_base_dir ctx (qdirname dep_file))
      (sel := snd (add_dep_index w sel dep_file)) (sel' := sel')
    as [_ Hres]; auto.
  - intros raw c s c' s' r _ HI E. split.
    + eapply parse_line_wf; eassumption.
    + intros line s'' _ Hrec. eapply IH; [exact Hrec|].
      eapply parse_line_wf; eassumption.
  - now rewrite (proj2 (add_dep_index_effect w sel dep_file)).
Qed.

(** After [set_selected_script] no two entries of the table have the same
    script path. *)
Lemma set_selected_script_paths_nodup
    (fuel : nat) (sel sel' : active_script_info_t) (script : script_info_t) :
  set_selected_script make_abs_path qdirname get_basename fuel w sel script
  = Some sel' ->
  NoDup (dep_paths (dep_scripts sel')).
Proof.
  intros H. apply deps_wf_paths. unfold set_selected_script in H.
  eapply parse_deps_wf; [exact H|]. apply deps_wf_nil.
Qed.

End Parser_wf.

(** A script that names itself in a plain line of its own index file makes
    the parser recurse without end: no recursion depth is enough. *)
Lemma plain_self_reference_diverges : forall fuel ctx sel,
  script_file ctx = "/t/a.py" ->
  parse_deps_for_script Unix.make_abs_path Unix.qdirname Unix.get_basename
    fuel world_plain_self ctx sel = None.
Proof.
  induction fuel as [|fuel IH]; intros ctx sel Hs; [reflexivity|].
  simpl. rewrite Hs. simpl.
  now rewrite IH.
Qed.

(** The loop over the index files reports [modified] exactly when it
    reaches an index file whose probe reports [modified], all the files
    before it being unchanged. *)
Lemma dep_indices_status_modified (w : world) (b : bool) : forall l,
  fst (dep_indices_status w b l) = modified <->
  exists l1 f l2, l = (l1 ++ f :: l2)%list /\
    Forall (fun g => fst (get_modification_status w g b) = not_modified) l1 /\
    fst (get_modification_status w f b) = modified.
Proof.
  induction l as [|fi l IH]; simpl.
  - split; [discriminate|]. intros (l1 & f & l2 & H & _).
    now destruct l1.
  - destruct (get_modification_status w fi b) as [r fi'] eqn:E.
    destruct r; simpl.
    + split; [discriminate|]. intros (l1 & f & l2 & H & Hf & Hm).
      destruct l1 as [|g l1]; simpl in H; inversion H; subst.
      * rewrite E in Hm. discriminate Hm.
      * inversion Hf; subst. rewrite E in *. discriminate.
    + destruct (dep_indices_status w b l) as [r' rest'] eqn:E'. simpl in *.
      rewrite IH. split.
      * intros (l1 & f & l2 & -> & Hf & Hm). exists (fi :: l1), f, l2.
        repeat split; auto. constructor; auto. now rewrite E.
      * intros (l1 & f & l2 & H & Hf & Hm).
        destruct l1 as [|g l1]; simpl in H; inversion H; subst.
        -- rewrite E in Hm. discriminate Hm.
        -- inversion Hf; subst. now exists l1, f, l2.
    + split; [|reflexivity]. intros _. exists [], fi, l.
      repeat split; auto. now rewrite E.
Qed.


Section Tick_keeps_paths.

Variable make_abs_path : string -> string -> string.
Variable qdirname : string -> string.
Variable get_basename : string -> string.
Variable get_file_ext : string -> option string.

Lemma check_scripts_paths_nodup (st st' : qscripts_chooser_t) (w w' : world)
    (sel : active_script_info_t) (mod_stat : filemod_status_e) :
  check_scripts get_basename get_file_ext st w sel mod_stat = (st', w') ->
  NoDup (dep_paths (dep_scripts sel)) ->
  NoDup (dep_paths (dep_scripts (selected_script st'))).
Proof.
  unfold check_scripts.
  set (sel0 := match mod_stat, dep_scripts sel with
               | not_found, _ :: _ => set_dep_scripts sel []
               | _, _ => sel
               end).
  intros H Hnd.
  assert (Hnd0 : NoDup (dep_paths (dep_scripts sel0))).
  { unfold sel0. destruct mod_stat; auto.
    destruct (dep_scripts sel) eqn:Ed; [rewrite Ed|]; constructor. }
  destruct (check_dep_scripts get_basename get_file_ext w sel0 (dep_scripts sel0))
    as [[[deps' changed] brk] w1] eqn:E.
  apply check_dep_scripts_spec in E as (_ & _ & _ & Hpaths & _).
  rewrite <- Hpaths in Hnd0.
  destruct brk; [inversion H; subst; exact Hnd0|].
  destruct (get_modification_status w1 (as_file (set_dep_scripts sel0 deps')) true)
    as [ms fi].
  destruct ms.
  - inversion H; subst. constructor.
  - destruct (changed || filemod_status_eqb not_modified modified).
    + destruct (execute_script get_file_ext st w1 _ (opt_with_undo st)).
      inversion H; subst. exact Hnd0.
    + inversion H; subst. exact Hnd0.
  - destruct (changed || filemod_status_eqb modified modified).
    + destruct (execute_script get_file_ext st w1 _ (opt_with_undo st)).
      inversion H; subst. exact Hnd0.
    + inversion H; subst. exact Hnd0.
Qed.

(** A tick keeps the script paths of the table distinct, so they are
    distinct in every state reached from [set_selected_script] by ticks. *)
Lemma filemon_timer_cb_paths_nodup
    (fuel : nat) (st st' : qscripts_chooser_t) (w w' : world) (d : Z) :
  filemon_timer_cb make_abs_path qdirname get_basename get_file_ext fuel st w
  = Some (st', w', d) ->
  NoDup (dep_paths (dep_scripts (selected_script st))) ->
  NoDup (dep_paths (dep_scripts (selected_script st'))).
Proof.
  unfold filemon_timer_cb. intros H Hnd.
  destruct (negb (is_monitor_active st) || negb (has_selected_script st));
    [inversion H; subst; exact Hnd|].
  destruct (check_trigger w (selected_script st)) as [sel1 ow] eqn:Et.
  destruct (check_trigger_spec _ _ _ _ Et) as (_ & Hd1 & _).
  destruct ow as [w1|]; [|inversion H; subst; simpl; now rewrite Hd1].
  destruct (is_any_dep_index_modified w1 sel1 true) as [mod_stat sel2] eqn:Ei.
  destruct (is_any_dep_index_modified_spec _ _ _ _ Ei) as (_ & Hd2 & _).
  assert (Hnd2 : NoDup (dep_paths (dep_scripts sel2))) by now rewrite Hd2, Hd1.
  destruct mod_stat.
  - destruct (check_scripts get_basename get_file_ext st w1 sel2 not_found)
      as [st2 w2] eqn:E.
    inversion H; subst. eapply check_scripts_paths_nodup; eassumption.
  - destruct (check_scripts get_basename get_file_ext st w1 sel2 not_modified)
      as [st2 w2] eqn:E.
    inversion H; subst. eapply check_scripts_paths_nodup; eassumption.
  - destruct (set_selected_script _ _ _ _ _ _ _) as [sel3|] eqn:Es;
      [|discriminate].
    inversion H; subst. cbn [selected_script set_selected].
    destruct (invalidate_all_scripts_spec sel3) as (_ & _ & _ & Hp & _).
    rewrite Hp. eapply set_selected_script_paths_nodup. exact Es.
Qed.

End Tick_keeps_paths.


(** * Further properties of the code *)

(** ** Probing files *)

Lemma gms_settles (w : world) (fi : fileinfo_t) :
  settled w (snd (get_modification_status w fi true)).
Proof.
  unfold settled, get_modification_status.
  destruct (w_mtime w (file_path fi)) as [t|] eqn:E; simpl.
  - destruct (Z.eqb_spec t (modified_time fi)); simpl; rewrite E; auto.
  - now rewrite E.
Qed.

Lemma gms_settled (w : world) (fi : fileinfo_t) (b : bool) :
  settled w fi ->
  get_modification_status w fi b
  = (match w_mtime w (file_path fi) with
     | Some _ => not_modified
     | None => not_found
     end, fi).
Proof.
  unfold settled, get_modification_status.
  destruct (w_mtime w (file_path fi)) as [t|]; intros H.
  - now rewrite H, Z.eqb_refl.
  - destruct b; [|reflexivity]. destruct fi; simpl in *. now subst.
Qed.

Lemma fresh_settled (w : world) (fi : fileinfo_t) : fresh w fi -> settled w fi.
Proof. unfold fresh, settled. now intros ->. Qed.

Lemma gms_fresh (w : world) (fi : fileinfo_t) (b : bool) :
  fresh w fi -> get_modification_status w fi b = (not_modified, fi).
Proof.
  intros H. rewrite (gms_settled _ _ _ (fresh_settled _ _ H)).
  unfold fresh in H. now rewrite H.
Qed.

(** X1: a change of a file is reported once.  After a probe that updates
    the time stamp, a second probe of the same file in the same world never
    reports [modified] and leaves the record as it is. *)
Theorem X1_probe_reports_a_change_once (w : world) (fi : fileinfo_t) :
  fst (get_modification_status w (snd (get_modification_status w fi true)) true)
  <> modified /\
  snd (get_modification_status w (snd (get_modification_status w fi true)) true)
  = snd (get_modification_status w fi true).
Proof.
  rewrite (gms_settled _ _ _ (gms_settles w fi)). simpl.
  split; [|reflexivity]. now destruct (w_mtime w _).
Qed.

(** X2: the loop over the index files stops at the first file that is
    missing or modified: the files before it were found unchanged, that
    file carries the result of its probe, and the files after it have not
    been probed at all. *)
Theorem X2_index_loop_stops_at_first_change (w : world) : forall l r l',
  dep_indices_status w true l = (r, l') ->
  r <> not_modified ->
  exists l1 f l2,
    l = (l1 ++ f :: l2)%list /\
    l' = (l1 ++ snd (get_modification_status w f true) :: l2)%list /\
    Forall (fresh w) l1 /\
    fst (get_modification_status w f true) = r.
Proof.
  induction l as [|fi l IH]; intros r l' H Hr; simpl in H.
  - inversion H; subst. congruence.
  - destruct (get_modification_status w fi true) as [r0 fi'] eqn:E.
    assert (Hstop : r0 <> not_modified -> (r0, fi' :: l) = (r, l') ->
              exists l1 f l2,
                (fi :: l) = (l1 ++ f :: l2)%list /\
                l' = (l1 ++ snd (get_modification_status w f true) :: l2)%list /\
                Forall (fresh w) l1 /\
                fst (get_modification_status w f true) = r).
    { intros _ Heq. inversion Heq; subst. exists [], fi, l.
      rewrite E. repeat split; auto. }
    destruct r0; [apply Hstop; [discriminate|exact H]| |
                  apply Hstop; [discriminate|exact H]].
    destruct (dep_indices_status w true l) as [r' rest'] eqn:E'.
    inversion H; subst.
    destruct (IH _ _ eq_refl Hr) as (l1 & f & l2 & -> & -> & Hf & Hs).
    apply gms_not_modified in E as [-> Hfresh].
    exists (fi :: l1), f, l2. repeat split; auto.
Qed.

Lemma X2_index_loop_stops_at_first_change_witness :
  exists l1 f l2,
    [mk_fileinfo "/t/a.py.deps.qscripts" 6; mk_fileinfo "/t/gone" 3;
     mk_fileinfo "/t/lib.py" 1]
    = (l1 ++ f :: l2)%list /\
    [mk_fileinfo "/t/a.py.deps.qscripts" 6; mk_fileinfo "/t/gone" 0;
     mk_fileinfo "/t/lib.py" 1]
    = (l1 ++ snd (get_modification_status world_lib_saved f true) :: l2)%list /\
    Forall (fresh world_lib_saved) l1 /\
    fst (get_modification_status world_lib_saved f true) = not_found.
Proof.
  apply (X2_index_loop_stops_at_first_change world_lib_saved).
  - reflexivity.
  - discriminate.
Defined.

Lemma dep_indices_status_fresh (w : world) (b : bool) : forall l,
  Forall (fresh w) l -> dep_indices_status w b l = (not_modified, l).
Proof.
  induction l as [|fi l IH]; intros H; simpl; [reflexivity|].
  apply Forall_cons_iff in H as [Hfi Hl].
  now rewrite (gms_fresh _ _ _ Hfi), (IH Hl).
Qed.


(** ** What the parser records *)

(** Lookup after [m[k] = v]. *)
Lemma dep_find_assign (k k' : string) (v : script_info_t) : forall m,
  dep_find k' (dep_assign k v m)
  = if String.eqb k k' then Some v else dep_find k' m.
Proof.
  induction m as [|[k0 v0] m IH]; simpl.
  - reflexivity.
  - destruct (String.eqb_spec k0 k) as [->|Hne]; simpl.
    + destruct (String.eqb k k'); reflexivity.
    + rewrite IH. destruct (String.eqb_spec k k') as [->|Hne'];
        [|reflexivity].
      destruct (String.eqb_spec k0 k'); congruence.
Qed.

Section Parser_records.

Variable make_abs_path : string -> string -> string.
Variable qdirname : string -> string.
Variable get_basename : string -> string.
Variable w : world.

(** What a line cannot do. *)
Lemma parse_line_frame (ctx ctx' : expand_ctx_t)
    (sel sel' : active_script_info_t) (raw : string) (r : option string) :
  parse_line make_abs_path get_basename w ctx sel raw = (ctx', sel', r) ->
  dep_indices sel' = dep_indices sel /\
  main_file ctx' = main_file ctx /\
  (b_keep_trigger_file sel = true -> b_keep_trigger_file sel' = true) /\
  (main_file ctx = false ->
     trigger_file sel' = trigger_file sel /\
     ctx_reload_cmd ctx' = ctx_reload_cmd ctx /\
     ctx_pkg_base ctx' = ctx_pkg_base ctx) /\
  (get_value (trim2 raw) "/triggerfile" 12 = None ->
     trigger_file sel' = trigger_file sel) /\
  (forall k v, dep_find k (dep_scripts sel') = Some v ->
     dep_find k (dep_scripts sel) = Some v \/
     (file_path (si_file v) = k /\
      w_mtime w k = Some (modified_time (si_file v)) /\
      reload_cmd v = ctx_reload_cmd ctx' /\
      pkg_base v = ctx_pkg_base ctx')).
Proof.
  unfold parse_line.
  destruct (is_skipped_line (trim2 raw)).
  { intros H; injection H as <- <- <-; repeat split; auto. }
  destruct (get_value (trim2 raw) "/pkgbase" 8).
  { intros H; injection H as <- <- <-.
    destruct (main_file ctx) eqn:Em; simpl; rewrite ?Em;
      repeat split; auto; intros; try discriminate; auto. }
  destruct (get_value (trim2 raw) "/reload" 7).
  { intros H; injection H as <- <- <-.
    destruct (main_file ctx) eqn:Em; simpl; rewrite ?Em;
      repeat split; auto; intros; try discriminate; auto. }
  destruct (get_value (trim2 raw) "/triggerfile" 12) as [v|].
  { intros H; injection H as <- <- <-. unfold parse_triggerfile.
    destruct (get_value v "/keep" 5), (main_file ctx) eqn:Em; simpl;
      rewrite ?Em; repeat split; auto; intros; try discriminate; auto. }
  simpl.
  destruct (w_mtime w _) eqn:Hm; intros H; injection H as <- <- <-; simpl;
    repeat split; auto.
  intros k v Hf. rewrite dep_find_assign in Hf.
  match type of Hf with
  | context [String.eqb ?a k] =>
      destruct (String.eqb_spec a k) as [Heq|Hne]; [|now left]
  end.
  right. inversion Hf; subst. simpl. repeat split; auto.
Qed.

Lemma add_dep_index_fresh (sel : active_script_info_t) (dep_file : string) :
  Forall (fresh w) (dep_indices sel) ->
  Forall (fresh w) (dep_indices (snd (add_dep_index w sel dep_file))) /\
  trigger_file (snd (add_dep_index w sel dep_file)) = trigger_file sel /\
  b_keep_trigger_file (snd (add_dep_index w sel dep_file))
  = b_keep_trigger_file sel.
Proof.
  unfold add_dep_index, get_file_modification_time.
  destruct (w_mtime w dep_file) as [t|] eqn:E; simpl; auto.
  intros H. repeat split; auto. apply Forall_app. split; [exact H|].
  repeat constructor. exact E.
Qed.

(** An invariant of the active script that every line keeps is kept by the
    whole parse, in whatever context it is entered. *)
Lemma parse_deps_invariant (P : active_script_info_t -> Prop) :
  (forall sel dep_file, P sel -> P (snd (add_dep_index w sel dep_file))) ->
  (forall ctx sel raw,
      P sel ->
      P (snd (fst (parse_line make_abs_path get_basename w ctx sel raw)))) ->
  forall fuel ctx sel sel',
    parse_deps_for_script make_abs_path qdirname get_basename fuel w ctx sel
    = Some sel' ->
    P sel -> P sel'.
Proof.
  intros Hadd Hline.
  induction fuel as [|fuel IH]; intros ctx sel sel' H HP; [discriminate|].
  simpl in H.
  destruct (open_dep_file w (script_file ctx)) as [[dep_file lines]|];
    [|now inversion H; subst].
  destruct (parse_lines_invariant make_abs_path get_basename w
              (parse_deps_for_script make_abs_path qdirname get_basename fuel w)
              (fun _ s => P s) lines) with
      (ctx := ctx_set_base_dir ctx (qdirname dep_file))
      (sel := snd (add_dep_index w sel dep_file)) (sel' := sel')
    as [_ Hres]; auto.
  intros raw c s c' s' r _ HI E.
  assert (HP' : P s').
  { specialize (Hline c s raw HI). now rewrite E in Hline. }
  split; [exact HP'|].
  intros line s'' _ Hrec. now apply (IH _ _ _ Hrec).
Qed.

(** The same for a parse entered below the top level: there the context
    keeps its [reload_cmd] and [pkg_base], and the invariant may depend on
    them. *)
Lemma parse_deps_sub_invariant (R : string -> string -> active_script_info_t -> Prop) :
  (forall rl pk sel dep_file,
      R rl pk sel -> R rl pk (snd (add_dep_index w sel dep_file))) ->
  (forall ctx sel raw,
      main_file ctx = false ->
      R (ctx_reload_cmd ctx) (ctx_pkg_base ctx) sel ->
      R (ctx_reload_cmd ctx) (ctx_pkg_base ctx)
        (snd (fst (parse_line make_abs_path get_basename w ctx sel raw)))) ->
  forall fuel ctx sel sel',
    main_file ctx = false ->
    parse_deps_for_script make_abs_path qdirname get_basename fuel w ctx sel
    = Some sel' ->
    R (ctx_reload_cmd ctx) (ctx_pkg_base ctx) sel ->
    R (ctx_reload_cmd ctx) (ctx_pkg_base ctx) sel'.
Proof.
  intros Hadd Hline.
  induction fuel as [|fuel IH]; intros ctx sel sel' Hm H HR; [discriminate|].
  simpl in H.
  destruct (open_dep_file w (script_file ctx)) as [[dep_file lines]|];
    [|now inversion H; subst].
  destruct (parse_lines_invariant make_abs_path get_basename w
              (parse_deps_for_script make_abs_path qdirname get_basename fuel w)
              (fun c s => main_file c = false /\
                          ctx_reload_cmd c = ctx_reload_cmd ctx /\
                          ctx_pkg_base c = ctx_pkg_base ctx /\
                          R (ctx_reload_cmd ctx) (ctx_pkg_base ctx) s) lines) with
      (ctx := ctx_set_base_dir ctx (qdirname dep_file))
      (sel := snd (add_dep_index w sel dep_file)) (sel' := sel')
    as [_ (_ & _ & _ & Hres)]; auto.
  intros raw c s c' s' r _ (Hcm & Hcr & Hcp & HI) E.
  destruct (parse_line_frame _ _ _ _ _ _ E) as (_ & Hm' & _ & Hsub & _).
  destruct (Hsub Hcm) as (_ & Hr' & Hp').
  assert (HR' : R (ctx_reload_cmd ctx) (ctx_pkg_base ctx) s').
  { pose proof (Hline c s raw Hcm) as Hl. rewrite E, Hcr, Hcp in Hl.
    now apply Hl. }
  split; [repeat split; congruence|].
  intros line s'' _ Hrec. repeat split; try congruence.
  pose proof (IH (make_sub_ctx c' line) s' s'' eq_refl Hrec) as Hsubrec.
  simpl in Hsubrec. rewrite Hr', Hp', Hcr, Hcp in Hsubrec. now apply Hsubrec.
Qed.

End Parser_records.


Section Parser_extras.

Variable make_abs_path : string -> string -> string.
Variable qdirname : string -> string.
Variable get_basename : string -> string.
Variable w : world.

Let parse_line' := parse_line make_abs_path get_basename.
Let parse_deps' := parse_deps_for_script make_abs_path qdirname get_basename.
Let set_selected' := set_selected_script make_abs_path qdirname get_basename.

Lemma parse_line_frame' (ctx : expand_ctx_t) (sel : active_script_info_t)
    (raw : string) :
  parse_line' w ctx sel raw
  = (fst (fst (parse_line' w ctx sel raw)),
     snd (fst (parse_line' w ctx sel raw)),
     snd (parse_line' w ctx sel raw)).
Proof. now destruct (parse_line' w ctx sel raw) as [[c s] r]. Qed.

Lemma parse_deps_indices_fresh (fuel : nat) (ctx : expand_ctx_t)
    (sel sel' : active_script_info_t) :
  parse_deps' fuel w ctx sel = Some sel' ->
  Forall (fresh w) (dep_indices sel) -> Forall (fresh w) (dep_indices sel').
Proof.
  apply (parse_deps_invariant make_abs_path qdirname get_basename w
           (fun s => Forall (fresh w) (dep_indices s))).
  - intros s dep_file H. now apply add_dep_index_fresh.
  - intros c s raw H.
    destruct (parse_line_frame _ _ _ _ _ _ _ _ _ (parse_line_frame' c s raw))
      as (Hi & _).
    fold parse_line'. now rewrite Hi.
Qed.


Lemma parse_deps_entries_fresh (fuel : nat) (ctx : expand_ctx_t)
    (sel sel' : active_script_info_t) :
  parse_deps' fuel w ctx sel = Some sel' ->
  (forall k v, has_dep sel k = Some v ->
     file_path (si_file v) = k /\ fresh w (si_file v)) ->
  forall k v, has_dep sel' k = Some v ->
    file_path (si_file v) = k /\ fresh w (si_file v).
Proof.
  apply (parse_deps_invariant make_abs_path qdirname get_basename w
           (fun s => forall k v, has_dep s k = Some v ->
                       file_path (si_file v) = k /\ fresh w (si_file v))).
  - intros s dep_file H k v. unfold has_dep.
    rewrite (proj2 (add_dep_index_effect w s dep_file)). apply H.
  - intros c s raw H k v Hf.
    destruct (parse_line_frame _ _ _ _ _ _ _ _ _ (parse_line_frame' c s raw))
      as (_ & _ & _ & _ & _ & Hd).
    destruct (Hd k v Hf) as [Hold|(Hp & Hm & _)]; [now apply H|].
    split; [exact Hp|]. unfold fresh. now rewrite Hp.
Qed.

(** X4: after [set_selected_script] every dependency is filed under its
    own path and carries the time stamp its file has in the world that was
    parsed; in particular every recorded dependency exists. *)
Theorem X4_dependencies_recorded_fresh
    (fuel : nat) (sel sel' : active_script_info_t) (script : script_info_t)
    (k : string) (v : script_info_t) :
  set_selected' fuel w sel script = Some sel' ->
  has_dep sel' k = Some v ->
  file_path (si_file v) = k /\
  w_mtime w k = Some (modified_time (si_file v)).
Proof.
  intros H Hf. unfold set_selected', set_selected_script in H.
  destruct (parse_deps_entries_fresh _ _ _ _ H) with (k := k) (v := v)
    as [Hp Hm]; auto.
  - intros k0 v0 H0. discriminate H0.
  - split; [exact Hp|]. unfold fresh in Hm. now rewrite Hp in Hm.
Qed.

Lemma parse_sub_keeps_trigger_file (fuel : nat) (ctx : expand_ctx_t)
    (sel sel' : active_script_info_t) :
  main_file ctx = false ->
  parse_deps' fuel w ctx sel = Some sel' ->
  trigger_file sel' = trigger_file sel.
Proof.
  intros Hm H.
  apply (parse_deps_sub_invariant make_abs_path qdirname get_basename w
           (fun _ _ s => trigger_file s = trigger_file sel)
           ) with (fuel := fuel) (ctx := ctx) (sel := sel); auto.
  - intros _ _ s dep_file Hs.
    unfold add_dep_index, get_file_modification_time.
    now destruct (w_mtime w dep_file).
  - intros c s raw Hc Hs.
    destruct (parse_line_frame _ _ _ _ _ _ _ _ _ (parse_line_frame' c s raw))
      as (_ & _ & _ & Hsub & _).
    destruct (Hsub Hc) as (Ht & _). fold parse_line' . congruence.
Qed.

(** X5: an index file read below the top level cannot change the trigger
    file of the active script, whatever its lines are. *)
Theorem X5_nested_manifest_keeps_trigger_file
    (fuel : nat) (ctx : expand_ctx_t) (sel sel' : active_script_info_t) :
  main_file ctx = false ->
  parse_deps' fuel w ctx sel = Some sel' ->
  trigger_file sel' = trigger_file sel.
Proof. apply parse_sub_keeps_trigger_file. Qed.

(** X6: [set_selected_script] never lowers [b_keep_trigger_file]: once a
    [/keep] was read the flag stays raised through every later parse, also
    when the manifest no longer has it; only [clear] resets it. *)
Theorem X6_keep_flag_is_never_lowered
    (fuel : nat) (sel sel' : active_script_info_t) (script : script_info_t) :
  b_keep_trigger_file sel = true ->
  set_selected' fuel w sel script = Some sel' ->
  b_keep_trigger_file sel' = true.
Proof.
  intros Hk H. unfold set_selected', set_selected_script in H.
  apply (parse_deps_invariant make_abs_path qdirname get_basename w
           (fun s => b_keep_trigger_file s = true)) in H; auto.
  - intros s dep_file Hs.
    now rewrite (proj2 (proj2 (add_dep_index_fresh w s dep_file (Forall_nil _))))
      || (unfold add_dep_index, get_file_modification_time;
          now destruct (w_mtime w dep_file)).
  - intros c s raw Hs.
    destruct (parse_line_frame _ _ _ _ _ _ _ _ _ (parse_line_frame' c s raw))
      as (_ & _ & Hkeep & _).
    now apply Hkeep.
Qed.

(** X7: [set_selected_script] does not reset the trigger file.  When the
    top-level index file of the new script has no [/triggerfile] line (or
    the script has no index file), the trigger file of the previous
    selection stays in force. *)
Theorem X7_trigger_file_survives_selection
    (fuel : nat) (sel sel' : active_script_info_t) (script : script_info_t) :
  (forall dep_file lines,
     open_dep_file w (file_path (si_file script)) = Some (dep_file, lines) ->
     Forall (fun raw => get_value (trim2 raw) "/triggerfile" 12 = None) lines) ->
  set_selected' fuel w sel script = Some sel' ->
  trigger_file sel' = trigger_file sel.
Proof.
  intros Hno H. unfold set_selected', set_selected_script in H.
  destruct fuel as [|fuel]; [discriminate|]. simpl in H.
  destruct (open_dep_file w (file_path (si_file script)))
    as [[dep_file lines]|] eqn:Eo; [|now inversion H].
  specialize (Hno _ _ eq_refl). rewrite Forall_forall in Hno.
  destruct (parse_lines_invariant make_abs_path get_basename w
              (parse_deps_for_script make_abs_path qdirname get_basename fuel w)
              (fun _ s => trigger_file s = trigger_file sel) lines) with
      (ctx := ctx_set_base_dir
                (mk_ctx (file_path (si_file script)) true "" "" "")
                (qdirname dep_file))
      (sel := snd (add_dep_index w (active_assign sel script) dep_file))
      (sel' := sel')
    as [_ Hres]; auto.
  - intros raw c s c' s' r Hin HI E.
    destruct (parse_line_frame _ _ _ _ _ _ _ _ _ E) as (_ & _ & _ & _ & Ht & _).
    specialize (Ht (Hno _ Hin)). split; [congruence|].
    intros line s'' _ Hrec.
    apply parse_sub_keeps_trigger_file in Hrec; [congruence|reflexivity].
  - unfold add_dep_index, get_file_modification_time.
    now destruct (w_mtime w dep_file).
Qed.

Lemma parse_sub_inherits (fuel : nat) (ctx : expand_ctx_t)
    (sel sel' : active_script_info_t) :
  main_file ctx = false ->
  parse_deps' fuel w ctx sel = Some sel' ->
  forall k v, has_dep sel' k = Some v ->
    has_dep sel k = Some v \/
    (reload_cmd v = ctx_reload_cmd ctx /\ pkg_base v = ctx_pkg_base ctx).
Proof.
  intros Hm H.
  apply (parse_deps_sub_invariant make_abs_path qdirname get_basename w
           (fun rl pk s => forall k v, has_dep s k = Some v ->
              has_dep sel k = Some v \/ (reload_cmd v = rl /\ pkg_base v = pk))
           ) with (fuel := fuel) (ctx := ctx) (sel := sel); auto.
  - intros rl pk s dep_file Hs k v. unfold has_dep.
    rewrite (proj2 (add_dep_index_effect w s dep_file)). apply Hs.
  - intros c s raw Hc Hs k v Hf.
    destruct (parse_line_frame _ _ _ _ _ _ _ _ _ (parse_line_frame' c s raw))
      as (_ & _ & _ & Hsub & _ & Hd).
    destruct (Hsub Hc) as (_ & Hr & Hp).
    destruct (Hd k v Hf) as [Hold|(_ & _ & Hrl & Hpk)]; [now apply Hs|].
    right. fold parse_line' in Hr, Hp. split; congruence.
Qed.

(** X8: an index file read below the top level cannot override [/reload]
    or [/pkgbase]: every dependency recorded while it is parsed (also
    through further nesting) carries the reload command and the package
    base in force where the parse was entered. *)
Theorem X8_nested_manifest_inherits_directives
    (fuel : nat) (ctx : expand_ctx_t) (sel sel' : active_script_info_t)
    (k : string) (v : script_info_t) :
  main_file ctx = false ->
  parse_deps' fuel w ctx sel = Some sel' ->
  has_dep sel' k = Some v ->
  has_dep sel k = Some v \/
  (reload_cmd v = ctx_reload_cmd ctx /\ pkg_base v = ctx_pkg_base ctx).
Proof. intros Hm H. now apply (parse_sub_inherits fuel ctx sel sel'). Qed.

End Parser_extras.


Lemma X4_dependencies_recorded_fresh_witness :
  file_path (si_file (mk_script_info (mk_fileinfo "/t/pkg/mod.py" 7) "" "/t/pkg"))
  = "/t/pkg/mod.py" /\
  w_mtime world_pkgbase "/t/pkg/mod.py"
  = Some (modified_time
            (si_file (mk_script_info (mk_fileinfo "/t/pkg/mod.py" 7) "" "/t/pkg"))).
Proof.
  apply (X4_dependencies_recorded_fresh Unix.make_abs_path Unix.qdirname
           Unix.get_basename world_pkgbase 5 Unix.fresh
           (select_a_py world_pkgbase Unix.fresh)
           (Unix.script "/t/a.py" 5)); reflexivity.
Defined.

Lemma X5_nested_manifest_keeps_trigger_file_witness :
  trigger_file
    (match parse_deps_for_script Unix.make_abs_path Unix.qdirname
             Unix.get_basename 5 world_nested_keep sub_ctx_lib sel_trigger_go with
     | Some s => s | None => Unix.fresh end)
  = trigger_file sel_trigger_go.
Proof.
  apply (X5_nested_manifest_keeps_trigger_file Unix.make_abs_path Unix.qdirname
           Unix.get_basename world_nested_keep 5 sub_ctx_lib); reflexivity.
Defined.

Lemma X6_keep_flag_is_never_lowered_witness :
  b_keep_trigger_file
    (select_a_py world_pkgbase (set_keep_trigger sel_trigger_go true))
  = true.
Proof.
  apply (X6_keep_flag_is_never_lowered Unix.make_abs_path Unix.qdirname
           Unix.get_basename world_pkgbase 5
           (set_keep_trigger sel_trigger_go true) _ (Unix.script "/t/a.py" 5));
    reflexivity.
Defined.

Lemma X7_trigger_file_survives_selection_witness :
  trigger_file
    (select_a_py world_pkgbase sel_trigger_go)
  = trigger_file sel_trigger_go.
Proof.
  apply (X7_trigger_file_survives_selection Unix.make_abs_path Unix.qdirname
           Unix.get_basename world_pkgbase 5 sel_trigger_go _
           (Unix.script "/t/a.py" 5)).
  - intros dep_file lines H. vm_compute in H. inversion H; subst.
    repeat constructor.
  - reflexivity.
Defined.

Lemma X8_nested_manifest_inherits_directives_witness :
  has_dep sel_trigger_go "/t/pkg/mod.py"
  = Some (mk_script_info (mk_fileinfo "/t/pkg/mod.py" 7) "import lib" "/p") \/
  (reload_cmd (mk_script_info (mk_fileinfo "/t/pkg/mod.py" 7) "import lib" "/p")
   = ctx_reload_cmd (mk_ctx "/t/a.py" false "/t" "/p" "import lib") /\
   pkg_base (mk_script_info (mk_fileinfo "/t/pkg/mod.py" 7) "import lib" "/p")
   = ctx_pkg_base (mk_ctx "/t/a.py" false "/t" "/p" "import lib")).
Proof.
  apply (X8_nested_manifest_inherits_directives Unix.make_abs_path Unix.qdirname
           Unix.get_basename world_pkgbase 5
           (mk_ctx "/t/a.py" false "/t" "/p" "import lib") sel_trigger_go
           (match parse_deps_for_script Unix.make_abs_path Unix.qdirname
                    Unix.get_basename 5 world_pkgbase
                    (mk_ctx "/t/a.py" false "/t" "/p" "import lib")
                    sel_trigger_go with
            | Some s => s | None => Unix.fresh end)
           "/t/pkg/mod.py"); reflexivity.
Defined.


(** ** Tokens *)

Lemma match_token_is_token (tok post : string) :
  is_token tok = true ->
  match_token (tok ++ String "$" post) = Some (tok, post).
Proof.
  unfold is_token. intros H.
  apply andb_true_iff in H as [H Hr]. apply andb_true_iff in H as [H Hn].
  apply andb_true_iff in H as [He Hd].
  apply negb_true_iff in Hr, Hn, Hd.
  destruct tok as [|c tok]; [discriminate|]. simpl in *.
  apply orb_false_iff in Hd as [Hd1 Hd2].
  apply orb_false_iff in Hn as [Hn1 Hn2].
  apply orb_false_iff in Hr as [Hr1 Hr2].
  unfold is_line_terminator. rewrite Hn1, Hr1. simpl.
  now rewrite scan_to_dollar_name.
Qed.

Lemma expand_string_token
    (get_basename : string -> string) (w : world)
    (sel : active_script_info_t) (ctx : expand_ctx_t)
    (pre tok post : string) :
  str_contains "$" pre = false ->
  is_token tok = true ->
  expand_string get_basename w sel (pre ++ "$" ++ tok ++ "$" ++ post) ctx
  = pre ++ expand_token get_basename w sel ctx tok
    ++ expand_string get_basename w sel post ctx.
Proof.
  intros Hpre Htok. unfold expand_string.
  rewrite regex_replace_prefix by exact Hpre. f_equal.
  change ("$" ++ tok ++ "$" ++ post) with (String "$" (tok ++ String "$" post)).
  now rewrite (regex_replace_token _ _ tok post)
    by (now apply match_token_is_token).
Qed.

(** X9: the expansion is a single pass from left to right.  A token met by
    the scanner is replaced by the value of the callback, which is copied
    as it is (dollars in it are not looked at again), and the scan goes on
    behind the closing dollar. *)
Theorem X9_expansion_is_single_pass
    (get_basename : string -> string) (w : world)
    (sel : active_script_info_t) (ctx : expand_ctx_t)
    (pre tok post : string) :
  str_contains "$" pre = false ->
  is_token tok = true ->
  expand_string get_basename w sel (pre ++ "$" ++ tok ++ "$" ++ post) ctx
  = pre ++ expand_token get_basename w sel ctx tok
    ++ expand_string get_basename w sel post ctx.
Proof. apply expand_string_token. Qed.

Lemma X9_expansion_is_single_pass_witness :
  Unix.expand_string
    (mk_world (fun _ => None) (fun _ => None)
       (fun n => if String.eqb n "X" then Some "$pkgbase$" else None)
       (fun _ => None) [])
    Unix.fresh ("a/" ++ "$" ++ "env:X" ++ "$" ++ "/b") (top_ctx "/t/a.py" "/t")
  = "a/" ++ "$pkgbase$" ++ "/b".
Proof.
  apply (X9_expansion_is_single_pass Unix.get_basename
           (mk_world (fun _ => None) (fun _ => None)
              (fun n => if String.eqb n "X" then Some "$pkgbase$" else None)
              (fun _ => None) [])
           Unix.fresh (top_ctx "/t/a.py" "/t") "a/" "env:X" "/b"); reflexivity.
Defined.

(** X10: a token that starts with none of [pkgmodname], [pkgbase],
    [basename] and [env:] is replaced by its own text, the two dollars
    being dropped. *)
Theorem X10_unknown_token_loses_its_dollars
    (get_basename : string -> string) (w : world)
    (sel : active_script_info_t) (ctx : expand_ctx_t)
    (pre tok post : string) :
  str_contains "$" pre = false ->
  is_token tok = true ->
  String.prefix "pkgmodname" tok = false ->
  String.prefix "pkgbase" tok = false ->
  String.prefix "basename" tok = false ->
  String.prefix "env:" tok = false ->
  expand_string get_basename w sel (pre ++ "$" ++ tok ++ "$" ++ post) ctx
  = pre ++ tok ++ expand_string get_basename w sel post ctx.
Proof.
  intros Hpre Htok H1 H2 H3 H4.
  rewrite expand_string_token by assumption. do 2 f_equal.
  unfold expand_token.
  rewrite (strncmp_eq_is_prefix "pkgmodname"), H1.
  rewrite (strncmp_eq_is_prefix "pkgbase"), H2.
  rewrite (strncmp_eq_is_prefix "basename"), H3.
  now rewrite (strncmp_eq_is_prefix "env:"), H4.
Qed.

Lemma X10_unknown_token_loses_its_dollars_witness :
  Unix.expand_string empty_world Unix.fresh
    ("echo " ++ "$" ++ "HOME" ++ "$" ++ "/x") (top_ctx "/t/a.py" "/t")
  = "echo " ++ "HOME"
    ++ Unix.expand_string empty_world Unix.fresh "/x" (top_ctx "/t/a.py" "/t").
Proof.
  apply (X10_unknown_token_loses_its_dollars Unix.get_basename); reflexivity.
Defined.

(** X11: token names are compared on their first characters only: any
    token that starts with [pkgbase] (and is not [pkgmodname...]) stands
    for the package base of the context, whatever follows the name. *)
Theorem X11_token_names_match_by_prefix
    (get_basename : string -> string) (w : world)
    (sel : active_script_info_t) (ctx : expand_ctx_t)
    (pre suffix post : string) :
  str_contains "$" pre = false ->
  is_token ("pkgbase" ++ suffix) = true ->
  expand_string get_basename w sel
    (pre ++ "$" ++ ("pkgbase" ++ suffix) ++ "$" ++ post) ctx
  = pre ++ ctx_pkg_base ctx ++ expand_string get_basename w sel post ctx.
Proof.
  intros Hpre Htok. now rewrite expand_string_token by assumption.
Qed.

Lemma X11_token_names_match_by_prefix_witness :
  Unix.expand_string empty_world Unix.fresh
    ("" ++ "$" ++ ("pkgbase" ++ "ment") ++ "$" ++ "/x.py")
    (mk_ctx "/t/a.py" true "/t" "/t/pkg" "")
  = "" ++ ctx_pkg_base (mk_ctx "/t/a.py" true "/t" "/t/pkg" "")
    ++ Unix.expand_string empty_world Unix.fresh "/x.py"
         (mk_ctx "/t/a.py" true "/t" "/t/pkg" "").
Proof.
  apply (X11_token_names_match_by_prefix Unix.get_basename); reflexivity.
Defined.

(** X12: [$pkgmodname$].  The package base is the one recorded for the
    script when it is a dependency, else the one of the active script.  For
    a script path made of that base, one more character and a relative
    path, the token gives the relative path with the separators turned
    into dots and the part behind the last dot cut off; the character
    behind the base is skipped whatever it is.  For a path that does not
    start with the base the token gives the empty string. *)
Theorem X12_pkgmodname
    (get_basename : string -> string) (w : world)
    (sel : active_script_info_t) (ctx : expand_ctx_t) (base : string) :
  base = match has_dep sel (script_file ctx) with
         | Some dep_file => pkg_base dep_file
         | None => pkg_base (as_script sel)
         end ->
  (forall c rel,
     script_file ctx = base ++ String c rel ->
     expand_token get_basename w sel ctx "pkgmodname"
     = cut_extension (str_replace_char SDIRCHAR "." rel)) /\
  (String.prefix base (script_file ctx) = false ->
   expand_token get_basename w sel ctx "pkgmodname" = "").
Proof.
  intros Hb. unfold expand_token. simpl strncmp_eq at 1. cbv iota.
  assert (E : match has_dep sel (script_file ctx) with
              | Some dep_file => pkg_base dep_file
              | None => pkg_base (as_script sel)
              end = base) by now symmetry.
  split.
  - intros c rel Hs.
    replace (match has_dep sel (script_file ctx) with
             | Some dep_file => pkg_base dep_file
             | None => pkg_base (as_script sel)
             end) with base.
    rewrite Hs, strncmp_eq_prefix.
    replace (String.length base + 1) with (String.length (base ++ String c ""))
      by (rewrite str_length_append; reflexivity).
    replace (base ++ String c rel) with ((base ++ String c "") ++ rel)
      by (rewrite str_append_assoc; reflexivity).
    now rewrite str_drop_append.
  - intros Hp.
    replace (match has_dep sel (script_file ctx) with
             | Some dep_file => pkg_base dep_file
             | None => pkg_base (as_script sel)
             end) with base.
    now rewrite strncmp_eq_is_prefix, Hp.
Qed.

Lemma X12_pkgmodname_witness :
  (forall c rel,
     script_file (mk_ctx "/t/pkg/sub/mod.py" false "/t" "" "")
     = "/t/pkg" ++ String c rel ->
     expand_token Unix.get_basename empty_world
       (select_a_py world_pkg_sub Unix.fresh)
       (mk_ctx "/t/pkg/sub/mod.py" false "/t" "" "") "pkgmodname"
     = cut_extension (str_replace_char SDIRCHAR "." rel)) /\
  (String.prefix "/t/pkg" (script_file (mk_ctx "/t/pkg/sub/mod.py" false "/t" "" ""))
   = false ->
   expand_token Unix.get_basename empty_world
     (select_a_py world_pkg_sub Unix.fresh)
     (mk_ctx "/t/pkg/sub/mod.py" false "/t" "" "") "pkgmodname" = "").
Proof.
  apply (X12_pkgmodname Unix.get_basename empty_world
           (select_a_py world_pkg_sub Unix.fresh)
           (mk_ctx "/t/pkg/sub/mod.py" false "/t" "" "") "/t/pkg").
  reflexivity.
Defined.


(** ** The Executor *)

Section Executor_extras.

Variable get_file_ext : string -> option string.

Lemma execute_script_sync_logged (st : qscripts_chooser_t) (w : world)
    (si : script_info_t) :
  exists evs,
    logged w (snd (execute_script_sync get_file_ext st w si)) evs /\
    Forall (fun e => is_eval_snippet e = false) evs.
Proof.
  destruct (execute_script_logged get_file_ext st w si false) as (evs & Hl & Hf).
  exists evs. split; [|exact Hf]. unfold execute_script in Hl.
  now destruct (execute_script_sync get_file_ext st w si) as [[ok si'] w'].
Qed.

Lemma execute_script_sync_file (st : qscripts_chooser_t) (w : world)
    (si : script_info_t) :
  si_file (snd (fst (execute_script_sync get_file_ext st w si)))
  = match w_mtime w (file_path (si_file si)) with
    | Some t => mk_fileinfo (file_path (si_file si)) t
    | None => si_file si
    end.
Proof.
  unfold execute_script_sync.
  destruct (w_mtime w (file_path (si_file si))); [|reflexivity].
  destruct (match get_file_ext (file_path (si_file si)) with
            | Some script_ext => w_extlang w script_ext
            | None => None
            end); [|reflexivity].
  now destruct (run_script st _ (file_path (si_file si)) w).
Qed.

(** X13: [execute_script_sync] takes the time stamp of the file before
    anything else.  Whenever the file exists, the script carries the
    current time stamp afterwards, whether the run succeeded, the compile
    failed or no engine was found, and a probe right after the run reports
    [not_modified]. *)
Theorem X13_execution_stores_the_time_stamp
    (st : qscripts_chooser_t) (w : world) (si : script_info_t) (t : Z) :
  w_mtime w (file_path (si_file si)) = Some t ->
  si_file (snd (fst (execute_script_sync get_file_ext st w si)))
  = mk_fileinfo (file_path (si_file si)) t /\
  get_modification_status (snd (execute_script_sync get_file_ext st w si))
    (si_file (snd (fst (execute_script_sync get_file_ext st w si)))) true
  = (not_modified, mk_fileinfo (file_path (si_file si)) t).
Proof.
  intros Ht. rewrite execute_script_sync_file, Ht. split; [reflexivity|].
  destruct (execute_script_sync_logged st w si) as (evs & Hl & _).
  apply gms_fresh. unfold fresh. simpl.
  now rewrite (proj1 Hl).
Qed.

(** X14: the options only change what is logged.  Whether the run is
    reported as successful and which time stamp the script gets do not
    depend on [opt_clear_log], [opt_show_filename] or on the unload
    function, whose own failure is ignored. *)
Theorem X14_options_do_not_change_the_outcome
    (st st' : qscripts_chooser_t) (w : world) (si : script_info_t) :
  fst (execute_script_sync get_file_ext st w si)
  = fst (execute_script_sync get_file_ext st' w si).
Proof.
  unfold execute_script_sync.
  destruct (w_mtime w (file_path (si_file si))); [|reflexivity].
  destruct (match get_file_ext (file_path (si_file si)) with
            | Some script_ext => w_extlang w script_ext
            | None => None
            end) as [elang|]; [|reflexivity].
  assert (E : fst (run_script st elang (file_path (si_file si)) w)
              = fst (run_script st' elang (file_path (si_file si)) w)).
  { unfold run_script.
    destruct (el_compile_file elang (file_path (si_file si))); simpl;
      [|reflexivity].
    destruct (el_is_idc elang); [|reflexivity].
    now destruct (el_call_func elang "main"). }
  destruct (run_script st elang (file_path (si_file si)) w) as [ok1 w1].
  destruct (run_script st' elang (file_path (si_file si)) w) as [ok2 w2].
  simpl in *. now subst.
Qed.

End Executor_extras.

Lemma X13_execution_stores_the_time_stamp_witness :
  si_file (snd (fst (execute_script_sync Unix.get_file_ext (Unix.chooser true Unix.fresh)
                       world_lib_saved (Unix.script "/t/lib.py" 1))))
  = mk_fileinfo (file_path (si_file (Unix.script "/t/lib.py" 1))) 7 /\
  get_modification_status
    (snd (execute_script_sync Unix.get_file_ext (Unix.chooser true Unix.fresh)
            world_lib_saved (Unix.script "/t/lib.py" 1)))
    (si_file (snd (fst (execute_script_sync Unix.get_file_ext
                          (Unix.chooser true Unix.fresh)
                          world_lib_saved (Unix.script "/t/lib.py" 1))))) true
  = (not_modified, mk_fileinfo (file_path (si_file (Unix.script "/t/lib.py" 1))) 7).
Proof.
  apply (X13_execution_stores_the_time_stamp Unix.get_file_ext). reflexivity.
Defined.


(** ** Ticks that follow one another *)

Lemma settled_same_files (w w' : world) (fi : fileinfo_t) :
  w_mtime w' = w_mtime w -> settled w fi -> settled w' fi.
Proof. unfold settled. now intros ->. Qed.

Lemma fresh_same_files (w w' : world) (fi : fileinfo_t) :
  w_mtime w' = w_mtime w -> fresh w fi -> fresh w' fi.
Proof. unfold fresh. now intros ->. Qed.

Lemma Forall_dep_settled_same_files (w w' : world) (m : dep_map) :
  w_mtime w' = w_mtime w ->
  Forall (dep_settled w) m -> Forall (dep_settled w') m.
Proof.
  intros H. apply Forall_impl. intros kv. now apply settled_same_files.
Qed.

(** The loop over the index files gives the same answer when it is run
    again on its own result, unless it reported [modified]. *)
Lemma dep_indices_status_again (w : world) : forall l r l',
  dep_indices_status w true l = (r, l') ->
  r <> modified ->
  dep_indices_status w true l' = (r, l').
Proof.
  induction l as [|fi l IH]; intros r l' H Hr; simpl in H.
  - now inversion H; subst.
  - destruct (get_modification_status w fi true) as [r0 fi'] eqn:E.
    pose proof (gms_settles w fi) as Hs. rewrite E in Hs. simpl in Hs.
    destruct r0.
    + inversion H; subst. simpl. rewrite (gms_settled _ _ _ Hs).
      unfold get_modification_status in E.
      destruct (w_mtime w (file_path fi)) as [t|] eqn:Ew; [|].
      * destruct (Z.eqb t (modified_time fi)); discriminate E.
      * inversion E; subst. simpl. now rewrite Ew.
    + destruct (dep_indices_status w true l) as [r' rest'] eqn:E'.
      inversion H; subst. apply gms_not_modified in E as [-> Hf].
      simpl. rewrite (gms_fresh w fi true Hf).
      now rewrite (IH _ _ eq_refl Hr).
    + inversion H; subst. congruence.
Qed.

(** Index files recorded with their time stamps are never reported as
    [modified] after a file was removed. *)
Lemma dep_indices_status_after_unlink (w : world) (p : string) : forall l,
  Forall (fresh w) l ->
  fst (dep_indices_status (qunlink p w) true l) <> modified.
Proof.
  induction l as [|fi l IH]; intros H; simpl; [discriminate|].
  apply Forall_cons_iff in H as [Hfi Hl].
  unfold get_modification_status at 1. simpl.
  destruct (String.eqb (file_path fi) p); simpl; [discriminate|].
  unfold fresh in Hfi. rewrite Hfi, Z.eqb_refl.
  specialize (IH Hl).
  destruct (dep_indices_status (qunlink p w) true l). exact IH.
Qed.

Section Loop_extras.

Variable get_basename : string -> string.
Variable get_file_ext : string -> option string.

Let check_dep_scripts' := check_dep_scripts get_basename get_file_ext.

(** When the loop over the dependencies runs to its end every entry has
    been probed; when it is left early the warning has been logged.  The
    loop never asks for a refresh of the chooser. *)
Lemma check_dep_scripts_settles (sel : active_script_info_t) :
  forall deps w deps' changed brk w',
  check_dep_scripts' w sel deps = (deps', changed, brk, w') ->
  exists evs, logged w w' evs /\
    Forall (fun e => is_refresh e = false) evs /\
    (brk = true -> In reload_warning evs) /\
    (brk = false -> Forall (dep_settled w) deps').
Proof.
  induction deps as [|[k dep] rest IH]; intros w deps' changed brk w' H.
  - simpl in H. inversion H; subst. exists [].
    split; [apply logged_refl|]. repeat split; auto; discriminate.
  - simpl in H. fold check_dep_scripts' in H.
    pose proof (gms_settles w (si_file dep)) as Hs.
    destruct (get_modification_status w (si_file dep) true) as [status fi] eqn:Es.
    simpl in Hs.
    assert (Hgo : forall w1 ev1 rest' c b w2,
              logged w w1 ev1 ->
              Forall (fun e => is_refresh e = false) ev1 ->
              check_dep_scripts' w1 sel rest = (rest', c, b, w2) ->
              exists evs, logged w w2 evs /\
                Forall (fun e => is_refresh e = false) evs /\
                (b = true -> In reload_warning evs) /\
                (b = false ->
                 Forall (dep_settled w) ((k, si_set_file dep fi) :: rest'))).
    { intros w1 ev1 rest' c b w2 Hl1 Hn1 E.
      destruct (IH _ _ _ _ _ E) as (evs & Hl2 & Hn2 & Hb1 & Hb0).
      exists (ev1 ++ evs)%list. split; [eapply logged_trans; eassumption|].
      split; [now apply Forall_app|]. split.
      - intros Hb. apply in_or_app. right. now apply Hb1.
      - intros Hb. constructor; [exact Hs|].
        apply (Forall_dep_settled_same_files w1 w); [|now apply Hb0].
        symmetry. apply Hl1. }
    destruct status.
    + destruct (check_dep_scripts' w sel rest) as [[[rest' c] b] w2] eqn:E.
      inversion H; subst.
      eapply (Hgo w []); [apply logged_refl|constructor|exact E].
    + destruct (check_dep_scripts' w sel rest) as [[[rest' c] b] w2] eqn:E.
      inversion H; subst.
      eapply (Hgo w []); [apply logged_refl|constructor|exact E].
    + destruct (has_reload_directive (si_set_file dep fi)).
      * destruct (execute_reload_directive get_basename get_file_ext w sel
                    (si_set_file dep fi)) as [ok w1] eqn:Er.
        apply execute_reload_directive_logged in Er.
        destruct ok.
        -- destruct Er as [[Hf _]|(cmd & ->)]; [discriminate|].
           destruct (check_dep_scripts' (emit _ w) sel rest)
             as [[[rest' c] b] w2] eqn:E.
           inversion H; subst.
           eapply (Hgo _ [ev_eval_snippet _ cmd true]);
             [apply logged_emit|repeat constructor|exact E].
        -- inversion H; subst.
           destruct Er as [[_ ->]|(cmd & ->)].
           ++ exists [reload_warning]. split; [apply logged_emit|].
              split; [repeat constructor|]. split; [|discriminate].
              intros _. now left.
           ++ exists [ev_eval_snippet (file_path (si_file (si_set_file dep fi)))
                        cmd false; reload_warning].
              split; [solve_logged|].
              split; [repeat constructor|]. split; [|discriminate].
              intros _. right. now left.
      * destruct (check_dep_scripts' w sel rest) as [[[rest' c] b] w2] eqn:E.
        inversion H; subst.
        eapply (Hgo w []); [apply logged_refl|constructor|exact E].
Qed.

(** On a table whose entries are all settled the loop does nothing. *)
Lemma check_dep_scripts_quiet (sel : active_script_info_t) (w : world) :
  forall deps,
  Forall (dep_settled w) deps ->
  check_dep_scripts' w sel deps = (deps, false, false, w).
Proof.
  induction deps as [|[k dep] rest IH]; intros H; simpl; [reflexivity|].
  apply Forall_cons_iff in H as [Hd Hr]. unfold dep_settled in Hd. simpl in Hd.
  rewrite (gms_settled _ _ _ Hd). fold check_dep_scripts'.
  rewrite (IH Hr).
  destruct (w_mtime w (file_path (si_file dep))); now destruct dep.
Qed.

End Loop_extras.


Section Tick_extras.

Variable make_abs_path : string -> string -> string.
Variable qdirname : string -> string.
Variable get_basename : string -> string.
Variable get_file_ext : string -> option string.

Let check_scripts' := check_scripts get_basename get_file_ext.
Let filemon_timer_cb' :=
  filemon_timer_cb make_abs_path qdirname get_basename get_file_ext.

Lemma run_script_events (st : qscripts_chooser_t) (elang : extlang_t)
    (script_file : string) (w : world) :
  exists evs, logged w (snd (run_script st elang script_file w)) evs /\
    Forall (fun e => is_refresh e = false) evs /\
    In (ev_compile_file script_file (el_compile_file elang script_file)) evs.
Proof.
  unfold run_script, emit_if.
  destruct (opt_clear_log st), (opt_exec_unload_func st),
    (opt_show_filename st), (el_compile_file elang script_file),
    (el_is_idc elang), (el_call_func elang "main");
    simpl; eexists; (split; [solve_logged|]);
    (split; [repeat constructor|simpl; tauto]).
Qed.

Lemma execute_script_sync_events (st : qscripts_chooser_t) (w : world)
    (si : script_info_t) :
  exists evs,
    logged w (snd (execute_script_sync get_file_ext st w si)) evs /\
    Forall (fun e => is_refresh e = false) evs /\
    forall ext elang,
      w_mtime w (file_path (si_file si)) <> None ->
      get_file_ext (file_path (si_file si)) = Some ext ->
      w_extlang w ext = Some elang ->
      In (ev_compile_file (file_path (si_file si))
            (el_compile_file elang (file_path (si_file si)))) evs.
Proof.
  unfold execute_script_sync.
  destruct (w_mtime w (file_path (si_file si))) as [t|].
  2:{ eexists. split; [solve_logged|]. split; [repeat constructor|].
      intros ext elang H. congruence. }
  destruct (get_file_ext (file_path (si_file si))) as [ext0|].
  2:{ eexists. split; [solve_logged|]. split; [repeat constructor|].
      intros ext elang _ H. discriminate H. }
  destruct (w_extlang w ext0) as [elang0|] eqn:El.
  2:{ eexists. split; [solve_logged|]. split; [repeat constructor|].
      intros ext elang _ H He. inversion H; subst. congruence. }
  destruct (run_script_events st elang0 (file_path (si_file si)) w)
    as (evs & Hl & Hn & Hin).
  destruct (run_script st elang0 (file_path (si_file si)) w) as [ok w'].
  exists evs. split; [exact Hl|]. split; [exact Hn|].
  intros ext elang _ H He. inversion H; subst.
  rewrite El in He. now inversion He; subst.
Qed.

(** The part of a tick behind the index files, when no reload failed and
    scripts are run without undo: either the main script is gone and the
    selection is cleared, or every dependency and the main script have
    been probed and carry the time stamps of their files. *)
Lemma check_scripts_settles (st : qscripts_chooser_t) (w : world)
    (sel : active_script_info_t) (mod_stat : filemod_status_e)
    (st' : qscripts_chooser_t) (w' : world) :
  check_scripts' st w sel mod_stat = (st', w') ->
  exists evs, logged w w' evs /\
    Forall (fun e => is_refresh e = false) evs /\
    opt_change_interval st' = opt_change_interval st /\
    (mod_stat = not_found -> dep_scripts (selected_script st') = []) /\
    (opt_with_undo st = false -> ~ In reload_warning evs ->
     has_selected_script st' = false \/
     exists sel',
       st' = set_selected st sel' /\
       as_path sel' = as_path sel /\
       dep_indices sel' = dep_indices sel /\
       trigger_file sel' = trigger_file sel /\
       b_keep_trigger_file sel' = b_keep_trigger_file sel /\
       Forall (dep_settled w) (dep_scripts sel') /\
       fresh w (as_file sel')).
Proof.
  unfold check_scripts', check_scripts.
  set (sel0 := match mod_stat, dep_scripts sel with
               | not_found, _ :: _ => set_dep_scripts sel []
               | _, _ => sel
               end).
  assert (Hsel0 : as_script sel0 = as_script sel /\
                  dep_indices sel0 = dep_indices sel /\
                  trigger_file sel0 = trigger_file sel /\
                  b_keep_trigger_file sel0 = b_keep_trigger_file sel /\
                  (mod_stat = not_found -> dep_scripts sel0 = [])).
  { unfold sel0. destruct mod_stat; repeat split; try discriminate;
      destruct (dep_scripts sel) eqn:Ed; auto. }
  destruct Hsel0 as (Hscr & Hidx & Htf & Hkp & Hnf).
  destruct (check_dep_scripts get_basename get_file_ext w sel0 (dep_scripts sel0))
    as [[[deps' changed] brk] w1] eqn:E.
  assert (Hdeps' : mod_stat = not_found -> deps' = []).
  { intros Hm. rewrite (Hnf Hm) in E. simpl in E. now inversion E. }
  apply check_dep_scripts_settles in E as (evs & Hl & Hn & Hb1 & Hb0).
  destruct brk.
  { intros H; inversion H; subst. exists evs.
    split; [exact Hl|]. split; [exact Hn|]. split; [reflexivity|].
    split; [exact Hdeps'|].
    intros _ Hw. exfalso. now apply Hw, Hb1. }
  specialize (Hb0 eq_refl).
  assert (Hm1 : w_mtime w1 = w_mtime w) by apply Hl.
  set (selL := set_dep_scripts sel0 deps').
  pose proof (gms_path w1 (as_file selL) true) as Hgp.
  destruct (get_modification_status w1 (as_file selL) true) as [ms fi] eqn:Em.
  simpl in Hgp.
  assert (Hexec : opt_with_undo st = false ->
            ms <> not_found ->
            forall script w2,
              execute_script get_file_ext st w1 (as_script (set_as_file selL fi))
                (opt_with_undo st) = (script, w2) ->
              exists evs2, logged w1 w2 evs2 /\
                Forall (fun e => is_refresh e = false) evs2 /\
                file_path (si_file script) = as_path sel /\
                fresh w (si_file script)).
  { intros Hu Hms script w2 Hx. rewrite Hu in Hx. unfold execute_script in Hx.
    destruct (execute_script_sync_events st w1 (as_script (set_as_file selL fi)))
      as (evs2 & Hl2 & Hn2 & _).
    pose proof (execute_script_sync_file get_file_ext st w1
                  (as_script (set_as_file selL fi))) as Hfile.
    destruct (execute_script_sync get_file_ext st w1
                (as_script (set_as_file selL fi))) as [[ok si'] w2'].
    inversion Hx; subst. simpl in *.
    exists evs2. split; [exact Hl2|]. split; [exact Hn2|].
    assert (Hfound : exists t, w_mtime w1 (file_path fi) = Some t).
    { unfold get_modification_status in Em. rewrite Hgp.
      destruct (w_mtime w1 (file_path (as_file selL))) as [t|]; [now exists t|].
      inversion Em; subst. congruence. }
    destruct Hfound as (t & Ht). rewrite Ht in Hfile. rewrite Hfile.
    unfold fresh. simpl. rewrite <- Hm1, Ht. split; [|reflexivity].
    rewrite Hgp. unfold selL, as_path, as_file. simpl. now rewrite Hscr. }
  assert (Hundo : forall script w2,
            execute_script get_file_ext st w1 (as_script (set_as_file selL fi))
              (opt_with_undo st) = (script, w2) ->
            exists evs2, logged w1 w2 evs2 /\
              Forall (fun e => is_refresh e = false) evs2).
  { intros script w2 Hx. unfold execute_script in Hx.
    destruct (opt_with_undo st).
    - inversion Hx; subst. eexists. split; [apply logged_emit|].
      repeat constructor.
    - destruct (execute_script_sync_events st w1 (as_script (set_as_file selL fi)))
        as (evs2 & Hl2 & Hn2 & _).
      destruct (execute_script_sync get_file_ext st w1
                  (as_script (set_as_file selL fi))) as [[ok si'] w2'].
      inversion Hx; subst. now exists evs2. }
  assert (Hrun : ms <> not_found ->
            forall script w2,
              execute_script get_file_ext st w1 (as_script (set_as_file selL fi))
                (opt_with_undo st) = (script, w2) ->
              (set_selected st (set_as_script (set_as_file selL fi) script), w2)
              = (st', w') ->
              exists evs0, logged w w' evs0 /\
                Forall (fun e => is_refresh e = false) evs0 /\
                opt_change_interval st' = opt_change_interval st /\
                (mod_stat = not_found -> dep_scripts (selected_script st') = []) /\
                (opt_with_undo st = false -> ~ In reload_warning evs0 ->
                 has_selected_script st' = false \/
                 exists sel',
                   st' = set_selected st sel' /\
                   as_path sel' = as_path sel /\
                   dep_indices sel' = dep_indices sel /\
                   trigger_file sel' = trigger_file sel /\
                   b_keep_trigger_file sel' = b_keep_trigger_file sel /\
                   Forall (dep_settled w) (dep_scripts sel') /\
                   fresh w (as_file sel'))).
  { intros Hms script w2 Hx H. inversion H; subst.
    destruct (Hundo _ _ Hx) as (evs2 & Hl2 & Hn2).
    exists (evs ++ evs2)%list.
    split; [eapply logged_trans; eassumption|].
    split; [now apply Forall_app|]. split; [reflexivity|].
    split; [exact Hdeps'|].
    intros Hu _. right.
    destruct (Hexec Hu Hms _ _ Hx) as (_ & _ & _ & Hp & Hf).
    eexists. split; [reflexivity|]. repeat split; auto. }
  assert (Hstay : (set_selected st (set_as_file selL fi), w1) = (st', w') ->
            ms = not_modified ->
            exists evs0, logged w w' evs0 /\
              Forall (fun e => is_refresh e = false) evs0 /\
              opt_change_interval st' = opt_change_interval st /\
              (mod_stat = not_found -> dep_scripts (selected_script st') = []) /\
              (opt_with_undo st = false -> ~ In reload_warning evs0 ->
               has_selected_script st' = false \/
               exists sel',
                 st' = set_selected st sel' /\
                 as_path sel' = as_path sel /\
                 dep_indices sel' = dep_indices sel /\
                 trigger_file sel' = trigger_file sel /\
                 b_keep_trigger_file sel' = b_keep_trigger_file sel /\
                 Forall (dep_settled w) (dep_scripts sel') /\
                 fresh w (as_file sel'))).
  { intros H Hms. inversion H; subst. exists evs.
    split; [exact Hl|]. split; [exact Hn|]. split; [reflexivity|].
    split; [exact Hdeps'|].
    intros _ _. right. eexists. split; [reflexivity|].
    apply gms_not_modified in Em as [-> Hfr].
    repeat split; auto.
    - unfold selL, as_path, as_file. simpl. now rewrite Hscr.
    - unfold fresh in *. simpl in *. now rewrite <- Hm1. }
  destruct ms.
  - intros H; inversion H; subst.
    exists (evs ++ [ev_msg ("QScripts detected that the active script '"
                            ++ as_path (set_as_file selL fi)
                            ++ "' no longer exists!")])%list.
    split; [eapply logged_trans; [exact Hl|apply logged_emit]|].
    split; [apply Forall_app; split; [exact Hn|repeat constructor]|].
    split; [reflexivity|]. split; [reflexivity|].
    intros _ _. now left.
  - destruct (changed || filemod_status_eqb not_modified modified) eqn:Ec.
    + destruct (execute_script get_file_ext st w1
                  (as_script (set_as_file selL fi)) (opt_with_undo st))
        as [script w2] eqn:Ex.
      intros H. eapply Hrun; eauto. discriminate.
    + intros H. now apply Hstay.
  - destruct (changed || filemod_status_eqb modified modified) eqn:Ec.
    + destruct (execute_script get_file_ext st w1
                  (as_script (set_as_file selL fi)) (opt_with_undo st))
        as [script w2] eqn:Ex.
      intros H. eapply Hrun; eauto. discriminate.
    + rewrite orb_true_r in Ec. discriminate Ec.
Qed.

(** On a selection that is settled the part of a tick behind the index
    files does nothing at all. *)
Lemma check_scripts_quiet (st : qscripts_chooser_t) (w : world)
    (sel : active_script_info_t) (mod_stat : filemod_status_e) :
  Forall (dep_settled w) (dep_scripts sel) ->
  fresh w (as_file sel) ->
  (mod_stat = not_found -> dep_scripts sel = []) ->
  check_scripts' st w sel mod_stat = (set_selected st sel, w).
Proof.
  intros Hd Hf Hnf. unfold check_scripts', check_scripts.
  assert (E0 : match mod_stat, dep_scripts sel with
               | not_found, _ :: _ => set_dep_scripts sel []
               | _, _ => sel
               end = sel).
  { destruct mod_stat; auto. now rewrite Hnf. }
  rewrite E0. rewrite (check_dep_scripts_quiet _ _ _ _ _ Hd).
  replace (set_dep_scripts sel (dep_scripts sel)) with sel by now destruct sel.
  rewrite (gms_fresh _ _ _ Hf). simpl.
  f_equal. f_equal. destruct sel as [[fi r p] t k i d]. reflexivity.
Qed.

(** A trigger file that did not let the tick pass does not let the next
    one pass either, on the same files. *)
Lemma check_trigger_idle_again (w w1 : world) (sel sel1 : active_script_info_t) :
  check_trigger w sel = (sel1, None) ->
  w_mtime w1 = w_mtime w ->
  as_path sel1 = as_path sel /\
  exists sel2, check_trigger w1 sel1 = (sel2, None).
Proof.
  unfold check_trigger. intros H Hm.
  destruct (trigger_based sel) eqn:Et; [|discriminate].
  pose proof (gms_settles w (trigger_file sel)) as Hs.
  pose proof (gms_path w (trigger_file sel) true) as Hp.
  destruct (get_modification_status w (trigger_file sel) true) as [r tf] eqn:E.
  simpl in Hs, Hp.
  assert (Hgo : sel1 = set_trigger_file sel tf ->
            as_path sel1 = as_path sel /\
            exists sel2,
              (if trigger_based sel1
               then let (trigger_status, tf0) :=
                      get_modification_status w1 (trigger_file sel1) true in
                    match trigger_status with
                    | modified =>
                        (set_as_file (set_trigger_file sel1 tf0)
                           (invalidate (as_file (set_trigger_file sel1 tf0))),
                         Some (if b_keep_trigger_file (set_trigger_file sel1 tf0)
                               then w1 else qunlink (file_path tf0) w1))
                    | _ => (set_trigger_file sel1 tf0, None)
                    end
               else (sel1, Some w1)) = (sel2, None)).
  { intros ->. split; [reflexivity|].
    unfold trigger_based, fileinfo_empty in *. simpl. rewrite Hp, Et.
    rewrite (gms_settled w1 tf true (settled_same_files _ _ _ Hm Hs)).
    destruct (w_mtime w1 (file_path tf)); eauto. }
  destruct r; inversion H; subst; now apply Hgo.
Qed.

(** A trigger file that let the tick pass stops the next one: it is
    unchanged, or it was removed. *)
Lemma check_trigger_fired_again (w wt w1 : world)
    (sel sel1 sel' : active_script_info_t) :
  check_trigger w sel = (sel1, Some wt) ->
  trigger_based sel = true ->
  w_mtime w1 = w_mtime wt ->
  trigger_file sel' = trigger_file sel1 ->
  exists sel2, check_trigger w1 sel' = (sel2, None).
Proof.
  intros Et Htb Hm Htf.
  destruct (check_trigger_spec _ _ _ _ Et) as (_ & _ & _ & Htp & _ & Hcase).
  destruct Hcase as [(Hno & _)|(_ & t & Ht & Hmt & Hwt)]; [congruence|].
  unfold check_trigger, trigger_based, fileinfo_empty in *.
  rewrite Htf, Htp, Htb.
  unfold get_modification_status. rewrite Htp, Hm, Hwt.
  destruct (b_keep_trigger_file sel).
  - rewrite Ht, Hmt, Z.eqb_refl. eauto.
  - simpl. rewrite String.eqb_refl. eauto.
Qed.

(** X15: a tick that ran to its end leaves nothing to do.  After a tick
    that neither parsed the manifests again nor was left on a failed
    reload, scripts being run without undo, the next tick on the files as
    the first one left them logs nothing, runs nothing and removes
    nothing, whatever the engines answered in the first tick (a script that
    failed to compile is not run again until its file changes). *)
Theorem X15_next_tick_is_quiet
    (fuel : nat) (st st1 : qscripts_chooser_t) (w w1 : world) (d : Z) :
  opt_with_undo st = false ->
  filemon_timer_cb' fuel st w = Some (st1, w1, d) ->
  ~ In reload_warning (new_events w w1) ->
  ~ In ev_refresh_chooser (new_events w w1) ->
  exists st2, forall fuel2,
    filemon_timer_cb' fuel2 st1 w1 = Some (st2, w1, opt_change_interval st).
Proof.
  intros Hu Htick Hnw Hnr.
  unfold filemon_timer_cb', filemon_timer_cb in *.
  destruct (negb (is_monitor_active st) || negb (has_selected_script st)) eqn:Eg.
  { inversion Htick; subst. exists st1. intros fuel2. now rewrite Eg. }
  apply orb_false_iff in Eg as [Ha Hs].
  apply negb_false_iff in Ha, Hs.
  destruct (check_trigger w (selected_script st)) as [sel1 [wt|]] eqn:Et.
  2:{ inversion Htick; subst.
      destruct (check_trigger_idle_again _ w1 _ _ Et eq_refl) as (Hp & sel2 & E2).
      exists (set_selected (set_selected st sel1) sel2). intros fuel2.
      unfold is_monitor_active, has_selected_script in *. simpl.
      rewrite Ha, Hp, Hs. simpl. now rewrite E2. }
  destruct (check_trigger_log _ _ _ _ Et) as (tevs & Hlog & _ & _).
  destruct (check_trigger_spec _ _ _ _ Et)
    as (Hpath1 & Hdeps1 & Hidx1 & Htp1 & Hk1 & Hcase).
  destruct (is_any_dep_index_modified wt sel1 true) as [ms sel2] eqn:Ei.
  destruct (is_any_dep_index_modified_spec _ _ _ _ Ei)
    as (Hscr2 & Hdeps2 & Htf2 & Hk2 & Hidx2).
  assert (Hcs : exists st' w',
            check_scripts get_basename get_file_ext st wt sel2 ms = (st', w') /\
            st1 = st' /\ w1 = w' /\ ms <> modified).
  { destruct ms.
    - destruct (check_scripts get_basename get_file_ext st wt sel2 not_found)
        as [st' w'] eqn:E. inversion Htick; subst.
      exists st1, w1. repeat split; auto; discriminate.
    - destruct (check_scripts get_basename get_file_ext st wt sel2 not_modified)
        as [st' w'] eqn:E. inversion Htick; subst.
      exists st1, w1. repeat split; auto; discriminate.
    - exfalso.
      destruct (set_selected_script _ _ _ _ _ _ _) as [sel3|]; [|discriminate].
      inversion Htick; subst. apply Hnr.
      rewrite (new_events_app w wt _ tevs [ev_refresh_chooser] Hlog
                 (logged_emit _ _)).
      apply in_or_app. right. now left. }
  destruct Hcs as (st' & w' & Ecs & Hst & Hw & Hnm). subst st' w'. clear Htick.
  apply check_scripts_settles in Ecs as (evs & Hl & _ & Hint & Hnf & Hset).
  rewrite (new_events_app _ _ _ _ _ Hlog Hl) in Hnw.
  assert (Hm : w_mtime w1 = w_mtime wt) by apply Hl.
  destruct (Hset Hu) as [Hgone|(sel' & -> & Hp' & Hi' & Ht' & Hk' & Hd' & Hf')].
  { intros Hin. apply Hnw. apply in_or_app. now right. }
  { exists st1. intros fuel2. rewrite Hgone. simpl. rewrite orb_true_r.
    now rewrite Hint. }
  unfold is_monitor_active, has_selected_script in *. simpl.
  assert (Hp2 : as_path sel' = as_path (selected_script st)).
  { rewrite Hp'. unfold as_path, as_file. now rewrite Hscr2. }
  rewrite Ha, Hp2, Hs. simpl.
  destruct Hcase as [(Htb & -> & ->)|(Htb & _)].
  - (* direct mode *)
    assert (Etr : check_trigger w1 sel' = (sel', Some w1)).
    { unfold check_trigger, trigger_based in *. now rewrite Ht', Htf2, Htb. }
    rewrite Etr.
    assert (Ei2 : is_any_dep_index_modified w1 sel' true = (ms, sel')).
    { unfold is_any_dep_index_modified.
      rewrite (dep_indices_status_same_files _ _ _ Hm), Hi'.
      rewrite (dep_indices_status_again _ _ _ _ Hidx2 Hnm).
      f_equal. rewrite <- Hi'. now destruct sel'. }
    rewrite Ei2.
    assert (Eq : check_scripts get_basename get_file_ext
                   (set_selected st sel') w1 sel' ms
                 = (set_selected (set_selected st sel') sel', w1)).
    { apply check_scripts_quiet.
      - now apply (Forall_dep_settled_same_files w).
      - now apply (fresh_same_files w).
      - intros Hms. now apply Hnf. }
    exists (set_selected (set_selected st sel') sel'). intros fuel2.
    destruct ms; try congruence; now rewrite Eq.
  - (* trigger mode *)
    destruct (check_trigger_fired_again _ _ w1 _ _ sel' Et Htb Hm) as (s2 & ->).
    { now rewrite Ht', Htf2. }
    eexists. intros fuel2. reflexivity.
Qed.





(** X18: in trigger mode nothing happens as long as the trigger file is
    as it was last seen (or absent): the tick changes neither the object
    nor the world, whatever has become of the main script, of the
    dependencies and of the index files. *)
Theorem X18_idle_trigger_stops_the_tick
    (st : qscripts_chooser_t) (w : world) (fuel : nat) :
  trigger_based (selected_script st) = true ->
  settled w (trigger_file (selected_script st)) ->
  filemon_timer_cb' fuel st w = Some (st, w, opt_change_interval st).
Proof.
  intros Htb Hset. unfold filemon_timer_cb', filemon_timer_cb.
  destruct (negb (is_monitor_active st) || negb (has_selected_script st));
    [reflexivity|].
  unfold check_trigger. rewrite Htb, (gms_settled _ _ _ Hset).
  assert (E : set_selected st
                (set_trigger_file (selected_script st)
                   (trigger_file (selected_script st))) = st).
  { destruct st as [a i c s u ud sel]. simpl. now destruct sel. }
  destruct (w_mtime w (file_path (trigger_file (selected_script st))));
    now rewrite E.
Qed.


(** X20: when an index file has gone missing (none before it being
    modified), the tick forgets every dependency: afterwards the table is
    empty and only the main script is watched. *)
Theorem X20_missing_index_file_drops_dependencies
    (st : qscripts_chooser_t) (w : world) :
  is_monitor_active st = true ->
  has_selected_script st = true ->
  trigger_based (selected_script st) = false ->
  fst (dep_indices_status w true (dep_indices (selected_script st))) = not_found ->
  exists st' w',
    (forall fuel,
       filemon_timer_cb' fuel st w = Some (st', w', opt_change_interval st)) /\
    dep_scripts (selected_script st') = [].
Proof.
  intros Ha Hs Htb Hnf.
  destruct (is_any_dep_index_modified w (selected_script st) true)
    as [ms sel2] eqn:Ei.
  assert (Hms : ms = not_found).
  { unfold is_any_dep_index_modified in Ei.
    destruct (dep_indices_status w true (dep_indices (selected_script st))).
    inversion Ei; subst. exact Hnf. }
  subst ms.
  destruct (check_scripts' st w sel2 not_found) as [st' w'] eqn:Ecs.
  exists st', w'.
  destruct (check_scripts_settles _ _ _ _ _ _ Ecs) as (_ & _ & _ & Hint & Hd & _).
  split; [|now apply Hd].
  intros fuel. unfold filemon_timer_cb', filemon_timer_cb.
  rewrite Ha, Hs. simpl. unfold check_trigger. rewrite Htb, Ei.
  fold check_scripts'. rewrite Ecs. now rewrite Hint.
Qed.

Lemma check_trigger_no_refresh (w : world) (sel sel1 : active_script_info_t)
    (w1 : world) :
  check_trigger w sel = (sel1, Some w1) ->
  exists tevs, w_log w1 = (w_log w ++ tevs)%list /\
    Forall (fun e => is_refresh e = false) tevs /\
    (w_mtime w1 = w_mtime w \/
     exists p, w1 = qunlink p w).
Proof.
  intros H. apply check_trigger_spec in H as (_ & _ & _ & _ & _ & H).
  destruct H as [(_ & _ & ->)|(_ & t & _ & _ & ->)].
  - exists []. rewrite app_nil_r. auto.
  - destruct (b_keep_trigger_file sel).
    + exists []. rewrite app_nil_r. auto.
    + eexists. simpl. split; [reflexivity|]. split; [repeat constructor|].
      right. eauto.
Qed.

(** X21: index files are parsed again once per change.  After a tick
    that parsed the manifests again (and asked for a refresh of the
    chooser), the next tick on the same files does not parse them once
    more: it returns [opt_change_interval], whatever the recursion bound,
    and asks for no refresh. *)
Theorem X21_no_second_reparse
    (fuel : nat) (st st1 : qscripts_chooser_t) (w w1 : world) (d : Z) :
  filemon_timer_cb' fuel st w = Some (st1, w1, d) ->
  In ev_refresh_chooser (new_events w w1) ->
  exists st2 w2,
    (forall fuel2,
       filemon_timer_cb' fuel2 st1 w1 = Some (st2, w2, opt_change_interval st)) /\
    ~ In ev_refresh_chooser (new_events w1 w2).
Proof.
  intros Htick Hin.
  assert (Hnoref : forall evs, Forall (fun e => is_refresh e = false) evs ->
            ~ In ev_refresh_chooser evs).
  { intros evs Hf Hi. rewrite Forall_forall in Hf. specialize (Hf _ Hi).
    discriminate Hf. }
  unfold filemon_timer_cb', filemon_timer_cb in Htick.
  destruct (is_monitor_active st) eqn:Ha; simpl in Htick.
  2:{ inversion Htick; subst. rewrite new_events_same in Hin. contradiction. }
  destruct (has_selected_script st) eqn:Hs; simpl in Htick.
  2:{ inversion Htick; subst. rewrite new_events_same in Hin. contradiction. }
  destruct (check_trigger w (selected_script st)) as [sel1 [wt|]] eqn:Et.
  2:{ inversion Htick; subst. rewrite new_events_same in Hin. contradiction. }
  destruct (check_trigger_no_refresh _ _ _ _ Et) as (tevs & Hlog & Htn & _).
  destruct (check_trigger_spec _ _ _ _ Et) as (Hpath1 & _).
  destruct (is_any_dep_index_modified wt sel1 true) as [ms sel2] eqn:Ei.
  destruct (is_any_dep_index_modified_spec _ _ _ _ Ei) as (Hscr2 & _).
  assert (Hquiet : forall st' w',
            check_scripts get_basename get_file_ext st wt sel2 ms = (st', w') ->
            ~ In ev_refresh_chooser (new_events w w')).
  { intros st' w' E.
    apply check_scripts_settles in E as (evs & Hl & Hn & _).
    rewrite (new_events_app _ _ _ _ _ Hlog Hl). apply Hnoref.
    now apply Forall_app. }
  destruct ms.
  { destruct (check_scripts get_basename get_file_ext st wt sel2 not_found)
      as [st' w'] eqn:E. inversion Htick; subst.
    exfalso. now apply (Hquiet _ _ eq_refl). }
  { destruct (check_scripts get_basename get_file_ext st wt sel2 not_modified)
      as [st' w'] eqn:E. inversion Htick; subst.
    exfalso. now apply (Hquiet _ _ eq_refl). }
  clear Hquiet Hin.
  destruct (set_selected_script _ _ _ _ _ _ _) as [sel3|] eqn:Ep;
    [|discriminate].
  inversion Htick; subst. clear Htick.
  assert (Hfresh : Forall (fresh wt) (dep_indices sel3)).
  { unfold set_selected_script in Ep.
    eapply parse_deps_indices_fresh; [exact Ep|constructor]. }
  apply set_selected_script_keeps_pkg_base in Ep as (_ & _ & Hfile).
  set (selX := invalidate_all_scripts sel3).
  assert (HpX : as_path selX = as_path (selected_script st)).
  { unfold selX, invalidate_all_scripts, as_path, as_file in *. simpl.
    rewrite Hfile. simpl. now rewrite Hscr2. }
  assert (HiX : dep_indices selX = dep_indices sel3) by reflexivity.
  unfold filemon_timer_cb', filemon_timer_cb.
  unfold is_monitor_active, has_selected_script in *. simpl.
  fold selX. rewrite Ha, HpX, Hs. simpl.
  destruct (check_trigger (emit ev_refresh_chooser wt) selX)
    as [selT [wt2|]] eqn:Et2.
  2:{ exists (set_selected (set_selected st selX) selT),
        (emit ev_refresh_chooser wt).
      split; [reflexivity|]. rewrite new_events_same. auto. }
  destruct (check_trigger_no_refresh _ _ _ _ Et2) as (tevs2 & Hlog2 & Htn2 & Hw2).
  destruct (check_trigger_spec _ _ _ _ Et2) as (_ & _ & HiT & _).
  destruct (is_any_dep_index_modified wt2 selT true) as [ms2 sel4] eqn:Ei2.
  assert (Hms2 : ms2 <> modified).
  { destruct (is_any_dep_index_modified_spec _ _ _ _ Ei2) as (_ & _ & _ & _ & Hst).
    rewrite HiT, HiX in Hst.
    destruct Hw2 as [Hsame|(p & ->)].
    - rewrite (dep_indices_status_same_files wt wt2) in Hst by exact Hsame.
      rewrite (dep_indices_status_fresh _ _ _ Hfresh) in Hst.
      inversion Hst. congruence.
    - pose proof (dep_indices_status_after_unlink
                    (emit ev_refresh_chooser wt) p _
                    (Forall_impl _ (fun fi H => fresh_same_files wt _ fi eq_refl H)
                       Hfresh)) as Hnm.
      rewrite Hst in Hnm. exact Hnm. }
  destruct (check_scripts get_basename get_file_ext
              (set_selected st selX) wt2 sel4 ms2) as [st2 w2] eqn:Ecs.
  exists st2, w2.
  apply check_scripts_settles in Ecs as (evs & Hl & Hn & Hint & _).
  split.
  - intros fuel2. destruct ms2; try congruence; now rewrite Hint.
  - rewrite (new_events_app _ _ _ _ _ Hlog2 Hl). apply Hnoref.
    now apply Forall_app.
Qed.

End Tick_extras.

(** *** The ticks of the examples, continued *)

Lemma X15_next_tick_is_quiet_witness :
  exists st2, forall fuel2,
    filemon_timer_cb Unix.make_abs_path Unix.qdirname Unix.get_basename
      Unix.get_file_ext fuel2
      (fst (fst (tick_result st_lib (world_lib 7 6 Unix.python))))
      (snd (fst (tick_result st_lib (world_lib 7 6 Unix.python))))
    = Some (st2, snd (fst (tick_result st_lib (world_lib 7 6 Unix.python))),
            opt_change_interval st_lib).
Proof.
  apply (X15_next_tick_is_quiet Unix.make_abs_path Unix.qdirname
           Unix.get_basename Unix.get_file_ext 5 st_lib _
           (world_lib 7 6 Unix.python) _
           (snd (tick_result st_lib (world_lib 7 6 Unix.python)))).
  - reflexivity.
  - reflexivity.
  - vm_compute. intros [H|[H|[]]]; discriminate H.
  - vm_compute. intros [H|[H|[]]]; discriminate H.
Defined.




Lemma X18_idle_trigger_stops_the_tick_witness :
  filemon_timer_cb Unix.make_abs_path Unix.qdirname Unix.get_basename
    Unix.get_file_ext 5 st_trigger world_main_saved
  = Some (st_trigger, world_main_saved, opt_change_interval st_trigger).
Proof.
  apply (X18_idle_trigger_stops_the_tick Unix.make_abs_path Unix.qdirname
           Unix.get_basename Unix.get_file_ext st_trigger world_main_saved 5);
    reflexivity.
Defined.


Lemma X20_missing_index_file_drops_dependencies_witness :
  exists st' w',
    (forall fuel,
       filemon_timer_cb Unix.make_abs_path Unix.qdirname Unix.get_basename
         Unix.get_file_ext fuel st_lib world_manifest_gone
       = Some (st', w', opt_change_interval st_lib)) /\
    dep_scripts (selected_script st') = [].
Proof.
  apply (X20_missing_index_file_drops_dependencies Unix.make_abs_path
           Unix.qdirname Unix.get_basename Unix.get_file_ext st_lib
           world_manifest_gone); reflexivity.
Defined.

Lemma X21_no_second_reparse_witness :
  exists st2 w2,
    (forall fuel2,
       filemon_timer_cb Unix.make_abs_path Unix.qdirname Unix.get_basename
         Unix.get_file_ext fuel2
         (fst (fst (tick_result st_lib world_manifest_saved)))
         (snd (fst (tick_result st_lib world_manifest_saved)))
       = Some (st2, w2, opt_change_interval st_lib)) /\
    ~ In ev_refresh_chooser
        (new_events (snd (fst (tick_result st_lib world_manifest_saved))) w2).
Proof.
  apply (X21_no_second_reparse Unix.make_abs_path Unix.qdirname
           Unix.get_basename Unix.get_file_ext 5 st_lib _ world_manifest_saved _
           (snd (tick_result st_lib world_manifest_saved))).
  - reflexivity.
  - left. reflexivity.
Defined.


(** ** The list of the chooser *)

Lemma scripts_find_none (m : list script_info_t) (f : string) :
  ~ In f (script_paths m) -> scripts_find m f = None.
Proof.
  unfold scripts_find, script_paths.
  induction m as [|si m IH]; simpl; intros Hn; [reflexivity|].
  destruct (String.eqb_spec (file_path (si_file si)) f) as [E|E].
  - exfalso. apply Hn. left. exact E.
  - apply IH. intros H. apply Hn. right. exact H.
Qed.

Lemma scripts_find_some (m : list script_info_t) (f : string) :
  In f (script_paths m) -> exists si, scripts_find m f = Some si.
Proof.
  unfold scripts_find, script_paths.
  induction m as [|si m IH]; simpl; intros Hin; [contradiction|].
  destruct (String.eqb_spec (file_path (si_file si)) f) as [E|E].
  - exists si. reflexivity.
  - destruct Hin as [Hin|Hin]; [contradiction|]. apply IH. exact Hin.
Qed.

(** The three ways [add_script] ends when called by [build_scripts_list]. *)
Lemma add_script_cases (w : world) (m : list script_info_t) (f : string) :
  (In f (script_paths m) /\
   exists si, add_script w m f true true = (Some si, m, w)) \/
  (~ In f (script_paths m) /\
   exists t, w_mtime w f = Some t /\
     add_script w m f true true
     = (Some (mk_script_info (mk_fileinfo f t) "" ""),
        (m ++ [mk_script_info (mk_fileinfo f t) "" ""])%list, w)) \/
  (~ In f (script_paths m) /\ w_mtime w f = None /\
   add_script w m f true true = (None, m, w)).
Proof.
  destruct (in_dec string_dec f (script_paths m)) as [Hin|Hn].
  - left. split; [exact Hin|].
    destruct (scripts_find_some m f Hin) as [si Hsi].
    exists si. unfold add_script. rewrite Hsi. reflexivity.
  - right. unfold add_script, get_file_modification_time.
    rewrite (scripts_find_none m f Hn).
    destruct (w_mtime w f) as [t|] eqn:Et.
    + left. split; [exact Hn|]. exists t. split; reflexivity.
    + right. repeat split; auto.
Qed.

Lemma script_paths_app (m1 m2 : list script_info_t) :
  script_paths (m1 ++ m2) = (script_paths m1 ++ script_paths m2)%list.
Proof. unfold script_paths. apply map_app. Qed.

(** The rows after the loop: the rows before it, followed by one row for each
    further file of the list that exists. *)
Lemma build_scripts_loop_rows (w : world) (b : bool) (sel : string)
    (fs : option string) (l : list string) :
  forall m nsel idx fidx,
    NoDup (script_paths m) -> Forall (listed w) m ->
    let m' := fst (fst (build_scripts_loop w b sel fs l m nsel idx fidx)) in
    NoDup (script_paths m') /\ Forall (listed w) m' /\
    (forall p, In p (script_paths m') <->
               In p (script_paths m) \/ (In p l /\ w_mtime w p <> None)) /\
    exists ext, m' = (m ++ ext)%list.
Proof.
  induction l as [|x l IH]; intros m nsel idx fidx Hnd Hall; simpl.
  - repeat split; auto.
    + intros [H|[[] _]]. exact H.
    + exists []. symmetry. apply app_nil_r.
  - destruct (add_script_cases w m x)
      as [[Hin [si E]]|[[Hn [t [Et E]]]|[Hn [Et E]]]]; rewrite E; simpl.
    + destruct (IH m (if b && (sel =? x) then Some idx else nsel) (S idx)
                  (match fs with
                   | Some f => if x =? f then Some idx else fidx
                   | None => fidx end) Hnd Hall) as [H1 [H2 [H3 H4]]].
      repeat split; auto.
      * intros Hp. apply H3 in Hp. destruct Hp as [Hp|[Hp Hw]]; auto.
      * intros [Hp|[[Hp|Hp] Hw]]; apply H3; auto. subst p. auto.
    + assert (Hnd' : NoDup (script_paths
                (m ++ [mk_script_info (mk_fileinfo x t) "" ""]))).
      { rewrite script_paths_app. simpl.
        apply NoDup_app; [exact Hnd|repeat constructor; intros []|].
        intros p Hp [Hq|[]]. simpl in Hq. subst p. contradiction. }
      assert (Hall' : Forall (listed w)
                (m ++ [mk_script_info (mk_fileinfo x t) "" ""])).
      { apply Forall_app. split; [exact Hall|]. constructor; [|constructor].
        unfold listed, fresh. simpl. auto. }
      destruct (IH _ (if b && (sel =? x) then Some idx else nsel) (S idx)
                  (match fs with
                   | Some f => if x =? f then Some idx else fidx
                   | None => fidx end) Hnd' Hall') as [H1 [H2 [H3 [ext H4]]]].
      repeat split; auto.
      * intros Hp. apply H3 in Hp. rewrite script_paths_app in Hp. simpl in Hp.
        destruct Hp as [Hp|[Hp Hw]]; auto.
        apply in_app_or in Hp. destruct Hp as [Hp|[Hp|[]]]; auto.
        subst p. right. split; [left; reflexivity|congruence].
      * intros Hp. apply H3. rewrite script_paths_app. simpl.
        destruct Hp as [Hp|[[Hp|Hp] Hw]]; auto.
        -- left. apply in_or_app. auto.
        -- left. apply in_or_app. right. left. exact Hp.
      * exists ([mk_script_info (mk_fileinfo x t) "" ""] ++ ext)%list.
        rewrite H4. symmetry. apply app_assoc.
    + destruct (IH m (if b && (sel =? x) then Some idx else nsel) idx
                  (match fs with
                   | Some f => if x =? f then Some idx else fidx
                   | None => fidx end) Hnd Hall) as [H1 [H2 [H3 H4]]].
      repeat split; auto.
      * intros Hp. apply H3 in Hp. destruct Hp as [Hp|[Hp Hw]]; auto.
      * intros [Hp|[[Hp|Hp] Hw]]; apply H3; auto. subst p. congruence.
Qed.

(** The two indices are overwritten at the entries equal to the script they
    look for, and nowhere else. *)
Lemma build_scripts_loop_find_idx_kept (w : world) (b : bool) (sel : string)
    (fs : option string) (l : list string) :
  forall m nsel idx fidx,
    (forall f, fs = Some f -> ~ In f l) ->
    snd (build_scripts_loop w b sel fs l m nsel idx fidx) = fidx.
Proof.
  induction l as [|x l IH]; intros m nsel idx fidx Hn; simpl; [reflexivity|].
  destruct (add_script w m x true true) as [[r m1] w1].
  rewrite IH.
  - destruct fs as [f|]; [|reflexivity].
    destruct (String.eqb_spec x f) as [E|E]; [|reflexivity].
    exfalso. apply (Hn f eq_refl). left. exact E.
  - intros f Hf H. apply (Hn f Hf). right. exact H.
Qed.

Lemma build_scripts_loop_nselected_kept (w : world) (b : bool) (sel : string)
    (fs : option string) (l : list string) :
  forall m nsel idx fidx,
    b = false \/ ~ In sel l ->
    snd (fst (build_scripts_loop w b sel fs l m nsel idx fidx)) = nsel.
Proof.
  induction l as [|x l IH]; intros m nsel idx fidx Hn; simpl; [reflexivity|].
  destruct (add_script w m x true true) as [[r m1] w1].
  rewrite IH.
  - destruct Hn as [Hb|Hn]; [rewrite Hb; reflexivity|].
    destruct (String.eqb_spec sel x) as [E|E].
    + exfalso. apply Hn. left. symmetry. exact E.
    + rewrite andb_false_r. reflexivity.
  - destruct Hn as [Hb|Hn]; [left; exact Hb|].
    right. intros H. apply Hn. right. exact H.
Qed.

Lemma build_scripts_loop_nselected_set (w : world) (sel : string)
    (fs : option string) (l : list string) :
  forall m nsel idx fidx,
    In sel l \/ nsel <> None ->
    snd (fst (build_scripts_loop w true sel fs l m nsel idx fidx)) <> None.
Proof.
  induction l as [|x l IH]; intros m nsel idx fidx Hin; simpl.
  - destruct Hin as [[]|H]. exact H.
  - destruct (add_script w m x true true) as [[r m1] w1].
    apply IH.
    destruct (String.eqb_spec sel x) as [E|E].
    + right. discriminate.
    + destruct Hin as [[Hin|Hin]|Hin]; auto; try congruence.
Qed.

Lemma build_scripts_loop_prefix (w : world) (b : bool) (sel : string)
    (fs : option string) (l : list string) :
  forall m nsel idx fidx,
    exists ext,
      fst (fst (build_scripts_loop w b sel fs l m nsel idx fidx))
      = (m ++ ext)%list.
Proof.
  induction l as [|x l IH]; intros m nsel idx fidx; simpl.
  - exists []. symmetry. apply app_nil_r.
  - destruct (add_script_cases w m x)
      as [[Hin [si E]]|[[Hn [t [Et E]]]|[Hn [Et E]]]]; rewrite E; simpl.
    + apply IH.
    + destruct (IH (m ++ [mk_script_info (mk_fileinfo x t) "" ""])%list
                  (if b && (sel =? x) then Some idx else nsel) (S idx)
                  (match fs with
                   | Some f => if x =? f then Some idx else fidx
                   | None => fidx end)) as [ext H].
      exists ([mk_script_info (mk_fileinfo x t) "" ""] ++ ext)%list.
      rewrite H. symmetry. apply app_assoc.
    + apply IH.
Qed.

(** Without repetitions in the list [idx] is the number of rows, and an index
    that is stored is the index of the row added next. *)
Lemma build_scripts_loop_find_idx (w : world) (b : bool) (sel : string)
    (l : list string) (f : string) (t : Z) :
  forall m nsel idx fidx,
    NoDup l -> (forall p, In p l -> ~ In p (script_paths m)) ->
    idx = length m -> In f l -> w_mtime w f = Some t ->
    let r := build_scripts_loop w b sel (Some f) l m nsel idx fidx in
    exists i, snd r = Some i /\
      nth_error (fst (fst r)) i = Some (mk_script_info (mk_fileinfo f t) "" "").
Proof.
  induction l as [|x l IH]; intros m nsel idx fidx Hnd Hdis Hidx Hin Hw;
    [destruct Hin|].
  apply NoDup_cons_iff in Hnd. destruct Hnd as [Hx Hnd].
  simpl.
  destruct (add_script_cases w m x)
    as [[Hin' [si E]]|[[Hn [t' [Et E]]]|[Hn [Et E]]]]; rewrite E; simpl.
  - exfalso. apply (Hdis x); [left; reflexivity|exact Hin'].
  - destruct (String.eqb_spec x f) as [Exf|Exf].
    + subst x. assert (t' = t) by congruence. subst t'.
      exists idx. split.
      * apply build_scripts_loop_find_idx_kept.
        intros f' Hf'. inversion Hf'. subst f'. exact Hx.
      * destruct (build_scripts_loop_prefix w b sel (Some f) l
                    (m ++ [mk_script_info (mk_fileinfo f t) "" ""])%list
                    (if b && (sel =? f) then Some idx else nsel) (S idx)
                    (Some idx)) as [ext Hext].
        rewrite Hext, <- app_assoc, Hidx.
        rewrite nth_error_app2 by lia. rewrite Nat.sub_diag. reflexivity.
    + destruct Hin as [Hin|Hin]; [contradiction|].
      apply IH; auto.
      * intros p Hp. rewrite script_paths_app. simpl. intros Hq.
        apply in_app_or in Hq. destruct Hq as [Hq|[Hq|[]]].
        -- apply (Hdis p); [right; exact Hp|exact Hq].
        -- subst p. contradiction.
      * rewrite length_app. simpl. lia.
  - destruct (String.eqb_spec x f) as [Exf|Exf]; [congruence|].
    destruct Hin as [Hin|Hin]; [contradiction|].
    apply IH; auto.
    intros p Hp. apply Hdis. right. exact Hp.
Qed.

Lemma build_scripts_loop_nselected (w : world) (fs : option string)
    (l : list string) (sel : string) (t : Z) :
  forall m nsel idx fidx,
    NoDup l -> (forall p, In p l -> ~ In p (script_paths m)) ->
    idx = length m -> In sel l -> w_mtime w sel = Some t ->
    let r := build_scripts_loop w true sel fs l m nsel idx fidx in
    exists i, snd (fst r) = Some i /\
      nth_error (fst (fst r)) i
      = Some (mk_script_info (mk_fileinfo sel t) "" "").
Proof.
  induction l as [|x l IH]; intros m nsel idx fidx Hnd Hdis Hidx Hin Hw;
    [destruct Hin|].
  apply NoDup_cons_iff in Hnd. destruct Hnd as [Hx Hnd].
  simpl.
  destruct (add_script_cases w m x)
    as [[Hin' [si E]]|[[Hn [t' [Et E]]]|[Hn [Et E]]]]; rewrite E; simpl.
  - exfalso. apply (Hdis x); [left; reflexivity|exact Hin'].
  - destruct (String.eqb_spec sel x) as [Exf|Exf].
    + subst x. assert (t' = t) by congruence. subst t'.
      exists idx. split.
      * apply build_scripts_loop_nselected_kept. right. exact Hx.
      * destruct (build_scripts_loop_prefix w true sel fs l
                    (m ++ [mk_script_info (mk_fileinfo sel t) "" ""])%list
                    (Some idx) (S idx)
                    (match fs with
                     | Some f => if sel =? f then Some idx else fidx
                     | None => fidx end)) as [ext Hext].
        rewrite Hext, <- app_assoc, Hidx.
        rewrite nth_error_app2 by lia. rewrite Nat.sub_diag. reflexivity.
    + destruct Hin as [Hin|Hin]; [congruence|].
      apply IH; auto.
      * intros p Hp. rewrite script_paths_app. simpl. intros Hq.
        apply in_app_or in Hq. destruct Hq as [Hq|[Hq|[]]].
        -- apply (Hdis p); [right; exact Hp|exact Hq].
        -- subst p. contradiction.
      * rewrite length_app. simpl. lia.
  - destruct (String.eqb_spec sel x) as [Exf|Exf]; [congruence|].
    destruct Hin as [Hin|Hin]; [congruence|].
    apply IH; auto.
    intros p Hp. apply Hdis. right. exact Hp.
Qed.

(** X22: the rebuilt list of the chooser holds one row for each script of the
    registry's list that exists on disk and no other row: no path occurs
    twice, and every row carries the file's current time stamp and no
    directive. *)
Theorem X22_rebuilt_list_holds_existing_scripts (st : qscripts_chooser_t)
    (w : world) (scripts_list : list string) (find_script : option string) :
  let m_scripts :=
    fst (fst (build_scripts_list st w scripts_list find_script)) in
  NoDup (script_paths m_scripts) /\
  Forall (listed w) m_scripts /\
  forall p, In p (script_paths m_scripts) <->
            In p scripts_list /\ w_mtime w p <> None.
Proof.
  unfold build_scripts_list.
  destruct (build_scripts_loop_rows w (has_selected_script st)
              (if has_selected_script st then as_path (selected_script st)
               else "") find_script scripts_list [] None 0 None)
    as [H1 [H2 [H3 _]]]; [constructor|constructor|].
  split; [exact H1|]. split; [exact H2|]. intros p. split.
  - intros Hp. apply H3 in Hp. destruct Hp as [[]|Hp]. exact Hp.
  - intros [Hp Hw]. apply H3. right. split; assumption.
Qed.

(** X23: when the registry's list has no repetition, the index returned for
    [find_script], a script of the list that exists, is the row of that
    script. *)
Theorem X23_returned_index_is_the_row (st : qscripts_chooser_t) (w : world)
    (scripts_list : list string) (f : string) (t : Z) :
  NoDup scripts_list -> In f scripts_list -> w_mtime w f = Some t ->
  exists i,
    snd (build_scripts_list st w scripts_list (Some f)) = Some i /\
    nth_error (fst (fst (build_scripts_list st w scripts_list (Some f)))) i
    = Some (mk_script_info (mk_fileinfo f t) "" "").
Proof.
  intros Hnd Hin Hw. unfold build_scripts_list.
  apply build_scripts_loop_find_idx; auto.
Qed.

(** X24: when the registry's list has no repetition and the active script is
    in it and exists, rebuilding the list selects the row of the active
    script again. *)
Theorem X24_active_script_stays_selected (st : qscripts_chooser_t) (w : world)
    (scripts_list : list string) (find_script : option string) (t : Z) :
  NoDup scripts_list ->
  has_selected_script st = true ->
  In (as_path (selected_script st)) scripts_list ->
  w_mtime w (as_path (selected_script st)) = Some t ->
  exists i,
    snd (fst (build_scripts_list st w scripts_list find_script)) = Some i /\
    nth_error (fst (fst (build_scripts_list st w scripts_list find_script))) i
    = Some (mk_script_info (mk_fileinfo (as_path (selected_script st)) t)
              "" "").
Proof.
  intros Hnd Hsel Hin Hw. unfold build_scripts_list. rewrite Hsel.
  apply build_scripts_loop_nselected; auto.
Qed.

(** X25: rebuilding the list leaves no row selected exactly when there is no
    active script or the active script is not in the registry's list;
    whether the file of the active script still exists plays no part. *)
Theorem X25_selection_is_lost_only_off_the_list (st : qscripts_chooser_t)
    (w : world) (scripts_list : list string) (find_script : option string) :
  snd (fst (build_scripts_list st w scripts_list find_script)) = None <->
  has_selected_script st = false \/
  ~ In (as_path (selected_script st)) scripts_list.
Proof.
  unfold build_scripts_list. split.
  - intros H. destruct (has_selected_script st) eqn:Hsel; [|left; reflexivity].
    right. intros Hin. revert H.
    apply build_scripts_loop_nselected_set. left. exact Hin.
  - intros H. apply build_scripts_loop_nselected_kept.
    destruct (has_selected_script st); [|left; reflexivity].
    destruct H as [H|H]; [discriminate|right; exact H].
Qed.

(** X26: an active script of the registry's list whose file is gone keeps a
    selected row after the list is rebuilt, and that row, if there is one,
    belongs to another script. *)
Theorem X26_vanished_active_script_selects_another_row
    (st : qscripts_chooser_t) (w : world) (scripts_list : list string)
    (find_script : option string) :
  has_selected_script st = true ->
  In (as_path (selected_script st)) scripts_list ->
  w_mtime w (as_path (selected_script st)) = None ->
  exists i,
    snd (fst (build_scripts_list st w scripts_list find_script)) = Some i /\
    forall si,
      nth_error (fst (fst (build_scripts_list st w scripts_list find_script))) i
      = Some si ->
      file_path (si_file si) <> as_path (selected_script st).
Proof.
  intros Hsel Hin Hw. unfold build_scripts_list. rewrite Hsel.
  destruct (snd (fst (build_scripts_loop w true (as_path (selected_script st))
                        find_script scripts_list [] None 0 None)))
    as [i|] eqn:En.
  - exists i. split; [reflexivity|]. intros si Hsi E.
    destruct (build_scripts_loop_rows w true (as_path (selected_script st))
                find_script scripts_list [] None 0 None)
      as [_ [_ [H3 _]]]; [constructor|constructor|].
    assert (Hp : In (file_path (si_file si))
                   (script_paths (fst (fst (build_scripts_loop w true
                      (as_path (selected_script st)) find_script scripts_list
                      [] None 0 None))))).
    { unfold script_paths. apply in_map_iff. exists si. split; [reflexivity|].
      eapply nth_error_In. exact Hsi. }
    apply H3 in Hp. destruct Hp as [[]|[_ Hp]]. apply Hp. rewrite E. exact Hw.
  - exfalso. revert En. apply build_scripts_loop_nselected_set. left. exact Hin.
Qed.

(** *** The list of the examples *)

Lemma X23_returned_index_is_the_row_witness :
  exists i,
    snd (build_scripts_list st_lib world_main_saved recent_scripts
           (Some "/t/lib.py")) = Some i /\
    nth_error (fst (fst (build_scripts_list st_lib world_main_saved
                           recent_scripts (Some "/t/lib.py")))) i
    = Some (mk_script_info (mk_fileinfo "/t/lib.py" 1) "" "").
Proof.
  apply (X23_returned_index_is_the_row st_lib world_main_saved recent_scripts
           "/t/lib.py" 1).
  - repeat constructor; simpl; intuition discriminate.
  - simpl. auto.
  - reflexivity.
Defined.

Lemma X24_active_script_stays_selected_witness :
  exists i,
    snd (fst (build_scripts_list st_lib world_main_saved recent_scripts None))
    = Some i /\
    nth_error (fst (fst (build_scripts_list st_lib world_main_saved
                           recent_scripts None))) i
    = Some (mk_script_info (mk_fileinfo (as_path (selected_script st_lib)) 8)
              "" "").
Proof.
  apply (X24_active_script_stays_selected st_lib world_main_saved
           recent_scripts None 8).
  - repeat constructor; simpl; intuition discriminate.
  - reflexivity.
  - simpl. auto.
  - reflexivity.
Defined.

Lemma X26_vanished_active_script_selects_another_row_witness :
  exists i,
    snd (fst (build_scripts_list st_lib world_main_gone recent_scripts None))
    = Some i /\
    forall si,
      nth_error (fst (fst (build_scripts_list st_lib world_main_gone
                             recent_scripts None))) i
      = Some si ->
      file_path (si_file si) <> as_path (selected_script st_lib).
Proof.
  apply (X26_vanished_active_script_selects_another_row st_lib
           world_main_gone recent_scripts None).
  - reflexivity.
  - simpl. auto.
  - reflexivity.
Defined.


(** ** Activating a row *)


Section Enter_extras.

Variable make_abs_path : string -> string -> string.
Variable qdirname : string -> string.
Variable get_basename : string -> string.
Variable get_file_ext : string -> option string.





End Enter_extras.

